(** * Ideas and posts services: file storage and HTTP handlers

    A shallow embedding of [app/services/ideas/{storage,router}.py] and
    [app/services/posts/{storage,router}.py].

    - A JSON object is a finite map from keys to values ([gmap string value]);
      a key that is absent and a key bound to [null] are different things,
      as they are for [dict.get].
    - The data file is the only state.  Every storage method is a
      computation over the file that may raise; [load_data], [save_data]
      and [initialize_file] are the only operations that touch it.
    - [uuid.uuid4()] and the clock are inputs of the handlers that call
      them. *)

From stdpp Require Import gmap strings list fin_maps sorting.
From Stdlib Require Import ZArith.

Local Open Scope string_scope.
Local Open Scope list_scope.
Local Open Scope Z_scope.

(** ** Python values and exceptions *)

(** The field values the two services store: [None], booleans, integers,
    strings and lists of strings (tags).  One element of a [string] stands
    for one character of a Python [str]. *)
Inductive value : Type :=
  | VNone
  | VBool (b : bool)
  | VInt (n : Z)
  | VStr (s : string)
  | VList (l : list string).

#[global] Instance value_eq_dec : EqDecision value.
Proof. solve_decision. Defined.

Abbreviation dict := (gmap string value).

(** [{**a, **b}]: the keys of [b] win. *)
Definition spread (a b : dict) : dict := b ∪ a.

(** Truth value of [d.get(k)] in a condition. *)
Definition truthy (v : option value) : bool :=
  match v with
  | None | Some VNone => false
  | Some (VBool b) => b
  | Some (VInt n) => negb (n =? 0)
  | Some (VStr s) => negb (String.eqb s "")
  | Some (VList l) => match l with [] => false | _ => true end
  end.

(** Truth value of an [Optional[str]] argument ([if search:]). *)
Definition nonempty (s : option string) : bool :=
  match s with
  | Some s => negb (String.eqb s "")
  | None => false
  end.

Inductive exn : Type :=
  | FileNotFoundError
  | JSONDecodeError
  | UnicodeDecodeError
  | RecursionError
  | TypeError
  | AttributeError
  | ValueError
  | HTTPException (status_code : nat) (detail : string).

Inductive outcome (A : Type) : Type :=
  | Return (a : A)
  | Raise (e : exn).
Arguments Return {A} a.
Arguments Raise {A} e.

(** The operand of [likes + 1] and [likes - 1]: integers, and booleans as
    the integers they are; anything else is a [TypeError]. *)
Definition as_int (v : value) : outcome Z :=
  match v with
  | VInt n => Return n
  | VBool b => Return (if b then 1 else 0)
  | _ => Raise TypeError
  end.

(** ** The data file *)

(** The ways in which [json.load] fails on a file that is there, other
    than by a [JSONDecodeError]: the bytes are no text in the encoding of
    [open] ([UnicodeDecodeError], raised by the read), an integer literal
    has more digits than [int] converts ([ValueError]), or the nesting is
    deeper than the decoder recurses ([RecursionError]). *)
Inductive unreadable : Type :=
  | NotUnicode
  | HugeInteger
  | TooDeep.

Definition load_error (why : unreadable) : exn :=
  match why with
  | NotUnicode => UnicodeDecodeError
  | HugeInteger => ValueError
  | TooDeep => RecursionError
  end.

(** What [open(path)] and [json.load] make of the file: it is missing; or
    it holds text that decodes to a document ([Text (Some d)]); or text
    that is not JSON, which [json.load] rejects with a [JSONDecodeError]
    ([Text None]); or content on which [json.load] fails in another way.
    (JSON of another shape than the document is not modelled.) *)
Inductive file (D : Type) : Type :=
  | Missing
  | Text (decoded : option D)
  | Unreadable (why : unreadable).
Arguments Missing {D}.
Arguments Text {D} decoded.
Arguments Unreadable {D} why.

(** A computation over the file that returns or raises; writes made before
    a raise stay on disk. *)
Definition M (D A : Type) : Type := file D → outcome A * file D.

Definition ret {D A} (a : A) : M D A := λ f, (Return a, f).
Definition raise {D A} (e : exn) : M D A := λ f, (Raise e, f).
Definition bind {D A B} (k : A → M D B) (m : M D A) : M D B :=
  λ f, match m f with
       | (Return a, f') => k a f'
       | (Raise e, f') => (Raise e, f')
       end.
Definition lift {D A} (o : outcome A) : M D A := λ f, (o, f).

#[global] Instance M_ret {D} : MRet (M D) := @ret D.
#[global] Instance M_bind {D} : MBind (M D) := @bind D.

(** [try: body except (classes): handler] *)
Definition try_except {D A} (body : M D A) (caught : exn → bool)
    (handler : M D A) : M D A :=
  λ f, match body f with
       | (Raise e, f') => if caught e then handler f' else (Raise e, f')
       | r => r
       end.

(** [with open(path, 'r') as f: return json.load(f)] *)
Definition read_json {D} : M D D :=
  λ f, match f with
       | Missing => (Raise FileNotFoundError, f)
       | Text None => (Raise JSONDecodeError, f)
       | Text (Some data) => (Return data, f)
       | Unreadable why => (Raise (load_error why), f)
       end.

(** [with open(path, 'w') as f: json.dump(data, f, indent=2)] *)
Definition write_json {D} (data : D) : M D unit :=
  λ _, (Return tt, Text (Some data)).

Definition decode_or_missing (e : exn) : bool :=
  match e with
  | JSONDecodeError | FileNotFoundError => true
  | _ => false
  end.

(** [next((i for i, x in enumerate(xs) if P x), None)] *)
Definition find_index {A} (P : A → Prop) `{∀ x, Decision (P x)}
    (xs : list A) : option nat :=
  fst <$> list_find P xs.

(** [next((x for x in xs if P x), None)] *)
Definition find_first {A} (P : A → Prop) `{∀ x, Decision (P x)}
    (xs : list A) : option A :=
  snd <$> list_find P xs.

(** [sum(1 for x in xs if P x)] *)
Definition count {A} (P : A → Prop) `{∀ x, Decision (P x)}
    (xs : list A) : Z :=
  Z.of_nat (length (filter P xs)).

(** ** Ideas *)

Module Ideas.

(** The ideas document.  [initialize_file] writes the four collections
    and no operation removes one, so [data.get(k, [])] is the field. *)
Record document : Type := Document {
  ideas : list dict;
  comments : list dict;
  likes : list dict;
  tags : list dict
}.

Definition initial_data : document :=
  {| ideas := []; comments := []; likes := []; tags := [] |}.

Abbreviation St := (M document).

(** *** ideas/storage.py: [IdeasFileStorage] *)
Module storage.

Definition initialize_file : St unit := write_json initial_data.

Definition load_data : St document :=
  try_except read_json decode_or_missing
    (initialize_file ;; ret initial_data).

Definition save_data (data : document) : St unit := write_json data.

Definition has_id (idea_id : string) (idea : dict) : Prop :=
  idea !! "id" = Some (VStr idea_id).

Definition of_idea (idea_id : string) (row : dict) : Prop :=
  row !! "idea_id" = Some (VStr idea_id).

Definition like_of (idea_id user_id : string) (like : dict) : Prop :=
  like !! "idea_id" = Some (VStr idea_id) ∧
  like !! "user_id" = Some (VStr user_id).

#[global] Instance has_id_dec idea_id idea : Decision (has_id idea_id idea).
Proof. unfold has_id. apply _. Defined.
#[global] Instance of_idea_dec idea_id row : Decision (of_idea idea_id row).
Proof. unfold of_idea. apply _. Defined.
#[global] Instance like_of_dec idea_id user_id like :
    Decision (like_of idea_id user_id like).
Proof. unfold like_of. apply _. Defined.
#[global] Typeclasses Opaque has_id of_idea like_of.

(** What [get_idea] returns: the list under ["comments_list"] in
    [comments_list] (a list of objects is not a [value]) and the other
    keys of [{**idea, "userLiked": .., "comments_list": .., "comments": ..}]
    in [detail]. *)
Record idea_detail : Type := IdeaDetail {
  detail : dict;
  comments_list : list dict
}.

(** [for like in likes: if ...: user_liked = True; break] *)
Definition user_liked_by (idea_id : string) (current_user_id : option string)
    (likes : list dict) : bool :=
  match current_user_id with
  | Some u =>
      if nonempty current_user_id
      then bool_decide (Exists (like_of idea_id u) likes)
      else false
  | None => false
  end.

Definition get_idea (idea_id : string) (current_user_id : option string)
    : St (option idea_detail) :=
  data ← load_data;
  match find_first (has_id idea_id) (ideas data) with
  | None => ret None
  | Some idea =>
      if decide (idea = ∅) then ret None else
      let user_liked := user_liked_by idea_id current_user_id (likes data) in
      let idea_comments := filter (of_idea idea_id) (comments data) in
      ret (Some {|
        detail := delete "comments_list" (spread idea
          (<["comments" := VInt (Z.of_nat (length idea_comments))]>
             {["userLiked" := VBool user_liked]}));
        comments_list := idea_comments |})
  end.

Definition create_idea (idea_data : dict) (uuid4 today : string) : St dict :=
  data ← load_data;
  let idea_data :=
    if decide (is_Some (idea_data !! "id")) then idea_data
    else <["id" := VStr uuid4]> idea_data in
  let idea_data :=
    if decide (is_Some (idea_data !! "date")) then idea_data
    else <["date" := VStr today]> idea_data in
  let idea_data :=
    if decide (is_Some (idea_data !! "likes")) then idea_data
    else <["likes" := VInt 0]> idea_data in
  let idea_data :=
    if decide (is_Some (idea_data !! "tags")) then idea_data
    else <["tags" := VList []]> idea_data in
  save_data {| ideas := ideas data ++ [idea_data];
               comments := comments data;
               likes := likes data;
               tags := tags data |} ;;
  ret (spread idea_data
         (<["comments" := VInt 0]> {["userLiked" := VBool false]})).

Definition update_idea (idea_id : string) (idea_data : dict)
    : St (option dict) :=
  data ← load_data;
  match find_index (has_id idea_id) (ideas data) with
  | None => ret None
  | Some idea_index =>
      match ideas data !! idea_index with
      | None => ret None
      | Some current_idea =>
          let updated_idea := spread current_idea idea_data in
          save_data {| ideas := <[idea_index := updated_idea]> (ideas data);
                       comments := comments data;
                       likes := likes data;
                       tags := tags data |} ;;
          let idea_comments := count (of_idea idea_id) (comments data) in
          ret (Some (spread updated_idea {["comments" := VInt idea_comments]}))
      end
  end.

Definition delete_idea (idea_id : string) : St bool :=
  data ← load_data;
  match find_index (has_id idea_id) (ideas data) with
  | None => ret false
  | Some idea_index =>
      save_data {| ideas := delete idea_index (ideas data);
                   comments := filter (λ c, ¬ of_idea idea_id c) (comments data);
                   likes := filter (λ l, ¬ of_idea idea_id l) (likes data);
                   tags := tags data |} ;;
      ret true
  end.

Definition get_likes (idea : dict) : value :=
  default (VInt 0) (idea !! "likes").

(** The [new_like] row of [toggle_like]. *)
Definition new_like (idea_id user_id uuid4 now : string) : dict :=
  <["id" := VStr uuid4]>
  (<["user_id" := VStr user_id]>
  (<["idea_id" := VStr idea_id]>
  {["created_at" := VStr now]})).

Definition toggle_like (idea_id user_id : string) (uuid4 now : string)
    : St (option dict) :=
  data ← load_data;
  match find_index (has_id idea_id) (ideas data) with
  | None => ret None
  | Some idea_index =>
      match ideas data !! idea_index with
      | None => ret None
      | Some idea =>
          '(likes', idea', user_liked) ←
            match find_index (like_of idea_id user_id) (likes data) with
            | Some like_index =>
                n ← lift (as_int (get_likes idea));
                ret (delete like_index (likes data),
                     <["likes" := VInt (Z.max 0 (n - 1))]> idea,
                     false)
            | None =>
                let new_like := new_like idea_id user_id uuid4 now in
                n ← lift (as_int (get_likes idea));
                ret (likes data ++ [new_like],
                     <["likes" := VInt (n + 1)]> idea,
                     true)
            end;
          save_data {| ideas := <[idea_index := idea']> (ideas data);
                       comments := comments data;
                       likes := likes';
                       tags := tags data |} ;;
          let idea_comments := count (of_idea idea_id) (comments data) in
          ret (Some (spread idea'
                 (<["comments" := VInt idea_comments]>
                    {["userLiked" := VBool user_liked]})))
      end
  end.

Definition add_comment (idea_id : string) (comment_data : dict)
    (uuid4 today : string) : St (option dict) :=
  data ← load_data;
  match find_first (has_id idea_id) (ideas data) with
  | None => ret None
  | Some idea =>
      if decide (idea = ∅) then ret None else
      let comment_data := <["idea_id" := VStr idea_id]> comment_data in
      let comment_data :=
        if decide (is_Some (comment_data !! "id")) then comment_data
        else <["id" := VStr uuid4]> comment_data in
      let comment_data :=
        if decide (is_Some (comment_data !! "date")) then comment_data
        else <["date" := VStr today]> comment_data in
      save_data {| ideas := ideas data;
                   comments := comments data ++ [comment_data];
                   likes := likes data;
                   tags := tags data |} ;;
      ret (Some comment_data)
  end.

End storage.

(** *** ideas/schemas.py: request bodies, after validation *)

Record IdeaCreate : Type := {
  ic_title : string;
  ic_description : string;
  ic_author : string;
  ic_tags : list string
}.

Record IdeaUpdate : Type := {
  iu_title : option string;
  iu_description : option string;
  iu_tags : option (list string)
}.

Record CommentCreate : Type := {
  cc_content : string;
  cc_author : string
}.

(** *** ideas/router.py *)
Module router.

Definition not_found {A} : St A := raise (HTTPException 404 "Idea not found").

(** [if not d: raise HTTPException(404)] on an [Optional[dict]] *)
Definition or_404 (r : option dict) : St dict :=
  match r with
  | None => not_found
  | Some d => if decide (d = ∅) then not_found else ret d
  end.

(** The same test on the result of [get_idea], which is never empty: it
    carries ["comments_list"]. *)
Definition found (r : option storage.idea_detail) : St storage.idea_detail :=
  match r with
  | None => not_found
  | Some idea => ret idea
  end.

Definition get_idea (idea_id : string) : St storage.idea_detail :=
  idea ← storage.get_idea idea_id None;
  found idea.

(** The [new_idea] dictionary of [create_idea]. *)
Definition new_idea (idea : IdeaCreate) (idea_id now : string) : dict :=
  <["id" := VStr idea_id]>
  (<["title" := VStr (ic_title idea)]>
  (<["description" := VStr (ic_description idea)]>
  (<["author" := VStr (ic_author idea)]>
  (<["date" := VStr now]>
  (<["likes" := VInt 0]>
  (<["tags" := VList (ic_tags idea)]>
  {["userLiked" := VBool false]})))))).

(** [uuid4] and [now] are what [uuid.uuid4()] and the clock give during
    the request; [storage.create_idea] would ask again for keys that are
    missing, and none is. *)
Definition create_idea (idea : IdeaCreate) (uuid4 now : string) : St dict :=
  let idea_id := uuid4 in
  let new_idea := new_idea idea idea_id now in
  storage.create_idea new_idea uuid4 now.

Definition updates_of (idea_update : IdeaUpdate) : dict :=
  let updates : dict := ∅ in
  let updates :=
    match iu_title idea_update with
    | Some title => <["title" := VStr title]> updates
    | None => updates
    end in
  let updates :=
    match iu_description idea_update with
    | Some description => <["description" := VStr description]> updates
    | None => updates
    end in
  let updates :=
    match iu_tags idea_update with
    | Some tags => <["tags" := VList tags]> updates
    | None => updates
    end in
  updates.

Definition update_idea (idea_id : string) (idea_update : IdeaUpdate)
    : St dict :=
  idea ← storage.get_idea idea_id None;
  _ ← found idea;
  updated_idea ← storage.update_idea idea_id (updates_of idea_update);
  or_404 updated_idea.

Definition delete_idea (idea_id : string) : St unit :=
  idea ← storage.get_idea idea_id None;
  _ ← found idea;
  result ← storage.delete_idea idea_id;
  if result : bool then ret tt else not_found.

(** [user_id: str = "anonymous"]: the query parameter, when given. *)
Definition toggle_like (idea_id : string) (user_id : option string)
    (uuid4 now : string) : St dict :=
  let user_id := default "anonymous" user_id in
  idea ← storage.get_idea idea_id None;
  _ ← found idea;
  updated_idea ← storage.toggle_like idea_id user_id uuid4 now;
  or_404 updated_idea.

(** The [new_comment] dictionary of [add_comment]. *)
Definition new_comment (comment : CommentCreate) (idea_id comment_id now : string)
    : dict :=
  <["id" := VStr comment_id]>
  (<["content" := VStr (cc_content comment)]>
  (<["author" := VStr (cc_author comment)]>
  (<["idea_id" := VStr idea_id]>
  {["date" := VStr now]}))).

Definition add_comment (idea_id : string) (comment : CommentCreate)
    (uuid4 now : string) : St dict :=
  idea ← storage.get_idea idea_id None;
  _ ← found idea;
  let comment_id := uuid4 in
  let new_comment := new_comment comment idea_id comment_id now in
  comment ← storage.add_comment idea_id new_comment uuid4 now;
  or_404 comment.

End router.

(** *** The service as a transition system *)

(** The requests that write: one constructor per mutating endpoint, with
    the identifier and the date the handler draws while it serves it. *)
Inductive request : Type :=
  | CreateIdea (idea : IdeaCreate) (uuid4 now : string)
  | UpdateIdea (idea_id : string) (idea_update : IdeaUpdate)
  | DeleteIdea (idea_id : string)
  | ToggleLike (idea_id : string) (user_id : option string) (uuid4 now : string)
  | AddComment (idea_id : string) (comment : CommentCreate) (uuid4 now : string).

(** The file after the request is served, whether it succeeded or not. *)
Definition handle (r : request) (f : file document) : file document :=
  match r with
  | CreateIdea idea uuid4 now => (router.create_idea idea uuid4 now f).2
  | UpdateIdea idea_id idea_update => (router.update_idea idea_id idea_update f).2
  | DeleteIdea idea_id => (router.delete_idea idea_id f).2
  | ToggleLike idea_id user_id uuid4 now =>
      (router.toggle_like idea_id user_id uuid4 now f).2
  | AddComment idea_id comment uuid4 now =>
      (router.add_comment idea_id comment uuid4 now f).2
  end.

Inductive reachable : file document → Prop :=
  | reachable_empty : reachable (Text (Some initial_data))
  | reachable_step r f : reachable f → reachable (handle r f).

(** Number of Like rows that reference an idea. *)
Definition likes_of (d : document) (idea_id : string) : Z :=
  count (storage.of_idea idea_id) (likes d).

(** The counters agree with the Like rows: reading the ideas in order,
    the first one with a given id carries the number of rows for that
    id, and a later one with the same id carries zero. *)
Fixpoint counters_ok (expected : string → Z) (ideas : list dict) : Prop :=
  match ideas with
  | [] => True
  | idea :: rest =>
      ∃ idea_id,
        storage.has_id idea_id idea ∧
        idea !! "likes" = Some (VInt (expected idea_id)) ∧
        counters_ok (λ x, if decide (x = idea_id) then 0 else expected x) rest
  end.

Record consistent (d : document) : Prop := {
  like_unique : ∀ idea_id user_id,
    count (storage.like_of idea_id user_id) (likes d) ≤ 1;
  like_counted : counters_ok (likes_of d) (ideas d);
  like_refers : ∀ idea_id,
    Forall (λ idea, ¬ storage.has_id idea_id idea) (ideas d) →
    likes_of d idea_id = 0
}.

End Ideas.

(** ** Posts *)

Module Posts.

Record document : Type := Document {
  posts : list dict;
  post_comments : list dict;
  tags : list dict
}.

Definition initial_data : document :=
  {| posts := []; post_comments := []; tags := [] |}.

Abbreviation St := (M document).

(** *** posts/storage.py: [PostsFileStorage] *)
Module storage.

Definition initialize_file : St unit := write_json initial_data.

Definition load_data : St document :=
  try_except read_json decode_or_missing
    (initialize_file ;; ret initial_data).

Definition save_data (data : document) : St unit := write_json data.

Definition has_id (post_id : string) (post : dict) : Prop :=
  post !! "id" = Some (VStr post_id).

Definition of_post (post_id : string) (comment : dict) : Prop :=
  comment !! "post_id" = Some (VStr post_id).

#[global] Instance has_id_dec post_id post : Decision (has_id post_id post).
Proof. unfold has_id. apply _. Defined.
#[global] Instance of_post_dec post_id c : Decision (of_post post_id c).
Proof. unfold of_post. apply _. Defined.
#[global] Typeclasses Opaque has_id of_post.

(** [d.get(k)]: [None] for an absent key. *)
Definition get (d : dict) (k : string) : value := default VNone (d !! k).

(** Lists cannot be dictionary keys. *)
Definition hashable (v : value) : bool :=
  match v with VList _ => false | _ => true end.

(** Equality of dictionary keys: [True == 1]. *)
Definition key_eqb (a b : value) : bool :=
  match a, b with
  | VNone, VNone => true
  | VStr s, VStr t => String.eqb s t
  | (VBool _ | VInt _), (VBool _ | VInt _) =>
      match as_int a, as_int b with
      | Return m, Return n => m =? n
      | _, _ => false
      end
  | _, _ => false
  end.

(** [comments_by_post], in insertion order. *)
Definition groups : Type := list (value * list dict).

Fixpoint group_get (k : value) (g : groups) : option (list dict) :=
  match g with
  | [] => None
  | (k', cs) :: g => if key_eqb k' k then Some cs else group_get k g
  end.

Fixpoint group_append (k : value) (c : dict) (g : groups) : groups :=
  match g with
  | [] => []
  | (k', cs) :: g =>
      if key_eqb k' k then (k', cs ++ [c]) :: g
      else (k', cs) :: group_append k c g
  end.

Fixpoint group_comments (post_comments : list dict) (comments_by_post : groups)
    : outcome groups :=
  match post_comments with
  | [] => Return comments_by_post
  | comment :: rest =>
      let post_id := get comment "post_id" in
      if hashable post_id then
        let comments_by_post :=
          match group_get post_id comments_by_post with
          | None => comments_by_post ++ [(post_id, [])]
          | Some _ => comments_by_post
          end in
        group_comments rest (group_append post_id comment comments_by_post)
      else Raise TypeError
  end.

(** [needle in haystack] on strings *)
Fixpoint contains (needle haystack : string) : bool :=
  String.prefix needle haystack ||
  match haystack with
  | EmptyString => false
  | String _ rest => contains needle rest
  end.

Section get_posts.

(** Two library functions are parameters: [str.lower], and
    [datetime.fromisoformat] as a map from the text of a timestamp to
    its place on the time line ([None]: the text is rejected with a
    [ValueError]). *)
Variable lower : string → string.
Variable fromisoformat : string → option Z.

(** [post.get(k, "").lower()] *)
Definition lowered (post : dict) (k : string) : outcome string :=
  match post !! k with
  | None => Return (lower "")
  | Some (VStr s) => Return (lower s)
  | Some _ => Raise AttributeError
  end.

(** The condition under which the search filter skips the post; [and]
    and [or] evaluate from the left and stop early. *)
Definition search_misses (search : string) (post : dict) : outcome bool :=
  let search_term := lower search in
  match lowered post "title" with
  | Raise e => Raise e
  | Return title =>
      if contains search_term title then Return false else
      match lowered post "content" with
      | Raise e => Raise e
      | Return content =>
          if contains search_term content then Return false else
          match get post "excerpt" with
          | VNone => Return true
          | VStr excerpt => Return (negb (contains search_term (lower excerpt)))
          | _ => Raise AttributeError
          end
      end
  end.

(** [tag not in post.get("tags", [])] *)
Definition tag_misses (tag : string) (post : dict) : outcome bool :=
  match post !! "tags" with
  | None => Return true
  | Some (VList tags) => Return (negb (bool_decide (tag ∈ tags)))
  | Some (VStr s) => Return (negb (contains tag s))
  | Some _ => Raise TypeError
  end.

(** [len(comments_by_post.get(post.get("id"), []))] *)
Definition comments_count (comments_by_post : groups) (post : dict)
    : outcome Z :=
  let post_id := get post "id" in
  if hashable post_id then
    Return (Z.of_nat (length (default [] (group_get post_id comments_by_post))))
  else Raise TypeError.

(** The filter loop. *)
Fixpoint filter_posts (comments_by_post : groups)
    (search tag : option string) (published_only : bool)
    (posts : list dict) : outcome (list dict) :=
  match posts with
  | [] => Return []
  | post :: rest =>
      let continue := filter_posts comments_by_post search tag published_only rest in
      if published_only && negb (truthy (post !! "is_published")) then continue else
      match (if nonempty search
             then search_misses (default "" search) post
             else Return false) with
      | Raise e => Raise e
      | Return true => continue
      | Return false =>
          match (if nonempty tag
                 then tag_misses (default "" tag) post
                 else Return false) with
          | Raise e => Raise e
          | Return true => continue
          | Return false =>
              match comments_count comments_by_post post with
              | Raise e => Raise e
              | Return n =>
                  let post_with_details :=
                    spread post {["comments_count" := VInt n]} in
                  match continue with
                  | Raise e => Raise e
                  | Return filtered_posts =>
                      Return (post_with_details :: filtered_posts)
                  end
              end
          end
      end
  end.

(** [x.get("published_at", x.get("created_at", "2000-01-01T00:00:00"))]:
    the default is used when the key is absent, not when it holds
    [None]. *)
Definition sort_date (x : dict) : value :=
  default (default (VStr "2000-01-01T00:00:00") (x !! "created_at"))
          (x !! "published_at").

(** The sort key; [fromisoformat] wants a [str]. *)
Definition sort_key (x : dict) : outcome Z :=
  match sort_date x with
  | VStr s =>
      match fromisoformat s with
      | Some t => Return t
      | None => Raise ValueError
      end
  | _ => Raise TypeError
  end.

(** [list.sort] computes the key of every item, in order, before it
    compares any. *)
Fixpoint keyed (xs : list dict) : outcome (list (Z * dict)) :=
  match xs with
  | [] => Return []
  | x :: xs =>
      match sort_key x with
      | Raise e => Raise e
      | Return k =>
          match keyed xs with
          | Raise e => Raise e
          | Return kxs => Return ((k, x) :: kxs)
          end
      end
  end.

(** [sort(reverse=True)] is stable: items with equal keys keep their
    order. *)
Fixpoint insert_desc (kx : Z * dict) (sorted : list (Z * dict))
    : list (Z * dict) :=
  match sorted with
  | [] => [kx]
  | ky :: rest =>
      if kx.1 <? ky.1 then ky :: insert_desc kx rest
      else kx :: ky :: rest
  end.

Definition sort_desc (kxs : list (Z * dict)) : list (Z * dict) :=
  foldr insert_desc [] kxs.

(** [skip] and [limit] are validated as [ge=0] and [ge=1] by the HTTP
    layer. *)
Definition get_posts (skip limit : nat) (search tag : option string)
    (published_only : bool) : St (list dict) :=
  data ← load_data;
  comments_by_post ← lift (group_comments (post_comments data) []);
  filtered_posts ←
    lift (filter_posts comments_by_post search tag published_only (posts data));
  kxs ← lift (keyed filtered_posts);
  let filtered_posts := (sort_desc kxs).*2 in
  let paginated_posts := take limit (drop skip filtered_posts) in
  ret paginated_posts.

End get_posts.

(** What [get_post] returns: the list under ["comments"] in [comments]
    and the other keys of [{**post, "comments": .., "comments_count": ..}]
    in [detail]. *)
Record post_detail : Type := PostDetail {
  detail : dict;
  comments : list dict
}.

Definition get_post (post_id : string) : St (option post_detail) :=
  data ← load_data;
  match find_first (has_id post_id) (posts data) with
  | None => ret None
  | Some post =>
      if decide (post = ∅) then ret None else
      let comments := filter (of_post post_id) (post_comments data) in
      ret (Some {|
        detail := delete "comments" (spread post
          {["comments_count" := VInt (Z.of_nat (length comments))]});
        comments := comments |})
  end.

Definition create_post (post_data : dict) : St dict :=
  data ← load_data;
  save_data {| posts := posts data ++ [post_data];
               post_comments := post_comments data;
               tags := tags data |} ;;
  ret (spread post_data {["comments_count" := VInt 0]}).

Definition update_post (post_id : string) (post_data : dict)
    : St (option dict) :=
  data ← load_data;
  match find_index (has_id post_id) (posts data) with
  | None => ret None
  | Some post_index =>
      match posts data !! post_index with
      | None => ret None
      | Some post =>
          let updated := spread post post_data in
          save_data {| posts := <[post_index := updated]> (posts data);
                       post_comments := post_comments data;
                       tags := tags data |} ;;
          let comments_count := count (of_post post_id) (post_comments data) in
          ret (Some (spread updated {["comments_count" := VInt comments_count]}))
      end
  end.

Definition delete_post (post_id : string) : St bool :=
  data ← load_data;
  match find_index (has_id post_id) (posts data) with
  | None => ret false
  | Some post_index =>
      save_data {| posts := delete post_index (posts data);
                   post_comments :=
                     filter (λ c, ¬ of_post post_id c) (post_comments data);
                   tags := tags data |} ;;
      ret true
  end.

Definition add_comment (post_id : string) (comment_data : dict)
    : St (option dict) :=
  data ← load_data;
  match find_first (has_id post_id) (posts data) with
  | None => ret None
  | Some post =>
      if decide (post = ∅) then ret None else
      save_data {| posts := posts data;
                   post_comments := post_comments data ++ [comment_data];
                   tags := tags data |} ;;
      ret (Some comment_data)
  end.

End storage.

(** *** posts/schemas.py: request bodies, after validation *)

Record PostCreate : Type := {
  pc_title : string;
  pc_content : string;
  pc_excerpt : option string;
  pc_author : string;
  pc_tags : list string;
  pc_is_published : bool
}.

Record PostUpdate : Type := {
  pu_title : option string;
  pu_content : option string;
  pu_excerpt : option string;
  pu_tags : option (list string);
  pu_is_published : option bool
}.

Record PostCommentCreate : Type := {
  pcc_content : string;
  pcc_author : string
}.

(** *** posts/router.py *)
Module router.

Definition not_found {A} : St A := raise (HTTPException 404 "Post not found").

(** [if not d: raise HTTPException(404)] on an [Optional[dict]] *)
Definition or_404 (r : option dict) : St dict :=
  match r with
  | None => not_found
  | Some d => if decide (d = ∅) then not_found else ret d
  end.

(** The same test on the result of [get_post], which is never empty: it
    carries ["comments"]. *)
Definition found (r : option storage.post_detail) : St storage.post_detail :=
  match r with
  | None => not_found
  | Some post => ret post
  end.

Section get_posts.
Variable lower : string → string.
Variable fromisoformat : string → option Z.

Definition get_posts (skip limit : nat) (search tag : option string)
    (published_only : bool) : St (list dict) :=
  storage.get_posts lower fromisoformat skip limit search tag published_only.
End get_posts.

Definition get_post (post_id : string) : St storage.post_detail :=
  post ← storage.get_post post_id;
  post ← found post;
  if negb (truthy (storage.detail post !! "is_published")) then not_found
  else ret post.

(** [content[:150]], with ["..."] appended when that cut something off *)
Definition excerpt_of (content : string) : string :=
  let excerpt := String.substring 0 150 content in
  if (150 <? String.length content)%nat then excerpt +:+ "..." else excerpt.

Definition optional_str (s : option string) : value :=
  match s with
  | Some s => VStr s
  | None => VNone
  end.

(** The [new_post] dictionary of [create_post]: ["published_at"] is always
    a key of it, bound to [None] for a draft. *)
Definition new_post (post_create : PostCreate) (post_id : string)
    (excerpt : option string) (now : string) (published_at : option string)
    : dict :=
  <["id" := VStr post_id]>
  (<["title" := VStr (pc_title post_create)]>
  (<["content" := VStr (pc_content post_create)]>
  (<["excerpt" := optional_str excerpt]>
  (<["author" := VStr (pc_author post_create)]>
  (<["created_at" := VStr now]>
  (<["updated_at" := VStr now]>
  (<["published_at" := optional_str published_at]>
  (<["is_published" := VBool (pc_is_published post_create)]>
  {["tags" := VList (pc_tags post_create)]})))))))).

Definition create_post (post_create : PostCreate) (uuid4 now : string)
    : St dict :=
  let post_id := uuid4 in
  let excerpt := pc_excerpt post_create in
  let excerpt :=
    if negb (nonempty excerpt) && negb (String.eqb (pc_content post_create) "")
    then Some (excerpt_of (pc_content post_create))
    else excerpt in
  let published_at := if pc_is_published post_create then Some now else None in
  let new_post := new_post post_create post_id excerpt now published_at in
  storage.create_post new_post.

(** The [updates] dictionary; [published_now] and [updated_now] are the
    two readings of the clock. *)
Definition updates_of (post : storage.post_detail) (post_update : PostUpdate)
    (published_now updated_now : string) : dict :=
  let updates : dict := ∅ in
  let updates :=
    match pu_title post_update with
    | Some title => <["title" := VStr title]> updates
    | None => updates
    end in
  let updates :=
    match pu_content post_update with
    | Some content =>
        let updates := <["content" := VStr content]> updates in
        match pu_excerpt post_update with
        | None => <["excerpt" := VStr (excerpt_of content)]> updates
        | Some _ => updates
        end
    | None => updates
    end in
  let updates :=
    match pu_excerpt post_update with
    | Some excerpt => <["excerpt" := VStr excerpt]> updates
    | None => updates
    end in
  let updates :=
    match pu_tags post_update with
    | Some tags => <["tags" := VList tags]> updates
    | None => updates
    end in
  let updates :=
    match pu_is_published post_update with
    | Some is_published =>
        let updates :=
          if is_published && negb (truthy (storage.detail post !! "is_published"))
          then <["published_at" := VStr published_now]> updates
          else updates in
        <["is_published" := VBool is_published]> updates
    | None => updates
    end in
  <["updated_at" := VStr updated_now]> updates.

Definition update_post (post_id : string) (post_update : PostUpdate)
    (published_now updated_now : string) : St dict :=
  post ← storage.get_post post_id;
  post ← found post;
  let updates := updates_of post post_update published_now updated_now in
  updated_post ← storage.update_post post_id updates;
  or_404 updated_post.

Definition delete_post (post_id : string) : St unit :=
  post ← storage.get_post post_id;
  _ ← found post;
  result ← storage.delete_post post_id;
  if result : bool then ret tt else not_found.

(** The [new_comment] dictionary of [add_comment]. *)
Definition new_comment (comment_create : PostCommentCreate)
    (post_id comment_id now : string) : dict :=
  <["id" := VStr comment_id]>
  (<["content" := VStr (pcc_content comment_create)]>
  (<["author" := VStr (pcc_author comment_create)]>
  (<["post_id" := VStr post_id]>
  {["created_at" := VStr now]}))).

Definition add_comment (post_id : string) (comment_create : PostCommentCreate)
    (uuid4 now : string) : St dict :=
  post ← storage.get_post post_id;
  match post with
  | None => not_found
  | Some post =>
      if negb (truthy (storage.detail post !! "is_published")) then not_found
      else
        let comment_id := uuid4 in
        let new_comment := new_comment comment_create post_id comment_id now in
        comment ← storage.add_comment post_id new_comment;
        or_404 comment
  end.

End router.

End Posts.

(** ** Listings and tag indexes *)

(** Order of Python strings: by code point, from the left. *)
Definition str_le (s t : string) : Prop := String.leb s t = true.

#[global] Instance str_le_dec s t : Decision (str_le s t).
Proof. unfold str_le. apply _. Defined.

(** [all_tags.extend(x.get("tags", []))]: what one idea or post adds.  A
    string is iterated character by character; [None] and numbers are not
    iterable. *)
Definition tags_of (x : dict) : outcome (list string) :=
  match x !! "tags" with
  | None => Return []
  | Some (VList tags) => Return tags
  | Some (VStr s) => Return ((λ c, String c EmptyString) <$> String.list_ascii_of_string s)
  | Some _ => Raise TypeError
  end.

Fixpoint collect_tags (xs : list dict) : outcome (list string) :=
  match xs with
  | [] => Return []
  | x :: xs =>
      match tags_of x with
      | Raise e => Raise e
      | Return tags =>
          match collect_tags xs with
          | Raise e => Raise e
          | Return all_tags => Return (tags ++ all_tags)
          end
      end
  end.

(** [sorted(list(set(all_tags)))]: the order in which the set is listed
    does not show in the sorted result. *)
Definition unique_tags (all_tags : list string) : list string :=
  merge_sort str_le (remove_dups all_tags).

(** Python's [==] on two values. *)
Definition py_eq (a b : value) : bool :=
  match a, b with
  | VList l1, VList l2 => bool_decide (l1 = l2)
  | _, _ => Posts.storage.key_eqb a b
  end.

(** The loop that builds [comments_by_idea] and [comments_by_post], for
    the key it groups by. *)
Fixpoint group_by (key : string) (comments : list dict)
    (by_parent : Posts.storage.groups) : outcome Posts.storage.groups :=
  match comments with
  | [] => Return by_parent
  | comment :: rest =>
      let parent_id := Posts.storage.get comment key in
      if Posts.storage.hashable parent_id then
        let by_parent :=
          match Posts.storage.group_get parent_id by_parent with
          | None => by_parent ++ [(parent_id, [])]
          | Some _ => by_parent
          end in
        group_by key rest (Posts.storage.group_append parent_id comment by_parent)
      else Raise TypeError
  end.

(** [a < b] on lists of strings: decided at the first position where they
    differ. *)
Fixpoint list_ltb (l1 l2 : list string) : bool :=
  match l1, l2 with
  | _, [] => false
  | [], _ :: _ => true
  | x :: l1, y :: l2 => if String.eqb x y then list_ltb l1 l2 else String.ltb x y
  end.

(** Whether [a < b] is defined: numbers with numbers, strings with
    strings, lists with lists; [None] with nothing. *)
Definition comparable (a b : value) : bool :=
  match a, b with
  | (VBool _ | VInt _), (VBool _ | VInt _) => true
  | VStr _, VStr _ => true
  | VList _, VList _ => true
  | _, _ => false
  end.

(** [a < b] where it is defined. *)
Definition value_ltb (a b : value) : bool :=
  match a, b with
  | VStr s, VStr t => String.ltb s t
  | VList l1, VList l2 => list_ltb l1 l2
  | _, _ =>
      match as_int a, as_int b with
      | Return m, Return n => m <? n
      | _, _ => false
      end
  end.

Module IdeasRead.

(** *** ideas/storage.py: [get_ideas] and [get_all_tags] *)
Module storage.

Import Ideas.

Section get_ideas.

(** [str.lower] and [datetime.strptime(_, "%B %d, %Y")] are parameters;
    [strptime] gives the place of a date on the time line, or [None] for
    text it rejects with a [ValueError]. *)
Variable lower : string → string.
Variable strptime : string → option Z.

(** The condition under which the search filter skips the idea. *)
Definition search_misses (search : string) (idea : dict) : outcome bool :=
  let search_term := lower search in
  match Posts.storage.lowered lower idea "title" with
  | Raise e => Raise e
  | Return title =>
      if Posts.storage.contains search_term title then Return false else
      match Posts.storage.lowered lower idea "description" with
      | Raise e => Raise e
      | Return description =>
          Return (negb (Posts.storage.contains search_term description))
      end
  end.

(** [for like in likes: if like.get("idea_id") == idea.get("id") and
    like.get("user_id") == current_user_id: ...] *)
Definition user_liked (likes : list dict) (idea : dict)
    (current_user_id : option string) : bool :=
  if nonempty current_user_id then
    existsb (λ like,
      py_eq (Posts.storage.get like "idea_id") (Posts.storage.get idea "id") &&
      py_eq (Posts.storage.get like "user_id") (VStr (default "" current_user_id)))
      likes
  else false.

(** The filter loop. *)
Fixpoint filter_ideas (comments_by_idea : Posts.storage.groups)
    (likes : list dict) (search tag current_user_id : option string)
    (ideas : list dict) : outcome (list dict) :=
  match ideas with
  | [] => Return []
  | idea :: rest =>
      let continue :=
        filter_ideas comments_by_idea likes search tag current_user_id rest in
      match (if nonempty search
             then search_misses (default "" search) idea
             else Return false) with
      | Raise e => Raise e
      | Return true => continue
      | Return false =>
          match (if nonempty tag
                 then Posts.storage.tag_misses (default "" tag) idea
                 else Return false) with
          | Raise e => Raise e
          | Return true => continue
          | Return false =>
              let user_liked := user_liked likes idea current_user_id in
              match Posts.storage.comments_count comments_by_idea idea with
              | Raise e => Raise e
              | Return n =>
                  let idea_with_details :=
                    spread idea
                      (<["comments" := VInt n]> {["userLiked" := VBool user_liked]}) in
                  match continue with
                  | Raise e => Raise e
                  | Return filtered_ideas =>
                      Return (idea_with_details :: filtered_ideas)
                  end
              end
          end
      end
  end.

(** The key of the sort by date: [strptime] wants a [str]. *)
Definition date_key (x : dict) : outcome Z :=
  match default (VStr "January 1, 2000") (x !! "date") with
  | VStr s =>
      match strptime s with
      | Some t => Return t
      | None => Raise ValueError
      end
  | _ => Raise TypeError
  end.

Fixpoint keyed_by_date (xs : list dict) : outcome (list (Z * dict)) :=
  match xs with
  | [] => Return []
  | x :: xs =>
      match date_key x with
      | Raise e => Raise e
      | Return k =>
          match keyed_by_date xs with
          | Raise e => Raise e
          | Return kxs => Return ((k, x) :: kxs)
          end
      end
  end.

(** [try: filtered_ideas.sort(key=..., reverse=True) except ValueError:
    ...]: a key that fails leaves the list as it was, and only a
    [ValueError] is caught.  The key raises a [ValueError] or a
    [TypeError], so the subclasses of [ValueError] do not come up here. *)
Definition sort_latest (filtered_ideas : list dict) : outcome (list dict) :=
  match keyed_by_date filtered_ideas with
  | Return kxs => Return (Posts.storage.sort_desc kxs).*2
  | Raise ValueError => Return filtered_ideas
  | Raise e => Raise e
  end.

Definition likes_key (x : dict) : value := default (VInt 0) (x !! "likes").

Fixpoint insert_by_likes (kx : value * dict) (sorted : list (value * dict))
    : list (value * dict) :=
  match sorted with
  | [] => [kx]
  | ky :: rest =>
      if value_ltb kx.1 ky.1 then ky :: insert_by_likes kx rest
      else kx :: ky :: rest
  end.

(** [filtered_ideas.sort(key=lambda x: x.get("likes", 0), reverse=True)].
    A sort compares every item with some other one, so with two items or
    more it raises exactly when some two keys cannot be compared. *)
Definition sort_popular (filtered_ideas : list dict) : outcome (list dict) :=
  let kxs := (λ x, (likes_key x, x)) <$> filtered_ideas in
  if (length filtered_ideas <? 2)%nat then Return filtered_ideas
  else if forallb (λ a, forallb (λ b, comparable a.1 b.1) kxs) kxs
       then Return (foldr insert_by_likes [] kxs).*2
       else Raise TypeError.

Definition get_ideas (skip limit : nat) (search tag : option string)
    (sort : string) (current_user_id : option string) : St (list dict) :=
  data ← Ideas.storage.load_data;
  comments_by_idea ← lift (group_by "idea_id" (comments data) []);
  filtered_ideas ←
    lift (filter_ideas comments_by_idea (likes data) search tag current_user_id
            (ideas data));
  filtered_ideas ←
    lift (if String.eqb sort "latest" then sort_latest filtered_ideas
          else if String.eqb sort "popular" then sort_popular filtered_ideas
          else Return filtered_ideas);
  let paginated_ideas := take limit (drop skip filtered_ideas) in
  ret paginated_ideas.

End get_ideas.

Definition get_all_tags : St (list string) :=
  data ← Ideas.storage.load_data;
  all_tags ← lift (collect_tags (ideas data));
  ret (unique_tags all_tags).

End storage.

(** *** ideas/router.py: the two read-only endpoints *)
Module router.

Section get_ideas.
Variable lower : string → string.
Variable strptime : string → option Z.

(** The handler passes no [current_user_id]. *)
Definition get_ideas (skip limit : nat) (search tag : option string)
    (sort : string) : Ideas.St (list dict) :=
  storage.get_ideas lower strptime skip limit search tag sort None.
End get_ideas.

Definition get_all_tags : Ideas.St (list string) := storage.get_all_tags.

End router.

End IdeasRead.

Module PostsRead.

(** *** posts/storage.py and posts/router.py: [get_all_tags] *)
Module storage.

Definition get_all_tags : Posts.St (list string) :=
  data ← Posts.storage.load_data;
  all_tags ← lift (collect_tags (Posts.posts data));
  ret (unique_tags all_tags).

End storage.

Module router.

Definition get_all_tags : Posts.St (list string) := storage.get_all_tags.

End router.

End PostsRead.

(** ** main.py *)

Module Main.

(** The two data files. *)
Record disk : Type := Disk {
  ideas_file : file Ideas.document;
  posts_file : file Posts.document
}.

(** [IdeasFileStorage(file_path)]: the constructor writes the file when
    there is none. *)
Definition IdeasFileStorage : Ideas.St unit :=
  λ f, match f with
       | Missing => Ideas.storage.initialize_file f
       | Text _ | Unreadable _ => (Return tt, f)
       end.

Definition PostsFileStorage : Posts.St unit :=
  λ f, match f with
       | Missing => Posts.storage.initialize_file f
       | Text _ | Unreadable _ => (Return tt, f)
       end.

(** [startup_event]: both stores are constructed and then initialized. *)
Definition startup_event (files : disk) : disk :=
  {| ideas_file :=
       ((IdeasFileStorage ;; Ideas.storage.initialize_file) (ideas_file files)).2;
     posts_file :=
       ((PostsFileStorage ;; Posts.storage.initialize_file) (posts_file files)).2 |}.

(** [GET /api/health] *)
Definition health_check : dict := {["status" := VStr "ok"]}.

End Main.

(** ** Sample documents *)

Module Samples.

(** An idea as [router.create_idea] stores it, liked three times. *)
Definition idea_a : dict :=
  <["id" := VStr "a"]>
  (<["title" := VStr "Title"]>
  (<["description" := VStr "Text"]>
  (<["author" := VStr "Ann"]>
  (<["date" := VStr "January 02, 2024"]>
  (<["likes" := VInt 3]>
  (<["tags" := VList ["go"]]>
  {["userLiked" := VBool false]})))))).

Definition one_idea : Ideas.document :=
  {| Ideas.ideas := [idea_a];
     Ideas.comments := []; Ideas.likes := []; Ideas.tags := [] |}.

(** A document in which the same id occurs twice. *)
Definition two_ideas_one_id : Ideas.document :=
  {| Ideas.ideas := [idea_a; idea_a];
     Ideas.comments := []; Ideas.likes := []; Ideas.tags := [] |}.

(** A request that clears the title and the tags and says nothing of the
    description. *)
Definition clear_title_and_tags : Ideas.IdeaUpdate :=
  {| Ideas.iu_title := Some "";
     Ideas.iu_description := None;
     Ideas.iu_tags := Some [] |}.

(** The first request a new installation serves, and the document it
    leaves. *)
Definition first_idea : Ideas.IdeaCreate :=
  {| Ideas.ic_title := "Title";
     Ideas.ic_description := "Text";
     Ideas.ic_author := "Ann";
     Ideas.ic_tags := ["go"] |}.

Definition after_first_idea : Ideas.document :=
  {| Ideas.ideas := [Ideas.router.new_idea first_idea "a" "January 02, 2024"];
     Ideas.comments := []; Ideas.likes := []; Ideas.tags := [] |}.

(** A stored draft, and an update that sends a long text and no excerpt. *)
Definition draft_p : dict :=
  <["id" := VStr "p"]>
  (<["title" := VStr "Title"]>
  (<["content" := VStr "short"]>
  (<["excerpt" := VStr "short"]>
  (<["author" := VStr "Ann"]>
  (<["created_at" := VStr "2024-01-02T10:00:00"]>
  (<["updated_at" := VStr "2024-01-02T10:00:00"]>
  (<["published_at" := VNone]>
  (<["is_published" := VBool false]>
  {["tags" := VList []]})))))))).

Definition one_draft : Posts.document :=
  {| Posts.posts := [draft_p]; Posts.post_comments := []; Posts.tags := [] |}.

(** Two hundred characters. *)
Definition long_text : string :=
  let ten := "0123456789" in
  let fifty := ten +:+ ten +:+ ten +:+ ten +:+ ten in
  fifty +:+ fifty +:+ fifty +:+ fifty.

Definition new_content (content : string) : Posts.PostUpdate :=
  {| Posts.pu_title := None;
     Posts.pu_content := Some content;
     Posts.pu_excerpt := None;
     Posts.pu_tags := None;
     Posts.pu_is_published := None |}.

(** A draft as a client sends it, and the document that holds it once
    [create_post] has stored it. *)
Definition first_draft : Posts.PostCreate :=
  {| Posts.pc_title := "Title";
     Posts.pc_content := "short";
     Posts.pc_excerpt := None;
     Posts.pc_author := "Ann";
     Posts.pc_tags := [];
     Posts.pc_is_published := false |}.

Definition after_first_draft : Posts.document :=
  {| Posts.posts :=
       [Posts.router.new_post first_draft "p" (Some "short")
          "2024-01-02T10:00:00" None];
     Posts.post_comments := []; Posts.tags := [] |}.

Definition set_published (is_published : bool) : Posts.PostUpdate :=
  {| Posts.pu_title := None;
     Posts.pu_content := None;
     Posts.pu_excerpt := None;
     Posts.pu_tags := None;
     Posts.pu_is_published := Some is_published |}.

(** The draft, published on the 3rd and withdrawn on the 4th. *)
Definition withdrawn_p : dict :=
  <["id" := VStr "p"]>
  (<["title" := VStr "Title"]>
  (<["content" := VStr "short"]>
  (<["excerpt" := VStr "short"]>
  (<["author" := VStr "Ann"]>
  (<["created_at" := VStr "2024-01-02T10:00:00"]>
  (<["updated_at" := VStr "2024-01-04T10:00:00"]>
  (<["published_at" := VStr "2024-01-03T10:00:00"]>
  (<["is_published" := VBool false]>
  {["tags" := VList []]})))))))).

Definition after_withdrawal : Posts.document :=
  {| Posts.posts := [withdrawn_p]; Posts.post_comments := []; Posts.tags := [] |}.

(** Two published posts, the older one stored first, and a reading of their
    timestamps as day numbers. *)
Definition published_on (post_id day : string) : dict :=
  <["id" := VStr post_id]>
  (<["title" := VStr "Title"]>
  (<["content" := VStr "short"]>
  (<["excerpt" := VStr "short"]>
  (<["author" := VStr "Ann"]>
  (<["created_at" := VStr "2024-01-01"]>
  (<["updated_at" := VStr day]>
  (<["published_at" := VStr day]>
  (<["is_published" := VBool true]>
  {["tags" := VList []]})))))))).

Definition two_published : Posts.document :=
  {| Posts.posts := [published_on "old" "2024-01-02"; published_on "new" "2024-01-03"];
     Posts.post_comments := []; Posts.tags := [] |}.

Definition january_day (s : string) : option Z :=
  if String.eqb s "2024-01-01" then Some 1
  else if String.eqb s "2024-01-02" then Some 2
  else if String.eqb s "2024-01-03" then Some 3
  else None.

Definition a_post_comment : Posts.PostCommentCreate :=
  {| Posts.pcc_content := "Nice"; Posts.pcc_author := "Bob" |}.

Definition an_idea_comment : Ideas.CommentCreate :=
  {| Ideas.cc_content := "Nice"; Ideas.cc_author := "Bob" |}.

(** The first idea after the user ["u1"] has liked it. *)
Definition after_first_like : Ideas.document :=
  {| Ideas.ideas :=
       [<["likes" := VInt 1]>
          (Ideas.router.new_idea first_idea "a" "January 02, 2024")];
     Ideas.comments := [];
     Ideas.likes := [Ideas.storage.new_like "a" "u1" "l1" "2024-01-02T10:00:00"];
     Ideas.tags := [] |}.

(** A reading of two display dates as day numbers. *)
Definition january_date (s : string) : option Z :=
  if String.eqb s "January 02, 2024" then Some 2
  else if String.eqb s "January 03, 2024" then Some 3
  else None.

(** Two ideas, the less liked one stored first. *)
Definition liked (idea_id : string) (likes : Z) : dict :=
  <["likes" := VInt likes]>
    (Ideas.router.new_idea first_idea idea_id "January 02, 2024").

Definition two_liked : Ideas.document :=
  {| Ideas.ideas := [liked "a" 1; liked "b" 5];
     Ideas.comments := []; Ideas.likes := []; Ideas.tags := [] |}.

(** Two ideas, the first with a date that [january_date] rejects. *)
Definition dated (idea_id date : string) : dict :=
  Ideas.router.new_idea first_idea idea_id date.

Definition one_bad_date : Ideas.document :=
  {| Ideas.ideas := [dated "a" "yesterday"; dated "b" "January 03, 2024"];
     Ideas.comments := []; Ideas.likes := []; Ideas.tags := [] |}.

End Samples.

(** * Properties *)

(** ** Running a computation on a file that holds a document *)

Ltac run :=
  unfold mbind, M_bind, bind, mret, M_ret, ret, raise, lift,
    try_except, read_json, write_json; simpl.

Lemma find_index_find_first {A} (P : A → Prop) `{∀ x, Decision (P x)}
    (xs : list A) (i : nat) :
  find_index P xs = Some i →
  ∃ x, find_first P xs = Some x ∧ xs !! i = Some x ∧ P x.
Proof.
  unfold find_index, find_first. intros Hi.
  destruct (list_find P xs) as [[j x]|] eqn:E; simplify_eq/=.
  apply list_find_Some in E as (? & ? & _). eauto.
Qed.

Lemma find_index_None {A} (P : A → Prop) `{∀ x, Decision (P x)}
    (xs : list A) :
  find_index P xs = None ↔ Forall (λ x, ¬ P x) xs.
Proof.
  unfold find_index. rewrite fmap_None. apply list_find_None.
Qed.

Lemma find_first_None {A} (P : A → Prop) `{∀ x, Decision (P x)}
    (xs : list A) :
  find_first P xs = None ↔ find_index P xs = None.
Proof. unfold find_first, find_index. by rewrite !fmap_None. Qed.

(** The first match splits the list around it. *)
Lemma find_index_split {A} (P : A → Prop) `{∀ x, Decision (P x)}
    (xs : list A) (i : nat) :
  find_index P xs = Some i →
  ∃ l1 x l2, xs = l1 ++ x :: l2 ∧ length l1 = i ∧ P x ∧ Forall (λ y, ¬ P y) l1.
Proof.
  unfold find_index. intros Hi.
  destruct (list_find P xs) as [[j x]|] eqn:E; simplify_eq/=.
  apply list_find_Some in E as (Hx & HP & Hbefore).
  apply list_elem_of_split_length in Hx as (l1 & l2 & -> & ->).
  exists l1, x, l2. split_and!; [done..|].
  apply Forall_lookup. intros j y Hj.
  apply (Hbefore j y).
  - by apply lookup_app_l_Some.
  - by apply lookup_lt_Some in Hj.
Qed.

Lemma find_index_middle {A} (P : A → Prop) `{∀ x, Decision (P x)}
    (l1 l2 : list A) (x : A) :
  Forall (λ y, ¬ P y) l1 → P x →
  find_index P (l1 ++ x :: l2) = Some (length l1).
Proof.
  intros Hl1 Hx. unfold find_index.
  assert (list_find P (l1 ++ x :: l2) = Some (length l1, x)) as ->; [|done].
  apply list_find_Some. split_and!; [|done|].
  - by rewrite list_lookup_middle.
  - intros j y Hj Hlt. rewrite lookup_app_l in Hj by done.
    by eapply Forall_lookup_1 in Hl1.
Qed.

(** ** File store: which failures of the read [load_data] absorbs *)

(** C7. [load_data] returns the empty-collections document and leaves it
    in the file when the file is missing or holds text that is not JSON,
    the two exceptions its handler names.  A file on which [json.load]
    fails in another way (bytes that are no text, an integer literal that
    is too long, nesting that is too deep) is not reinitialized: the
    exception of the read goes to the caller and the file stays as it
    was.  So for ideas, so for posts. *)
Theorem load_data_raises_on_unreadable_file :
  Ideas.storage.load_data Missing
    = (Return Ideas.initial_data, Text (Some Ideas.initial_data)) ∧
  Ideas.storage.load_data (Text None)
    = (Return Ideas.initial_data, Text (Some Ideas.initial_data)) ∧
  Posts.storage.load_data Missing
    = (Return Posts.initial_data, Text (Some Posts.initial_data)) ∧
  Posts.storage.load_data (Text None)
    = (Return Posts.initial_data, Text (Some Posts.initial_data)) ∧
  Ideas.initial_data = Ideas.Document [] [] [] [] ∧
  Posts.initial_data = Posts.Document [] [] [] ∧
  (∀ why,
     Ideas.storage.load_data (Unreadable why)
       = (Raise (load_error why), Unreadable why) ∧
     Posts.storage.load_data (Unreadable why)
       = (Raise (load_error why), Unreadable why)) ∧
  Ideas.storage.load_data (Unreadable NotUnicode)
    = (Raise UnicodeDecodeError, Unreadable NotUnicode) ∧
  Posts.storage.load_data (Unreadable NotUnicode)
    = (Raise UnicodeDecodeError, Unreadable NotUnicode).
Proof.
  split_and!; try done. by intros [].
Qed.

(** A file that decodes is returned as it is, and is not rewritten. *)
Lemma ideas_load_data_ok (d : Ideas.document) :
  Ideas.storage.load_data (Text (Some d)) = (Return d, Text (Some d)).
Proof. done. Qed.

Lemma posts_load_data_ok (d : Posts.document) :
  Posts.storage.load_data (Text (Some d)) = (Return d, Text (Some d)).
Proof. done. Qed.

(** ** Ideas: delete *)

Section ideas_storage.
Import Ideas Ideas.storage Samples.

(** What [delete_idea] does to a document. *)
Lemma delete_idea_run (d : document) (idea_id : string) :
  delete_idea idea_id (Text (Some d)) =
    match find_index (has_id idea_id) (ideas d) with
    | None => (Return false, Text (Some d))
    | Some idea_index =>
        (Return true,
         Text (Some {| ideas := delete idea_index (ideas d);
                       comments := filter (λ c, ¬ of_idea idea_id c) (comments d);
                       likes := filter (λ l, ¬ of_idea idea_id l) (likes d);
                       tags := tags d |}))
    end.
Proof. unfold delete_idea. run. by destruct (find_index _ _). Qed.

(** C5, as the code has it.  When an idea with the id exists,
    [delete_idea] returns [True] and persists the document without the
    first idea that carries the id, without any comment and without any
    like whose [idea_id] is the id, and with everything else kept; so no
    idea with the id is left when the id occurred once.  When no idea
    has the id it returns [False] and the file is as it was. *)
Theorem delete_idea_cascade (d : document) (idea_id : string) :
  (Exists (has_id idea_id) (ideas d) →
     ∃ l1 idea l2 d',
       ideas d = l1 ++ idea :: l2 ∧ has_id idea_id idea ∧
       Forall (λ i, ¬ has_id idea_id i) l1 ∧
       delete_idea idea_id (Text (Some d)) = (Return true, Text (Some d')) ∧
       ideas d' = l1 ++ l2 ∧
       comments d' = filter (λ c, ¬ of_idea idea_id c) (comments d) ∧
       likes d' = filter (λ l, ¬ of_idea idea_id l) (likes d) ∧
       tags d' = tags d ∧
       Forall (λ c, ¬ of_idea idea_id c) (comments d') ∧
       Forall (λ l, ¬ of_idea idea_id l) (likes d') ∧
       (Forall (λ i, ¬ has_id idea_id i) l2 →
        Forall (λ i, ¬ has_id idea_id i) (ideas d'))) ∧
  (¬ Exists (has_id idea_id) (ideas d) →
     delete_idea idea_id (Text (Some d)) = (Return false, Text (Some d))).
Proof.
  rewrite delete_idea_run. split.
  - intros Hex.
    destruct (find_index (has_id idea_id) (ideas d)) as [i|] eqn:Hi.
    + destruct (find_index_split _ _ _ Hi) as (l1 & idea & l2 & E & <- & Hid & Hl1).
      eexists l1, idea, l2, _. split_and!; try done; simpl.
      * rewrite E. apply delete_middle.
      * apply Forall_forall. by intros c [? _]%list_elem_of_filter.
      * apply Forall_forall. by intros c [? _]%list_elem_of_filter.
      * intros Hl2. rewrite E, delete_middle. by apply Forall_app.
    + apply find_index_None in Hi. by apply Forall_Exists_neg in Hi.
  - intros Hnone.
    destruct (find_index (has_id idea_id) (ideas d)) as [i|] eqn:Hi; [|done].
    destruct (find_index_split _ _ _ Hi) as (l1 & idea & l2 & E & _ & Hid & _).
    destruct Hnone. rewrite E. apply Exists_app. right. by left.
Qed.

(** C5, as stated, fails on a document in which two ideas carry the same
    id: one of them is still there after [delete_idea]. *)
Lemma delete_idea_leaves_duplicate :
  Exists (has_id "a") (ideas two_ideas_one_id) ∧
  delete_idea "a" (Text (Some two_ideas_one_id))
    = (Return true, Text (Some one_idea)) ∧
  Exists (has_id "a") (ideas one_idea).
Proof.
  split_and!.
  - left. reflexivity.
  - reflexivity.
  - left. reflexivity.
Qed.

End ideas_storage.

(** ** Ideas: the handlers on a file that holds a document *)

Section ideas_router.
Import Ideas.

Lemma spread_lookup_l (a b : dict) (k : string) :
  b !! k = None → spread a b !! k = a !! k.
Proof. intros Hk. unfold spread. by rewrite lookup_union_r. Qed.

Lemma spread_lookup_r (a b : dict) (k : string) (v : value) :
  b !! k = Some v → spread a b !! k = Some v.
Proof. intros Hk. unfold spread. by erewrite lookup_union_Some_l. Qed.

Lemma spread_nonempty (a b : dict) (k : string) (v : value) :
  b !! k = Some v → spread a b ≠ ∅.
Proof.
  intros Hk E. apply (spread_lookup_r a) in Hk. by rewrite E in Hk.
Qed.

Lemma has_id_nonempty (idea_id : string) (idea : dict) :
  storage.has_id idea_id idea → idea ≠ ∅.
Proof. unfold storage.has_id. by intros H ->. Qed.

Lemma get_idea_run (d : document) (idea_id : string) :
  ∃ r, storage.get_idea idea_id None (Text (Some d)) = (Return r, Text (Some d)) ∧
       (is_Some r ↔ is_Some (find_index (storage.has_id idea_id) (ideas d))).
Proof.
  unfold storage.get_idea. run.
  destruct (find_index (storage.has_id idea_id) (ideas d)) as [i|] eqn:Hi.
  - destruct (find_index_find_first _ _ _ Hi) as (idea & -> & _ & Hid).
    rewrite decide_False by by eapply has_id_nonempty.
    eexists. split; [done|]. split; eauto.
  - apply find_first_None in Hi as ->. eexists. split; [done|].
    split; by intros [? ?].
Qed.

(** The existence check every mutating handler starts with. *)
Lemma check_exists_run {A} (d : document) (idea_id : string)
    (k : storage.idea_detail → St A) :
  (idea ← storage.get_idea idea_id None; x ← router.found idea; k x)
    (Text (Some d)) =
  match find_index (storage.has_id idea_id) (ideas d) with
  | None => (Raise (HTTPException 404 "Idea not found"), Text (Some d))
  | Some _ =>
      match (storage.get_idea idea_id None (Text (Some d))).1 with
      | Return (Some x) => k x (Text (Some d))
      | _ => (Raise (HTTPException 404 "Idea not found"), Text (Some d))
      end
  end.
Proof.
  destruct (get_idea_run d idea_id) as (r & E & Hr).
  unfold mbind, M_bind, bind at 1. rewrite E. simpl.
  destruct (find_index _ _) as [i|].
  - destruct r as [v|]; [done|]. destruct Hr as [_ Hr].
    by destruct Hr as [? ?]; [eauto|].
  - destruct r as [v|]; [|done]. destruct Hr as [Hr _].
    by destruct Hr as [? ?]; [eauto|].
Qed.

Lemma update_idea_run (d : document) (idea_id : string) (iu : IdeaUpdate) :
  router.update_idea idea_id iu (Text (Some d)) =
  match find_index (storage.has_id idea_id) (ideas d) with
  | None => (Raise (HTTPException 404 "Idea not found"), Text (Some d))
  | Some i =>
      match ideas d !! i with
      | None => (Raise (HTTPException 404 "Idea not found"), Text (Some d))
      | Some idea =>
          let updated := spread idea (router.updates_of iu) in
          (Return (spread updated
                     {["comments" := VInt (count (storage.of_idea idea_id) (comments d))]}),
           Text (Some {| ideas := <[i := updated]> (ideas d);
                         comments := comments d;
                         likes := likes d;
                         tags := tags d |}))
      end
  end.
Proof.
  unfold router.update_idea. rewrite check_exists_run.
  destruct (find_index (storage.has_id idea_id) (ideas d)) as [i|] eqn:Hi; [|done].
  destruct (get_idea_run d idea_id) as (r & E & Hr). rewrite E. simpl.
  destruct r as [v|]; [|by destruct Hr as [_ [? ?]]; eauto].
  unfold storage.update_idea. run. rewrite Hi.
  destruct (find_index_find_first _ _ _ Hi) as (idea & _ & -> & _).
  simpl. rewrite decide_False; [done|].
  eapply spread_nonempty. apply lookup_singleton_eq.
Qed.

Lemma create_idea_run (d : document) (idea : IdeaCreate) (uuid4 now : string) :
  router.create_idea idea uuid4 now (Text (Some d)) =
    (Return (spread (router.new_idea idea uuid4 now)
               (<["comments" := VInt 0]> {["userLiked" := VBool false]})),
     Text (Some {| ideas := ideas d ++ [router.new_idea idea uuid4 now];
                   comments := comments d;
                   likes := likes d;
                   tags := tags d |})).
Proof.
  unfold router.create_idea, storage.create_idea.
  unfold mbind, M_bind, bind at 1. rewrite ideas_load_data_ok.
  assert (∀ k, k ∈ ["id"; "date"; "likes"; "tags"] →
               is_Some (router.new_idea idea uuid4 now !! k)) as Hkeys.
  { intros k Hk. unfold router.new_idea.
    repeat (apply elem_of_cons in Hk as [->|Hk]; [by simplify_map_eq|]).
    by apply not_elem_of_nil in Hk. }
  repeat (rewrite decide_True by (apply Hkeys; repeat constructor)).
  reflexivity.
Qed.

Lemma delete_idea_router_run (d : document) (idea_id : string) :
  (router.delete_idea idea_id (Text (Some d))).2 =
    (storage.delete_idea idea_id (Text (Some d))).2.
Proof.
  unfold router.delete_idea. rewrite check_exists_run, delete_idea_run.
  destruct (find_index (storage.has_id idea_id) (ideas d)) as [i|] eqn:Hi; [|done].
  destruct (get_idea_run d idea_id) as (r & E & Hr). rewrite E. simpl.
  destruct r as [v|]; [|by destruct Hr as [_ [? ?]]; eauto].
  unfold mbind, M_bind, bind. by rewrite delete_idea_run, Hi.
Qed.

(** What [storage.toggle_like] does to a document. *)
Lemma toggle_like_run (d : document) (idea_id user_id uuid4 now : string) :
  storage.toggle_like idea_id user_id uuid4 now (Text (Some d)) =
  match find_index (storage.has_id idea_id) (ideas d) with
  | None => (Return None, Text (Some d))
  | Some i =>
      match ideas d !! i with
      | None => (Return None, Text (Some d))
      | Some idea =>
          match as_int (storage.get_likes idea) with
          | Raise e => (Raise e, Text (Some d))
          | Return n =>
              let comments_n := VInt (count (storage.of_idea idea_id) (comments d)) in
              match find_index (storage.like_of idea_id user_id) (likes d) with
              | Some j =>
                  let idea' := <["likes" := VInt (Z.max 0 (n - 1))]> idea in
                  (Return (Some (spread idea'
                     (<["comments" := comments_n]> {["userLiked" := VBool false]}))),
                   Text (Some {| ideas := <[i := idea']> (ideas d);
                                 comments := comments d;
                                 likes := delete j (likes d);
                                 tags := tags d |}))
              | None =>
                  let idea' := <["likes" := VInt (n + 1)]> idea in
                  (Return (Some (spread idea'
                     (<["comments" := comments_n]> {["userLiked" := VBool true]}))),
                   Text (Some {| ideas := <[i := idea']> (ideas d);
                                 comments := comments d;
                                 likes := likes d ++
                                   [storage.new_like idea_id user_id uuid4 now];
                                 tags := tags d |}))
              end
          end
      end
  end.
Proof.
  unfold storage.toggle_like. run.
  destruct (find_index (storage.has_id idea_id) (ideas d)) as [i|]; [|done].
  destruct (ideas d !! i) as [idea|]; [|done].
  destruct (find_index (storage.like_of idea_id user_id) (likes d)) as [j|];
    by destruct (as_int (storage.get_likes idea)).
Qed.

Lemma toggle_like_router_run (d : document) (idea_id : string)
    (user_id : option string) (uuid4 now : string) :
  router.toggle_like idea_id user_id uuid4 now (Text (Some d)) =
  match find_index (storage.has_id idea_id) (ideas d) with
  | None => (Raise (HTTPException 404 "Idea not found"), Text (Some d))
  | Some _ =>
      match storage.toggle_like idea_id (default "anonymous" user_id) uuid4 now
              (Text (Some d)) with
      | (Return (Some updated_idea), f) => (Return updated_idea, f)
      | (Return None, f) => (Raise (HTTPException 404 "Idea not found"), f)
      | (Raise e, f) => (Raise e, f)
      end
  end.
Proof.
  unfold router.toggle_like. simpl. rewrite check_exists_run.
  destruct (find_index (storage.has_id idea_id) (ideas d)) as [i|] eqn:Hi; [|done].
  destruct (get_idea_run d idea_id) as (r & E & Hr). rewrite E. simpl.
  destruct r as [v|]; [|by destruct Hr as [_ [? ?]]; eauto].
  unfold mbind, M_bind, bind.
  rewrite toggle_like_run, Hi.
  destruct (ideas d !! i) as [idea|]; [|done].
  destruct (as_int (storage.get_likes idea)) as [n|e]; [|done].
  destruct (find_index (storage.like_of _ _) (likes d)); simpl;
    (rewrite decide_False; [done|]);
    eapply spread_nonempty; apply lookup_insert_eq.
Qed.

Lemma add_comment_router_run (d : document) (idea_id : string)
    (comment : CommentCreate) (uuid4 now : string) :
  ∃ d', (router.add_comment idea_id comment uuid4 now (Text (Some d))).2
          = Text (Some d') ∧
        ideas d' = ideas d ∧ likes d' = likes d.
Proof.
  unfold router.add_comment. rewrite check_exists_run.
  destruct (find_index (storage.has_id idea_id) (ideas d)) as [i|] eqn:Hi; [|by eexists].
  destruct (get_idea_run d idea_id) as (r & E & Hr). rewrite E. simpl.
  destruct r as [v|]; [|by eexists].
  unfold storage.add_comment. run.
  destruct (find_first _ _) as [idea|]; [|by eexists].
  destruct (decide (idea = ∅)); [by eexists|]. simpl.
  unfold router.not_found, raise, ret.
  repeat case_decide; (eexists; split; [simpl; reflexivity|done]).
Qed.

(** ** Ideas: update merges the fields that were sent *)

Lemma updates_of_lookup (iu : IdeaUpdate) (k : string) :
  router.updates_of iu !! k =
    if decide (k = "tags") then VList <$> iu_tags iu
    else if decide (k = "description") then VStr <$> iu_description iu
    else if decide (k = "title") then VStr <$> iu_title iu
    else None.
Proof.
  unfold router.updates_of.
  destruct (iu_title iu), (iu_description iu), (iu_tags iu);
    repeat case_decide; by simplify_map_eq.
Qed.

(** C8. Updating an existing idea through the handler: a field of the
    request that is absent leaves the stored value as it was; a field that
    is sent, the empty string and the empty list included, replaces it;
    every other key of the stored idea (id, author, date, likes) is as
    before, and so is every other idea. *)
Theorem update_idea_merges_sent_fields (d : document) (idea_id : string)
    (iu : IdeaUpdate) (i : nat) :
  find_index (storage.has_id idea_id) (ideas d) = Some i →
  ∃ idea updated response,
    ideas d !! i = Some idea ∧
    router.update_idea idea_id iu (Text (Some d)) =
      (Return response,
       Text (Some {| ideas := <[i := updated]> (ideas d);
                     comments := comments d;
                     likes := likes d;
                     tags := tags d |})) ∧
    updated !! "title" =
      match iu_title iu with
      | Some title => Some (VStr title)
      | None => idea !! "title"
      end ∧
    updated !! "description" =
      match iu_description iu with
      | Some description => Some (VStr description)
      | None => idea !! "description"
      end ∧
    updated !! "tags" =
      match iu_tags iu with
      | Some tags => Some (VList tags)
      | None => idea !! "tags"
      end ∧
    (∀ k, k ≠ "title" → k ≠ "description" → k ≠ "tags" →
          updated !! k = idea !! k) ∧
    updated !! "id" = idea !! "id" ∧
    updated !! "author" = idea !! "author" ∧
    updated !! "date" = idea !! "date" ∧
    updated !! "likes" = idea !! "likes" ∧
    (∀ k, k ≠ "comments" → response !! k = updated !! k).
Proof.
  intros Hi. rewrite update_idea_run, Hi.
  destruct (find_index_find_first _ _ _ Hi) as (idea & _ & Hidea & _).
  rewrite Hidea. simpl.
  assert (∀ k, spread idea (router.updates_of iu) !! k =
               match router.updates_of iu !! k with
               | Some v => Some v
               | None => idea !! k
               end) as Hk.
  { intros k. destruct (router.updates_of iu !! k) eqn:E.
    - by apply spread_lookup_r.
    - by apply spread_lookup_l. }
  assert (∀ k, k ≠ "title" → k ≠ "description" → k ≠ "tags" →
               spread idea (router.updates_of iu) !! k = idea !! k) as Hother.
  { intros k ???. rewrite Hk, updates_of_lookup. by repeat case_decide. }
  eexists idea, _, _. split_and!; try done.
  - rewrite Hk, updates_of_lookup. simpl. by destruct (iu_title iu).
  - rewrite Hk, updates_of_lookup. simpl. by destruct (iu_description iu).
  - rewrite Hk, updates_of_lookup. simpl. by destruct (iu_tags iu).
  - by apply Hother.
  - by apply Hother.
  - by apply Hother.
  - by apply Hother.
  - intros k Hne. apply spread_lookup_l. by apply lookup_singleton_ne.
Qed.

(** The theorem at work: an empty title and an empty tag list are stored,
    the description and the counter stay. *)
Lemma update_idea_merges_sent_fields_witness :
  find_index (storage.has_id "a") (ideas Samples.one_idea) = Some 0%nat ∧
  ∃ updated,
    (router.update_idea "a" Samples.clear_title_and_tags
       (Text (Some Samples.one_idea))).2
      = Text (Some {| ideas := [updated];
                      comments := []; likes := []; tags := [] |}) ∧
    updated !! "title" = Some (VStr "") ∧
    updated !! "tags" = Some (VList []) ∧
    updated !! "description" = Some (VStr "Text") ∧
    updated !! "likes" = Some (VInt 3).
Proof.
  split; [reflexivity|].
  destruct (update_idea_merges_sent_fields Samples.one_idea "a"
              Samples.clear_title_and_tags 0 eq_refl)
    as (idea & updated & response & Hidea & Hrun & Ht & Hd & Htags & _ & _ & _ & _ & Hl & _).
  injection Hidea as <-.
  exists updated. rewrite Hrun. split_and!; [reflexivity|exact Ht|exact Htags|exact Hd|exact Hl].
Defined.

End ideas_router.

(** ** Ideas: the Like rows and the counters stay consistent *)

Section counting.
Context {A : Type} (P : A → Prop) `{∀ x, Decision (P x)}.

Lemma count_nonneg (l : list A) : 0 ≤ count P l.
Proof. unfold count. lia. Qed.

Lemma count_snoc (l : list A) (a : A) :
  count P (l ++ [a]) = count P l + (if decide (P a) then 1 else 0).
Proof.
  unfold count. rewrite filter_app, length_app, filter_cons, filter_nil.
  case_decide; simpl; lia.
Qed.

Lemma count_delete (l : list A) (j : nat) (a : A) :
  l !! j = Some a →
  count P l = count P (delete j l) + (if decide (P a) then 1 else 0).
Proof.
  intros (l1 & l2 & -> & ->)%list_elem_of_split_length.
  unfold count. rewrite delete_middle, !filter_app, filter_cons, !length_app.
  case_decide; simpl; lia.
Qed.

Lemma count_zero (l : list A) : count P l = 0 ↔ Forall (λ x, ¬ P x) l.
Proof.
  unfold count. split.
  - intros Hz. assert (filter P l = []) as Hnil.
    { apply length_zero_iff_nil. lia. }
    apply Forall_forall. intros x Hx HP.
    assert (x ∈ filter P l) as Hin by by apply list_elem_of_filter.
    rewrite Hnil in Hin. by apply not_elem_of_nil in Hin.
  - intros Hall. induction Hall as [|x l Hx _ IH]; [done|].
    by rewrite filter_cons_False.
Qed.

Lemma count_filter_le (Q : A → Prop) `{∀ x, Decision (Q x)} (l : list A) :
  count P (filter Q l) ≤ count P l.
Proof.
  unfold count. apply inj_le. induction l as [|a l IH]; [done|].
  rewrite (filter_cons Q). destruct (decide (Q a)).
  - rewrite !filter_cons. case_decide; simpl; lia.
  - rewrite filter_cons. case_decide; simpl; lia.
Qed.

End counting.

Section consistency.
Import Ideas.

Lemma has_id_inj (x y : string) (idea : dict) :
  storage.has_id x idea → storage.has_id y idea → x = y.
Proof. unfold storage.has_id. congruence. Qed.

Lemma of_idea_inj (x y : string) (row : dict) :
  storage.of_idea x row → storage.of_idea y row → x = y.
Proof. unfold storage.of_idea. congruence. Qed.

Lemma list_insert_middle {A} (l1 l2 : list A) (x y : A) :
  <[length l1 := y]> (l1 ++ x :: l2) = l1 ++ y :: l2.
Proof. by rewrite insert_app_r_alt, Nat.sub_diag. Qed.

Lemma counters_ok_ext (f g : string → Z) (l : list dict) :
  (∀ x, g x = f x) → counters_ok f l → counters_ok g l.
Proof.
  revert f g. induction l as [|idea l IH]; intros f g Hfg; simpl; [done|].
  intros (x & Hid & Hl & Hrest). exists x. split_and!; [done|by rewrite Hfg|].
  eapply IH; [|done]. intros y. simpl. by case_decide.
Qed.

(** The first idea with an id carries the expected number. *)
Lemma counters_ok_first (f : string → Z) (l1 l2 : list dict) (idea : dict)
    (x : string) :
  Forall (λ i, ¬ storage.has_id x i) l1 → storage.has_id x idea →
  counters_ok f (l1 ++ idea :: l2) →
  idea !! "likes" = Some (VInt (f x)).
Proof.
  revert f. induction l1 as [|h l1 IH]; intros f Hl1 Hx; simpl.
  - intros (y & Hy & Hl & _). by rewrite (has_id_inj x y idea).
  - intros (y & Hy & _ & Hrest). apply Forall_cons in Hl1 as [Hh Hl1].
    rewrite (IH _ Hl1 Hx Hrest). by rewrite decide_False by by intros ->.
Qed.

(** Replacing the first idea with an id, when the expected number for that
    id moves with it. *)
Lemma counters_ok_replace (f g : string → Z) (l1 l2 : list dict)
    (idea idea' : dict) (x : string) :
  Forall (λ i, ¬ storage.has_id x i) l1 →
  storage.has_id x idea → storage.has_id x idea' →
  (∀ y, y ≠ x → g y = f y) →
  idea' !! "likes" = Some (VInt (g x)) →
  counters_ok f (l1 ++ idea :: l2) → counters_ok g (l1 ++ idea' :: l2).
Proof.
  revert f g. induction l1 as [|h l1 IH]; intros f g Hl1 Hx Hx' Hfg Hl'; simpl.
  - intros (y & Hy & _ & Hrest). exists x. split_and!; [done..|].
    rewrite <- (has_id_inj x y idea) in Hrest by done.
    eapply counters_ok_ext; [|done]. intros z. simpl. case_decide; auto.
  - intros (y & Hy & Hl & Hrest). apply Forall_cons in Hl1 as [Hh Hl1].
    assert (y ≠ x) by by intros ->.
    exists y. split_and!; [done|by rewrite Hfg|].
    eapply IH; [done..| | |done]; simpl.
    + intros z Hz. case_decide; auto.
    + by rewrite decide_False by done.
Qed.

(** Removing the first idea with an id, together with its Like rows. *)
Lemma counters_ok_remove (f g : string → Z) (l1 l2 : list dict)
    (idea : dict) (x : string) :
  Forall (λ i, ¬ storage.has_id x i) l1 → storage.has_id x idea →
  (∀ y, y ≠ x → g y = f y) → g x = 0 →
  counters_ok f (l1 ++ idea :: l2) → counters_ok g (l1 ++ l2).
Proof.
  revert f g. induction l1 as [|h l1 IH]; intros f g Hl1 Hx Hfg Hgx; simpl.
  - intros (y & Hy & _ & Hrest).
    rewrite <- (has_id_inj x y idea) in Hrest by done.
    eapply counters_ok_ext; [|done]. intros z. simpl.
    case_decide; subst; auto.
  - intros (y & Hy & Hl & Hrest). apply Forall_cons in Hl1 as [Hh Hl1].
    assert (y ≠ x) by by intros ->.
    exists y. split_and!; [done|by rewrite Hfg|].
    eapply IH; [done..| | |done]; simpl.
    + intros z Hz. case_decide; auto.
    + by case_decide.
Qed.

(** Appending an idea with a zero counter. *)
Lemma counters_ok_snoc (f : string → Z) (l : list dict) (idea : dict)
    (x : string) :
  storage.has_id x idea → idea !! "likes" = Some (VInt 0) →
  (Forall (λ i, ¬ storage.has_id x i) l → f x = 0) →
  counters_ok f l → counters_ok f (l ++ [idea]).
Proof.
  revert f. induction l as [|h l IH]; intros f Hx Hl Hfx; simpl.
  - intros _. exists x. split_and!; [done| |done]. by rewrite Hfx.
  - intros (y & Hy & Hly & Hrest). exists y. split_and!; [done..|].
    apply IH; [done..| |done]. simpl. intros Hall.
    case_decide; [done|]. apply Hfx. apply Forall_cons. split; [|done].
    intros Hh. by apply (has_id_inj x y h) in Hh; subst.
Qed.

Lemma counters_ok_nonneg (f : string → Z) (l : list dict) :
  (∀ x, 0 ≤ f x) → counters_ok f l →
  Forall (λ idea, ∃ n, idea !! "likes" = Some (VInt n) ∧ 0 ≤ n) l.
Proof.
  revert f. induction l as [|h l IH]; intros f Hf; simpl; [by constructor|].
  intros (y & _ & Hl & Hrest). constructor; [by eauto|].
  eapply IH; [|done]. intros z. simpl. by case_decide.
Qed.

Lemma consistent_create (d : document) (idea : IdeaCreate) (uuid4 now : string) :
  consistent d →
  consistent {| ideas := ideas d ++ [router.new_idea idea uuid4 now];
                comments := comments d; likes := likes d; tags := tags d |}.
Proof.
  intros [Hu Hc Hr]. split; simpl.
  - done.
  - apply (counters_ok_snoc _ _ _ uuid4); [done..| |done].
    intros Hall. by apply Hr.
  - intros x Hall. apply Hr. by apply Forall_app in Hall as [? _].
Qed.

Lemma consistent_update (d : document) (l1 l2 : list dict) (idea : dict)
    (x : string) (iu : IdeaUpdate) :
  ideas d = l1 ++ idea :: l2 →
  Forall (λ i, ¬ storage.has_id x i) l1 → storage.has_id x idea →
  consistent d →
  consistent {| ideas := l1 ++ spread idea (router.updates_of iu) :: l2;
                comments := comments d; likes := likes d; tags := tags d |}.
Proof.
  intros E Hl1 Hx [Hu Hc Hr].
  assert (∀ k, k ≠ "title" → k ≠ "description" → k ≠ "tags" →
               spread idea (router.updates_of iu) !! k = idea !! k) as Hk.
  { intros k ???. apply spread_lookup_l. rewrite updates_of_lookup.
    by repeat case_decide. }
  assert (∀ y, storage.has_id y (spread idea (router.updates_of iu)) ↔
               storage.has_id y idea) as Hid.
  { intros y. unfold storage.has_id. by rewrite Hk. }
  rewrite E in Hc, Hr. split; simpl.
  - done.
  - eapply (counters_ok_replace _ _ _ _ idea _ x); [done|done|by apply Hid|done| |done].
    rewrite Hk by done. by eapply counters_ok_first.
  - intros y Hall. apply Hr.
    apply Forall_app in Hall as [? [? ?]%Forall_cons].
    apply Forall_app. split; [done|]. apply Forall_cons. by rewrite <- Hid.
Qed.

Lemma consistent_delete (d : document) (l1 l2 : list dict) (idea : dict)
    (x : string) :
  ideas d = l1 ++ idea :: l2 →
  Forall (λ i, ¬ storage.has_id x i) l1 → storage.has_id x idea →
  consistent d →
  consistent {| ideas := l1 ++ l2;
                comments := filter (λ c, ¬ storage.of_idea x c) (comments d);
                likes := filter (λ l, ¬ storage.of_idea x l) (likes d);
                tags := tags d |}.
Proof.
  intros E Hl1 Hx [Hu Hc Hr]. rewrite E in Hc, Hr.
  assert (count (storage.of_idea x)
            (filter (λ l, ¬ storage.of_idea x l) (likes d)) = 0) as Hzero.
  { apply count_zero. apply Forall_forall.
    by intros l [? _]%list_elem_of_filter. }
  assert (∀ y, y ≠ x →
            count (storage.of_idea y)
              (filter (λ l, ¬ storage.of_idea x l) (likes d))
            = count (storage.of_idea y) (likes d)) as Hsame.
  { intros y Hy. unfold count. f_equal. f_equal.
    rewrite list_filter_filter. apply list_filter_iff.
    intros l. split; [by intros [? _]|]. intros Hl. split; [done|].
    intros Hl'. by apply Hy, (of_idea_inj y x l). }
  split; simpl.
  - intros y u. etrans; [apply count_filter_le|]. apply Hu.
  - eapply (counters_ok_remove _ _ _ _ idea x); [done..| | |done];
      unfold likes_of; simpl; [|done]. intros y Hy. by apply Hsame.
  - intros y Hall. unfold likes_of. simpl.
    destruct (decide (y = x)) as [->|Hy]; [done|].
    rewrite Hsame by done. apply Hr.
    apply Forall_app in Hall as [? ?]. apply Forall_app. split; [done|].
    apply Forall_cons. split; [|done].
    intros Hid. by apply Hy, (has_id_inj y x idea).
Qed.

(** In a consistent document the counter of the idea that [toggle_like]
    finds is the number of its Like rows. *)
Lemma consistent_counter (d : document) (l1 l2 : list dict) (idea : dict)
    (x : string) :
  ideas d = l1 ++ idea :: l2 →
  Forall (λ i, ¬ storage.has_id x i) l1 → storage.has_id x idea →
  consistent d →
  idea !! "likes" = Some (VInt (likes_of d x)).
Proof.
  intros E Hl1 Hx [_ Hc _]. rewrite E in Hc. by eapply counters_ok_first.
Qed.

Lemma has_id_set_likes (y : string) (idea : dict) (n : Z) :
  storage.has_id y (<["likes" := VInt n]> idea) ↔ storage.has_id y idea.
Proof. unfold storage.has_id. by rewrite lookup_insert_ne. Qed.

Lemma consistent_unlike (d : document) (l1 l2 : list dict) (idea like : dict)
    (x u : string) (j : nat) :
  ideas d = l1 ++ idea :: l2 →
  Forall (λ i, ¬ storage.has_id x i) l1 → storage.has_id x idea →
  likes d !! j = Some like → storage.like_of x u like →
  consistent d →
  1 ≤ likes_of d x ∧
  consistent {| ideas := l1 ++ <["likes" := VInt (likes_of d x - 1)]> idea :: l2;
                comments := comments d;
                likes := delete j (likes d);
                tags := tags d |}.
Proof.
  intros E Hl1 Hx Hj [Hlx Hlu] [Hu Hc Hr]. rewrite E in Hc, Hr.
  assert (∀ y, count (storage.of_idea y) (likes d)
             = count (storage.of_idea y) (delete j (likes d))
               + (if decide (y = x) then 1 else 0)) as Hcount.
  { intros y. rewrite (count_delete _ _ j like) by done.
    repeat case_decide; subst; try done.
    by destruct (of_idea_inj y x like). }
  split.
  { unfold likes_of. rewrite (Hcount x), decide_True by done.
    pose proof (count_nonneg (storage.of_idea x) (delete j (likes d))). lia. }
  split; simpl.
  - intros y v. pose proof (Hu y v) as Hle.
    rewrite (count_delete _ _ j like) in Hle by done.
    case_decide; lia.
  - eapply (counters_ok_replace _ _ _ _ idea _ x);
      [done|done|by apply has_id_set_likes| | |done]; unfold likes_of; simpl.
    + intros y Hy. rewrite (Hcount y), decide_False by done. lia.
    + rewrite lookup_insert_eq, (Hcount x), decide_True by done.
      do 2 f_equal. lia.
  - intros y Hall. unfold likes_of. simpl.
    assert (likes_of d y = 0) as Hy.
    { apply Hr. apply Forall_app in Hall as [? [? ?]%Forall_cons].
      apply Forall_app. split; [done|]. apply Forall_cons.
      by rewrite <- (has_id_set_likes y idea (likes_of d x - 1)). }
    unfold likes_of in Hy. rewrite (Hcount y) in Hy.
    pose proof (count_nonneg (storage.of_idea y) (delete j (likes d))).
    case_decide; lia.
Qed.

Lemma consistent_like (d : document) (l1 l2 : list dict) (idea : dict)
    (x u uuid4 now : string) :
  ideas d = l1 ++ idea :: l2 →
  Forall (λ i, ¬ storage.has_id x i) l1 → storage.has_id x idea →
  find_index (storage.like_of x u) (likes d) = None →
  consistent d →
  consistent {| ideas := l1 ++ <["likes" := VInt (likes_of d x + 1)]> idea :: l2;
                comments := comments d;
                likes := likes d ++ [storage.new_like x u uuid4 now];
                tags := tags d |}.
Proof.
  intros E Hl1 Hx Hnone [Hu Hc Hr]. rewrite E in Hc, Hr.
  assert (∀ y, storage.of_idea y (storage.new_like x u uuid4 now) ↔ y = x) as Hnew.
  { intros y. unfold storage.of_idea, storage.new_like. simplify_map_eq.
    split; [by intros [= ->]|by intros ->]. }
  assert (∀ y, count (storage.of_idea y)
                 (likes d ++ [storage.new_like x u uuid4 now])
             = count (storage.of_idea y) (likes d)
               + (if decide (y = x) then 1 else 0)) as Hcount.
  { intros y. rewrite count_snoc.
    destruct (Hnew y) as [Hto Hfrom]. repeat case_decide; try done.
    - by destruct (Hto ltac:(done)).
    - destruct H. by apply Hfrom. }
  split; simpl.
  - intros y v. rewrite count_snoc. case_decide as Hyv; [|specialize (Hu y v); lia].
    assert (y = x ∧ v = u) as [-> ->].
    { destruct Hyv as [Hy Hv]. unfold storage.new_like in Hy, Hv.
      simplify_map_eq. done. }
    apply find_index_None in Hnone.
    pose proof (proj2 (count_zero (storage.like_of x u) (likes d)) Hnone). lia.
  - eapply (counters_ok_replace _ _ _ _ idea _ x);
      [done|done|by apply has_id_set_likes| | |done]; unfold likes_of; simpl.
    + intros y Hy. rewrite (Hcount y), decide_False by done. lia.
    + by rewrite lookup_insert_eq, (Hcount x), decide_True by done.
  - intros y Hall. unfold likes_of. simpl.
    apply Forall_app in Hall as [? [Hidea ?]%Forall_cons].
    rewrite has_id_set_likes in Hidea.
    rewrite (Hcount y), decide_False by by intros ->.
    rewrite Z.add_0_r. apply Hr.
    apply Forall_app. split; [done|]. by apply Forall_cons.
Qed.

End consistency.

Section reachability.
Import Ideas.

(** [toggle_like] on a consistent document: the counter it reads is the
    number of Like rows of the idea, so removing a row never meets the
    floor at zero, and the document it writes is consistent again. *)
Lemma toggle_like_consistent (d : document) (x u uuid4 now : string) (i : nat) :
  consistent d →
  find_index (storage.has_id x) (ideas d) = Some i →
  ∃ idea d',
    ideas d !! i = Some idea ∧
    storage.has_id x idea ∧
    idea !! "likes" = Some (VInt (likes_of d x)) ∧
    0 ≤ likes_of d x ∧
    consistent d' ∧
    comments d' = comments d ∧ tags d' = tags d ∧
    match find_index (storage.like_of x u) (likes d) with
    | Some j =>
        let idea' := <["likes" := VInt (likes_of d x - 1)]> idea in
        1 ≤ likes_of d x ∧
        ideas d' = <[i := idea']> (ideas d) ∧
        likes d' = delete j (likes d) ∧
        storage.toggle_like x u uuid4 now (Text (Some d)) =
          (Return (Some (spread idea'
             (<["comments" := VInt (count (storage.of_idea x) (comments d))]>
                {["userLiked" := VBool false]}))),
           Text (Some d'))
    | None =>
        let idea' := <["likes" := VInt (likes_of d x + 1)]> idea in
        ideas d' = <[i := idea']> (ideas d) ∧
        likes d' = likes d ++ [storage.new_like x u uuid4 now] ∧
        storage.toggle_like x u uuid4 now (Text (Some d)) =
          (Return (Some (spread idea'
             (<["comments" := VInt (count (storage.of_idea x) (comments d))]>
                {["userLiked" := VBool true]}))),
           Text (Some d'))
    end.
Proof.
  intros Hd Hi.
  destruct (find_index_split _ _ _ Hi) as (l1 & idea & l2 & E & <- & Hx & Hl1).
  pose proof (consistent_counter d l1 l2 idea x E Hl1 Hx Hd) as Hlikes.
  assert (ideas d !! length l1 = Some idea) as Hidea.
  { rewrite E. apply list_lookup_middle. done. }
  rewrite toggle_like_run, Hi, Hidea.
  unfold storage.get_likes. rewrite Hlikes. simpl.
  rewrite E, !list_insert_middle.
  destruct (find_index (storage.like_of x u) (likes d)) as [j|] eqn:Hj.
  - destruct (find_index_find_first _ _ _ Hj) as (like & _ & Hlike & Hof).
    destruct (consistent_unlike d l1 l2 idea like x u j E Hl1 Hx Hlike Hof Hd)
      as [Hpos Hd'].
    rewrite Z.max_r by lia.
    eexists idea, _. split_and!; try done; try lia.
    simpl. by rewrite list_insert_middle.
  - pose proof (consistent_like d l1 l2 idea x u uuid4 now E Hl1 Hx Hj Hd) as Hd'.
    eexists idea, _. split_and!; try done.
    + unfold likes_of. apply count_nonneg.
    + simpl. by rewrite list_insert_middle.
Qed.

Lemma consistent_same_likes (d d' : document) :
  ideas d' = ideas d → likes d' = likes d → consistent d → consistent d'.
Proof.
  intros Hi Hl [Hu Hc Hr].
  split; unfold likes_of in *; rewrite ?Hi, ?Hl; done.
Qed.

Lemma consistent_initial : consistent initial_data.
Proof. by split. Qed.

(** Every handler takes a consistent document to a consistent document. *)
Lemma handle_consistent (r : request) (d : document) :
  consistent d →
  ∃ d', handle r (Text (Some d)) = Text (Some d') ∧ consistent d'.
Proof.
  intros Hd. destruct r as [idea u n|x iu|x|x u uuid4 now|x c u n]; unfold handle.
  - rewrite create_idea_run. eexists. split; [done|]. by apply consistent_create.
  - rewrite update_idea_run.
    destruct (find_index (storage.has_id x) (ideas d)) as [i|] eqn:Hi; [|by eauto].
    destruct (find_index_split _ _ _ Hi) as (l1 & idea & l2 & E & <- & Hx & Hl1).
    assert (ideas d !! length l1 = Some idea) as ->.
    { rewrite E. by apply list_lookup_middle. }
    eexists. split; [done|]. rewrite E, list_insert_middle.
    by apply (consistent_update d l1 l2 idea x).
  - rewrite delete_idea_router_run, delete_idea_run.
    destruct (find_index (storage.has_id x) (ideas d)) as [i|] eqn:Hi; [|by eauto].
    destruct (find_index_split _ _ _ Hi) as (l1 & idea & l2 & E & <- & Hx & Hl1).
    eexists. split; [done|]. rewrite E, delete_middle.
    by apply (consistent_delete d l1 l2 idea x).
  - rewrite toggle_like_router_run.
    destruct (find_index (storage.has_id x) (ideas d)) as [i|] eqn:Hi; [|by eauto].
    destruct (toggle_like_consistent d x (default "anonymous" u) uuid4 now i Hd Hi)
      as (idea & d' & _ & _ & _ & _ & Hd' & _ & _ & Hrun).
    destruct (find_index (storage.like_of x _) (likes d)).
    + destruct Hrun as (_ & _ & _ & ->). by eauto.
    + destruct Hrun as (_ & _ & ->). by eauto.
  - destruct (add_comment_router_run d x c u n) as (d' & -> & Hi & Hl).
    eexists. split; [done|]. by apply (consistent_same_likes d).
Qed.

(** Every reachable file holds a consistent document. *)
Lemma reachable_consistent (f : file document) :
  reachable f → ∃ d, f = Text (Some d) ∧ consistent d.
Proof.
  induction 1 as [|r f _ (d & -> & Hd)].
  - exists initial_data. split; [done|]. apply consistent_initial.
  - destruct (handle_consistent r d Hd) as (d' & -> & Hd'). eauto.
Qed.

Lemma find_index_insert {A} (P : A → Prop) `{∀ x, Decision (P x)}
    (l : list A) (i : nat) (a : A) :
  find_index P l = Some i → P a → find_index P (<[i := a]> l) = Some i.
Proof.
  intros Hi Ha.
  destruct (find_index_split _ _ _ Hi) as (l1 & b & l2 & -> & <- & _ & Hl1).
  rewrite list_insert_middle. by apply find_index_middle.
Qed.

Lemma response_lookup_likes (idea : dict) (c : Z) (b : bool) :
  spread idea (<["comments" := VInt c]> {["userLiked" := VBool b]}) !! "likes"
    = idea !! "likes".
Proof. apply spread_lookup_l. by simplify_map_eq. Qed.

Lemma response_lookup_userLiked (idea : dict) (c : Z) (b : bool) :
  spread idea (<["comments" := VInt c]> {["userLiked" := VBool b]}) !! "userLiked"
    = Some (VBool b).
Proof. apply spread_lookup_r. by simplify_map_eq. Qed.

(** Two [toggle_like] calls in a row for the same idea and user, on a
    consistent document: both return the idea, and the ideas are afterwards
    what they were; when the user had not liked the idea the whole
    document is. *)
Lemma toggle_like_twice_consistent (d : document)
    (x u uuid4 now uuid4' now' : string) (i : nat) :
  consistent d →
  find_index (storage.has_id x) (ideas d) = Some i →
  ∃ idea first second d1 d2,
    ideas d !! i = Some idea ∧
    storage.toggle_like x u uuid4 now (Text (Some d))
      = (Return (Some first), Text (Some d1)) ∧
    storage.toggle_like x u uuid4' now' (Text (Some d1))
      = (Return (Some second), Text (Some d2)) ∧
    ideas d2 = ideas d ∧ comments d2 = comments d ∧ tags d2 = tags d ∧
    second !! "likes" = idea !! "likes" ∧
    first !! "userLiked" =
      Some (VBool (bool_decide (find_index (storage.like_of x u) (likes d) = None))) ∧
    second !! "userLiked" =
      Some (VBool (bool_decide (find_index (storage.like_of x u) (likes d) ≠ None))) ∧
    (find_index (storage.like_of x u) (likes d) = None → likes d2 = likes d).
Proof.
  intros Hd Hi.
  destruct (toggle_like_consistent d x u uuid4 now i Hd Hi)
    as (idea & d1 & Hidea & Hx & Hn & Hpos & Hd1 & Hc1 & Ht1 & Hrun1).
  set (n := likes_of d x) in *.
  assert (∃ m first,
    ideas d1 = <[i := <["likes" := VInt m]> idea]> (ideas d) ∧
    storage.toggle_like x u uuid4 now (Text (Some d))
      = (Return (Some first), Text (Some d1)) ∧
    first !! "userLiked" =
      Some (VBool (bool_decide (find_index (storage.like_of x u) (likes d) = None))) ∧
    match find_index (storage.like_of x u) (likes d) with
    | Some j => likes d1 = delete j (likes d) ∧ m = n - 1
    | None => likes d1 = likes d ++ [storage.new_like x u uuid4 now] ∧ m = n + 1
    end) as (m & first & Hi1 & Hfirst & Hliked1 & Hl1).
  { destruct (find_index (storage.like_of x u) (likes d)) as [j|].
    - destruct Hrun1 as (_ & ? & ? & ?). eexists _, _.
      split_and!; [done|done|by rewrite response_lookup_userLiked|done|done].
    - destruct Hrun1 as (? & ? & ?). eexists _, _.
      split_and!; [done|done|by rewrite response_lookup_userLiked|done|done]. }
  clear Hrun1.
  assert (i < length (ideas d))%nat as Hlt by by eapply lookup_lt_Some.
  assert (find_index (storage.has_id x) (ideas d1) = Some i) as Hfind1.
  { rewrite Hi1. apply find_index_insert; [done|]. by apply has_id_set_likes. }
  destruct (toggle_like_consistent d1 x u uuid4' now' i Hd1 Hfind1)
    as (idea1 & d2 & Hidea1 & _ & Hn1 & _ & Hd2 & Hc2 & Ht2 & Hrun2).
  rewrite Hi1, list_lookup_insert_eq in Hidea1 by done.
  injection Hidea1 as <-. rewrite lookup_insert_eq in Hn1.
  injection Hn1 as Hm.
  assert (∀ k : Z, <[i := <["likes" := VInt k]> (<["likes" := VInt m]> idea)]>
                     (ideas d1) = <[i := <["likes" := VInt k]> idea]> (ideas d))
    as Hback.
  { intros k. rewrite Hi1, list_insert_insert_eq. by rewrite insert_insert_eq. }
  assert (<[i := <["likes" := VInt n]> idea]> (ideas d) = ideas d) as Hid.
  { rewrite insert_id by done. by apply list_insert_id. }
  destruct (find_index (storage.like_of x u) (likes d)) as [j|] eqn:Hj.
  - destruct Hl1 as [Hl1 ->].
    assert (find_index (storage.like_of x u) (likes d1) = None) as Hnone.
    { apply find_index_None.
      apply (count_zero (storage.like_of x u)).
      destruct (find_index_find_first _ _ _ Hj) as (like & _ & Hlike & Hof).
      pose proof (like_unique d Hd x u) as Hle.
      rewrite (count_delete _ _ j like), decide_True in Hle by done.
      pose proof (count_nonneg (storage.like_of x u) (delete j (likes d))).
      rewrite Hl1. lia. }
    rewrite Hnone in Hrun2. destruct Hrun2 as (Hi2 & Hl2 & Hrun2).
    rewrite <- Hm in Hi2, Hrun2. simpl in Hi2.
    replace (n - 1 + 1) with n in Hi2, Hrun2 by lia.
    eexists idea, first, _, d1, d2.
    split_and!; [done|done|exact Hrun2| |congruence|congruence| |done| |done].
    + by rewrite Hi2, Hback, Hid.
    + by rewrite response_lookup_likes, lookup_insert_eq.
    + by rewrite response_lookup_userLiked.
  - destruct Hl1 as [Hl1 ->].
    assert (find_index (storage.like_of x u) (likes d1) = Some (length (likes d)))
      as Hsome.
    { rewrite Hl1. apply find_index_middle.
      - by apply (find_index_None (storage.like_of x u)).
      - unfold storage.like_of, storage.new_like. by simplify_map_eq. }
    rewrite Hsome in Hrun2. destruct Hrun2 as (_ & Hi2 & Hl2 & Hrun2).
    rewrite <- Hm in Hi2, Hrun2. simpl in Hi2.
    replace (n + 1 - 1) with n in Hi2, Hrun2 by lia.
    eexists idea, first, _, d1, d2.
    split_and!; [done|done|exact Hrun2| |congruence|congruence| |done| |].
    + by rewrite Hi2, Hback, Hid.
    + by rewrite response_lookup_likes, lookup_insert_eq.
    + by rewrite response_lookup_userLiked.
    + intros _. rewrite Hl2, Hl1, delete_middle. apply app_nil_r.
Qed.

Lemma after_first_idea_reachable :
  reachable (Text (Some Samples.after_first_idea)).
Proof.
  pose proof (reachable_step
    (CreateIdea Samples.first_idea "a" "January 02, 2024") _ reachable_empty) as H.
  unfold handle in H. by rewrite create_idea_run in H.
Qed.

Lemma find_index_Exists {A} (P : A → Prop) `{∀ x, Decision (P x)} (l : list A) :
  Exists P l → ∃ i x, find_index P l = Some i ∧ find_first P l = Some x ∧
                      l !! i = Some x.
Proof.
  intros Hex. destruct (find_index P l) as [i|] eqn:Hi.
  - destruct (find_index_find_first _ _ _ Hi) as (x & ? & ? & _). eauto.
  - apply find_index_None in Hi. by apply Forall_Exists_neg in Hi.
Qed.

(** ** Ideas: toggling a like twice *)

(** C3. In a reachable ideas document, for an idea that is present and a
    user who has no Like row for it, two [toggle_like] calls in a row both
    return the idea and leave the file holding the document it held
    before, so the idea's counter is at its original value (the second
    response carries it), and the second response says
    [userLiked = false]. *)
Theorem toggle_like_twice_restores (d : document)
    (idea_id user_id uuid4 now uuid4' now' : string) :
  reachable (Text (Some d)) →
  Exists (storage.has_id idea_id) (ideas d) →
  Forall (λ like, ¬ storage.like_of idea_id user_id like) (likes d) →
  ∃ idea first second f1,
    find_first (storage.has_id idea_id) (ideas d) = Some idea ∧
    storage.toggle_like idea_id user_id uuid4 now (Text (Some d))
      = (Return (Some first), f1) ∧
    storage.toggle_like idea_id user_id uuid4' now' f1
      = (Return (Some second), Text (Some d)) ∧
    first !! "userLiked" = Some (VBool true) ∧
    second !! "userLiked" = Some (VBool false) ∧
    second !! "likes" = idea !! "likes".
Proof.
  intros Hreach Hex Hnone.
  destruct (reachable_consistent _ Hreach) as (d0 & [= <-] & Hd).
  destruct (find_index_Exists _ _ Hex) as (i & idea & Hi & Hfirst & Hidea).
  apply (find_index_None (storage.like_of idea_id user_id)) in Hnone.
  destruct (toggle_like_twice_consistent d idea_id user_id uuid4 now uuid4' now'
              i Hd Hi)
    as (idea' & first & second & d1 & d2 & Hidea' & Hrun1 & Hrun2 & Hi2 & Hc2
        & Ht2 & Hlikes & Hl1 & Hl2 & Hsame).
  assert (idea' = idea) as -> by congruence.
  assert (d2 = d) as ->.
  { specialize (Hsame Hnone). destruct d, d2; simpl in *; congruence. }
  rewrite Hnone in Hl1, Hl2.
  by exists idea, first, second, (Text (Some d1)).
Qed.

Lemma toggle_like_twice_restores_witness :
  reachable (Text (Some Samples.after_first_idea)) ∧
  Exists (storage.has_id "a") (ideas Samples.after_first_idea) ∧
  ∃ second,
    (storage.toggle_like "a" "u1" "l2" "2024-01-02T10:00:01"
       (storage.toggle_like "a" "u1" "l1" "2024-01-02T10:00:00"
          (Text (Some Samples.after_first_idea))).2)
      = (Return (Some second), Text (Some Samples.after_first_idea)) ∧
    second !! "likes" = Some (VInt 0) ∧
    second !! "userLiked" = Some (VBool false).
Proof.
  assert (Exists (storage.has_id "a") (ideas Samples.after_first_idea)) as Hex.
  { left. reflexivity. }
  split; [exact after_first_idea_reachable|]. split; [exact Hex|].
  destruct (toggle_like_twice_restores Samples.after_first_idea
              "a" "u1" "l1" "2024-01-02T10:00:00" "l2" "2024-01-02T10:00:01"
              after_first_idea_reachable Hex (Forall_nil_2 _))
    as (idea & first & second & f1 & Hidea & Hrun1 & Hrun2 & _ & Hl & Hn).
  injection Hidea as <-.
  exists second. rewrite Hrun1. simpl. split; [exact Hrun2|]. split; [exact Hn|exact Hl].
Defined.

(** ** Ideas: one Like row per user and idea, counters in step *)

(** C4. A file reachable from the empty document through the mutating
    endpoints holds a document in which every (user, idea) pair has at most
    one Like row and every idea's [likes] is an integer that is not
    negative; and there [toggle_like], for an idea that is present, either
    removes the one row of the pair and takes one from the counter, or
    appends one row and adds one to the counter. *)
Theorem reachable_likes_in_step (f : file document) :
  reachable f →
  ∃ d, f = Text (Some d) ∧
    (∀ idea_id user_id,
       count (storage.like_of idea_id user_id) (likes d) ≤ 1) ∧
    Forall (λ idea, ∃ n, idea !! "likes" = Some (VInt n) ∧ 0 ≤ n) (ideas d) ∧
    (∀ idea_id user_id uuid4 now i,
       find_index (storage.has_id idea_id) (ideas d) = Some i →
       ∃ idea n response d',
         ideas d !! i = Some idea ∧
         idea !! "likes" = Some (VInt n) ∧
         storage.toggle_like idea_id user_id uuid4 now (Text (Some d))
           = (Return (Some response), Text (Some d')) ∧
         match find_index (storage.like_of idea_id user_id) (likes d) with
         | Some j =>
             likes d' = delete j (likes d) ∧
             count (storage.like_of idea_id user_id) (likes d') = 0 ∧
             ideas d' = <[i := <["likes" := VInt (n - 1)]> idea]> (ideas d) ∧
             0 ≤ n - 1
         | None =>
             likes d' = likes d ++ [storage.new_like idea_id user_id uuid4 now] ∧
             count (storage.like_of idea_id user_id) (likes d') = 1 ∧
             ideas d' = <[i := <["likes" := VInt (n + 1)]> idea]> (ideas d)
         end).
Proof.
  intros Hreach.
  destruct (reachable_consistent _ Hreach) as (d & -> & Hd).
  exists d. split_and!; [done|apply Hd| |].
  - eapply counters_ok_nonneg; [|apply Hd].
    intros x. apply count_nonneg.
  - intros x u uuid4 now i Hi.
    destruct (toggle_like_consistent d x u uuid4 now i Hd Hi)
      as (idea & d' & Hidea & _ & Hn & _ & Hd' & _ & _ & Hrun).
    pose proof (like_unique d Hd x u) as Hle.
    destruct (find_index (storage.like_of x u) (likes d)) as [j|] eqn:Hj.
    + destruct Hrun as (Hpos & Hi' & Hl' & Hrun).
      destruct (find_index_find_first _ _ _ Hj) as (like & _ & Hlike & Hof).
      rewrite (count_delete _ _ j like), decide_True in Hle by done.
      pose proof (count_nonneg (storage.like_of x u) (delete j (likes d))).
      eexists idea, _, _, d'. split_and!; [done|done|exact Hrun|done| |done|lia].
      rewrite Hl'. lia.
    + destruct Hrun as (Hi' & Hl' & Hrun).
      apply find_index_None in Hj.
      pose proof (proj2 (count_zero (storage.like_of x u) (likes d)) Hj) as Hz.
      eexists idea, _, _, d'. split_and!; [done|done|exact Hrun|done| |done].
      rewrite Hl', count_snoc, Hz, decide_True; [done|].
      unfold storage.like_of, storage.new_like. by simplify_map_eq.
Qed.

Lemma reachable_likes_in_step_witness :
  reachable (Text (Some Samples.after_first_idea)) ∧
  (∀ idea_id user_id,
     count (storage.like_of idea_id user_id) (likes Samples.after_first_idea) ≤ 1) ∧
  Forall (λ idea, ∃ n, idea !! "likes" = Some (VInt n) ∧ 0 ≤ n)
    (ideas Samples.after_first_idea).
Proof.
  split; [exact after_first_idea_reachable|].
  destruct (reachable_likes_in_step _ after_first_idea_reachable)
    as (d & Hd & Hunique & Hnonneg & _).
  injection Hd as <-. split; [exact Hunique|exact Hnonneg].
Defined.

(** ** Ideas: the like endpoint without a user *)

(** C10. Without a [user_id] the like endpoint toggles for the user
    ["anonymous"].  In a reachable document, for an idea that is present
    with counter [n]: when ["anonymous"] has no Like row for the idea, the
    first such call appends the row for ["anonymous"], stores [n + 1] and
    answers [userLiked = true], and the second removes it again, so that
    the whole document is what it was; when ["anonymous"] has a row, the
    first call removes it, stores [n - 1] and answers [userLiked = false],
    and the second appends a new row for ["anonymous"].  Either way both
    calls succeed, each is [toggle_like] of the store for ["anonymous"],
    and afterwards the ideas, their counters included, are what they were:
    the second answer shows [n] likes. *)
Theorem anonymous_like_twice_cancels (d : document)
    (idea_id uuid4 now uuid4' now' : string) :
  reachable (Text (Some d)) →
  Exists (storage.has_id idea_id) (ideas d) →
  router.toggle_like idea_id None uuid4 now
    = router.toggle_like idea_id (Some "anonymous") uuid4 now ∧
  ∃ i idea n first second d1 d2,
    find_index (storage.has_id idea_id) (ideas d) = Some i ∧
    find_first (storage.has_id idea_id) (ideas d) = Some idea ∧
    idea !! "likes" = Some (VInt n) ∧
    router.toggle_like idea_id None uuid4 now (Text (Some d))
      = (Return first, Text (Some d1)) ∧
    storage.toggle_like idea_id "anonymous" uuid4 now (Text (Some d))
      = (Return (Some first), Text (Some d1)) ∧
    router.toggle_like idea_id None uuid4' now' (Text (Some d1))
      = (Return second, Text (Some d2)) ∧
    storage.toggle_like idea_id "anonymous" uuid4' now' (Text (Some d1))
      = (Return (Some second), Text (Some d2)) ∧
    comments d1 = comments d ∧ tags d1 = tags d ∧
    comments d2 = comments d ∧ tags d2 = tags d ∧
    match find_index (storage.like_of idea_id "anonymous") (likes d) with
    | None =>
        likes d1
          = likes d ++ [storage.new_like idea_id "anonymous" uuid4 now] ∧
        ideas d1 = <[i := <["likes" := VInt (n + 1)]> idea]> (ideas d) ∧
        first !! "likes" = Some (VInt (n + 1)) ∧
        first !! "userLiked" = Some (VBool true) ∧
        second !! "userLiked" = Some (VBool false) ∧
        d2 = d
    | Some j =>
        likes d1 = delete j (likes d) ∧
        ideas d1 = <[i := <["likes" := VInt (n - 1)]> idea]> (ideas d) ∧
        first !! "likes" = Some (VInt (n - 1)) ∧
        first !! "userLiked" = Some (VBool false) ∧
        second !! "userLiked" = Some (VBool true) ∧
        likes d2
          = delete j (likes d)
              ++ [storage.new_like idea_id "anonymous" uuid4' now']
    end ∧
    ideas d2 = ideas d ∧
    second !! "likes" = Some (VInt n).
Proof.
  intros Hreach Hex. split; [done|].
  destruct (reachable_consistent _ Hreach) as (d0 & [= <-] & Hd).
  destruct (find_index_Exists _ _ Hex) as (i & idea & Hi & Hfirst & Hidea).
  destruct (toggle_like_twice_consistent d idea_id "anonymous" uuid4 now
              uuid4' now' i Hd Hi)
    as (idea' & first & second & d1 & d2 & Hidea' & Hrun1 & Hrun2 & Hi2 & Hc2
        & Ht2 & Hlikes & Hl1 & Hl2 & Hsame).
  assert (idea' = idea) as -> by congruence.
  destruct (toggle_like_consistent d idea_id "anonymous" uuid4 now i Hd Hi)
    as (idea0 & d1' & Hidea0 & Hid & Hn & Hpos & Hd1 & Hc1 & Ht1 & Hstep1).
  assert (idea0 = idea) as -> by congruence.
  assert (∃ m, ideas d1' = <[i := <["likes" := VInt m]> idea]> (ideas d) ∧
               storage.toggle_like idea_id "anonymous" uuid4 now (Text (Some d))
                 = (Return (Some first), Text (Some d1'))) as (m & Hideas1 & Hrun1').
  { destruct (find_index (storage.like_of idea_id "anonymous") (likes d));
      [destruct Hstep1 as (_ & ? & _ & E)|destruct Hstep1 as (? & _ & E)];
      eexists; (split; [done|]); rewrite Hrun1 in E |- *; by simplify_eq. }
  assert (d1' = d1) as -> by (rewrite Hrun1 in Hrun1'; by simplify_eq).
  clear Hrun1'.
  assert (find_index (storage.has_id idea_id) (ideas d1) = Some i) as Hi1.
  { rewrite Hideas1. apply find_index_insert; [done|]. by apply has_id_set_likes. }
  exists i, idea, (likes_of d idea_id), first, second, d1, d2.
  split_and!; try done.
  - rewrite toggle_like_router_run, Hi.
    change (default "anonymous" None) with "anonymous". by rewrite Hrun1.
  - rewrite toggle_like_router_run, Hi1.
    change (default "anonymous" None) with "anonymous". by rewrite Hrun2.
  - destruct (find_index (storage.like_of idea_id "anonymous") (likes d))
      as [j|] eqn:Hj.
    + destruct Hstep1 as (_ & Hi' & Hl' & E). rewrite Hrun1 in E.
      injection E as ->.
      split_and!; [done|done| | | |].
      * by rewrite response_lookup_likes, lookup_insert_eq.
      * by rewrite response_lookup_userLiked.
      * rewrite Hl2. by rewrite bool_decide_eq_true_2.
      * destruct (find_index_find_first _ _ _ Hj) as (like & _ & Hlike & Hof).
        pose proof (like_unique d Hd idea_id "anonymous") as Hle.
        rewrite (count_delete _ _ j like), decide_True in Hle by done.
        pose proof (count_nonneg (storage.like_of idea_id "anonymous")
                      (delete j (likes d))) as Hge.
        assert (find_index (storage.like_of idea_id "anonymous") (likes d1)
                  = None) as Hnone.
        { apply find_index_None. rewrite Hl'.
          apply (count_zero (storage.like_of idea_id "anonymous")). lia. }
        destruct (toggle_like_consistent d1 idea_id "anonymous" uuid4' now' i
                    Hd1 Hi1)
          as (idea1 & d2' & _ & _ & _ & _ & _ & _ & _ & Hstep2).
        rewrite Hnone in Hstep2. destruct Hstep2 as (_ & Hl2' & E).
        rewrite Hrun2 in E. assert (d2' = d2) as -> by by simplify_eq.
        by rewrite Hl2', Hl'.
    + destruct Hstep1 as (Hi' & Hl' & E). rewrite Hrun1 in E.
      injection E as ->.
      split_and!; [done|done| | | |].
      * by rewrite response_lookup_likes, lookup_insert_eq.
      * by rewrite response_lookup_userLiked.
      * rewrite Hl2. by rewrite bool_decide_eq_false_2 by (intros ?; done).
      * specialize (Hsame eq_refl). destruct d, d2; simpl in *; congruence.
  - congruence.
Qed.

Lemma anonymous_like_twice_cancels_witness :
  reachable (Text (Some Samples.after_first_idea)) ∧
  Exists (storage.has_id "a") (ideas Samples.after_first_idea) ∧
  ∃ first second d1,
    router.toggle_like "a" None "l1" "2024-01-02T10:00:00"
        (Text (Some Samples.after_first_idea))
      = (Return first, Text (Some d1)) ∧
    likes d1 = [storage.new_like "a" "anonymous" "l1" "2024-01-02T10:00:00"] ∧
    first !! "likes" = Some (VInt 1) ∧
    first !! "userLiked" = Some (VBool true) ∧
    router.toggle_like "a" None "l2" "2024-01-02T10:00:01" (Text (Some d1))
      = (Return second, Text (Some Samples.after_first_idea)) ∧
    second !! "likes" = Some (VInt 0) ∧
    second !! "userLiked" = Some (VBool false).
Proof.
  assert (Exists (storage.has_id "a") (ideas Samples.after_first_idea)) as Hex.
  { left. reflexivity. }
  split; [exact after_first_idea_reachable|]. split; [exact Hex|].
  destruct (anonymous_like_twice_cancels Samples.after_first_idea
              "a" "l1" "2024-01-02T10:00:00" "l2" "2024-01-02T10:00:01"
              after_first_idea_reachable Hex)
    as (_ & i & idea & n & first & second & d1 & d2 & _ & Hidea & Hn & Hrun1
        & _ & Hrun2 & _ & _ & _ & _ & _ & Hstep & _ & Hlikes).
  injection Hidea as <-. injection Hn as <-.
  change (find_index (storage.like_of "a" "anonymous")
            (likes Samples.after_first_idea)) with (@None nat) in Hstep.
  destruct Hstep as (Hl1 & _ & Hf & Hu1 & Hu2 & Hd2).
  exists first, second, d1.
  split; [exact Hrun1|]. split; [exact Hl1|]. split; [exact Hf|].
  split; [exact Hu1|]. split; [rewrite <- Hd2; exact Hrun2|].
  split; [exact Hlikes|exact Hu2].
Defined.

End reachability.

(** ** Posts: the handlers on a file that holds a document *)

Section posts_router.
Import Posts.

Lemma post_has_id_nonempty (post_id : string) (post : dict) :
  storage.has_id post_id post → post ≠ ∅.
Proof. unfold storage.has_id. by intros H ->. Qed.

Lemma get_post_run (d : document) (post_id : string) :
  storage.get_post post_id (Text (Some d)) =
    (Return
       (match find_first (storage.has_id post_id) (posts d) with
        | None => None
        | Some post =>
            let comments := filter (storage.of_post post_id) (post_comments d) in
            Some {| storage.detail := delete "comments" (spread post
                      {["comments_count" := VInt (Z.of_nat (length comments))]});
                    storage.comments := comments |}
        end),
     Text (Some d)).
Proof.
  unfold storage.get_post. run.
  destruct (find_first (storage.has_id post_id) (posts d)) as [post|] eqn:E; [|done].
  rewrite decide_False; [done|].
  unfold find_first in E. destruct (list_find _ _) as [[i p]|] eqn:E'; simplify_eq/=.
  apply list_find_Some in E' as (_ & ? & _). by eapply post_has_id_nonempty.
Qed.

(** Keys other than the two that [get_post] adds read as in the stored
    post. *)
Lemma detail_lookup (post : dict) (n : Z) (k : string) :
  k ≠ "comments" → k ≠ "comments_count" →
  delete "comments" (spread post {["comments_count" := VInt n]}) !! k = post !! k.
Proof.
  intros ??. rewrite lookup_delete_ne by done.
  apply spread_lookup_l. by apply lookup_singleton_ne.
Qed.

Lemma update_post_run (d : document) (post_id : string) (pu : PostUpdate)
    (published_now updated_now : string) :
  router.update_post post_id pu published_now updated_now (Text (Some d)) =
  match find_index (storage.has_id post_id) (posts d) with
  | None => (Raise (HTTPException 404 "Post not found"), Text (Some d))
  | Some i =>
      match posts d !! i,
            (storage.get_post post_id (Text (Some d))).1 with
      | Some post, Return (Some view) =>
          let updated :=
            spread post (router.updates_of view pu published_now updated_now) in
          (Return (spread updated
                     {["comments_count" :=
                         VInt (count (storage.of_post post_id) (post_comments d))]}),
           Text (Some {| posts := <[i := updated]> (posts d);
                         post_comments := post_comments d;
                         tags := tags d |}))
      | _, _ => (Raise (HTTPException 404 "Post not found"), Text (Some d))
      end
  end.
Proof.
  unfold router.update_post, mbind, M_bind, bind at 1.
  rewrite get_post_run. simpl.
  destruct (find_index (storage.has_id post_id) (posts d)) as [i|] eqn:Hi.
  - destruct (find_index_find_first _ _ _ Hi) as (post & Hfirst & Hpost & _).
    rewrite Hfirst, Hpost. simpl.
    unfold storage.update_post. run. rewrite Hi, Hpost. simpl.
    rewrite decide_False; [done|].
    eapply spread_nonempty. apply lookup_singleton_eq.
  - by apply find_first_None in Hi as ->.
Qed.

Lemma delete_post_run (d : document) (post_id : string) :
  router.delete_post post_id (Text (Some d)) =
  match find_index (storage.has_id post_id) (posts d) with
  | None => (Raise (HTTPException 404 "Post not found"), Text (Some d))
  | Some i =>
      (Return tt,
       Text (Some {| posts := delete i (posts d);
                     post_comments :=
                       filter (λ c, ¬ storage.of_post post_id c) (post_comments d);
                     tags := tags d |}))
  end.
Proof.
  unfold router.delete_post, mbind, M_bind, bind at 1.
  rewrite get_post_run. simpl.
  destruct (find_index (storage.has_id post_id) (posts d)) as [i|] eqn:Hi.
  - destruct (find_index_find_first _ _ _ Hi) as (post & -> & _ & _). simpl.
    unfold storage.delete_post. run. by rewrite Hi.
  - by apply find_first_None in Hi as ->.
Qed.

(** ** Posts: the excerpt follows the content *)

Lemma substring_whole (n : nat) (s : string) :
  (String.length s ≤ n)%nat → String.substring 0 n s = s.
Proof.
  revert n. induction s as [|c s IH]; intros [|n] Hn; simpl in *;
    try done; try lia.
  f_equal. apply IH. lia.
Qed.

Lemma substring_length (n : nat) (s : string) :
  (n ≤ String.length s)%nat → String.length (String.substring 0 n s) = n.
Proof.
  revert n. induction s as [|c s IH]; intros [|n] Hn; simpl in *;
    try done; try lia.
  f_equal. apply IH. lia.
Qed.

Lemma updates_of_content (view : storage.post_detail) (pu : PostUpdate)
    (published_now updated_now content : string) :
  pu_content pu = Some content → pu_excerpt pu = None →
  router.updates_of view pu published_now updated_now !! "excerpt"
    = Some (VStr (router.excerpt_of content)) ∧
  router.updates_of view pu published_now updated_now !! "content"
    = Some (VStr content).
Proof.
  intros Hc He. unfold router.updates_of. rewrite Hc, He.
  destruct (pu_title pu), (pu_tags pu), (pu_is_published pu) as [[]|];
    simpl; try destruct (negb _); by simplify_map_eq.
Qed.

(** C6. Updating an existing post with new content and no excerpt stores,
    and returns, an excerpt made from the content: its first 150
    characters followed by ["..."] when the content has more than 150,
    the content itself when it has 150 or fewer. *)
Theorem update_post_derives_excerpt (d : document) (post_id : string)
    (pu : PostUpdate) (published_now updated_now content : string) :
  Exists (storage.has_id post_id) (posts d) →
  pu_content pu = Some content →
  pu_excerpt pu = None →
  ∃ i stored response d',
    find_index (storage.has_id post_id) (posts d) = Some i ∧
    router.update_post post_id pu published_now updated_now (Text (Some d))
      = (Return response, Text (Some d')) ∧
    posts d' = <[i := stored]> (posts d) ∧
    posts d' !! i = Some stored ∧
    stored !! "content" = Some (VStr content) ∧
    response !! "excerpt" = stored !! "excerpt" ∧
    ((150 < String.length content)%nat →
       stored !! "excerpt"
         = Some (VStr (String.substring 0 150 content +:+ "...")) ∧
       String.length (String.substring 0 150 content) = 150%nat) ∧
    ((String.length content ≤ 150)%nat →
       stored !! "excerpt" = Some (VStr content)).
Proof.
  intros Hex Hc He.
  destruct (find_index_Exists _ _ Hex) as (i & post & Hi & Hfirst & Hpost).
  rewrite update_post_run, Hi, Hpost, get_post_run, Hfirst. simpl.
  match goal with
  | |- context [router.updates_of ?v _ _ _] =>
      destruct (updates_of_content v pu published_now updated_now content Hc He)
        as [Hexc Hcont]
  end.
  assert (i < length (posts d))%nat as Hlt by by eapply lookup_lt_Some.
  eexists i, _, _, _. split_and!; [done|done|done| | | | |].
  - simpl. by apply list_lookup_insert_eq.
  - by apply spread_lookup_r.
  - apply spread_lookup_l. by apply lookup_singleton_ne.
  - intros Hlong. split.
    + erewrite spread_lookup_r by done. unfold router.excerpt_of.
      by rewrite (proj2 (Nat.ltb_lt _ _) Hlong).
    + apply substring_length. lia.
  - intros Hshort. erewrite spread_lookup_r by done. unfold router.excerpt_of.
    destruct (150 <? String.length content)%nat eqn:E.
    + apply Nat.ltb_lt in E. lia.
    + by rewrite substring_whole.
Qed.

Lemma update_post_derives_excerpt_witness :
  Exists (storage.has_id "p") (posts Samples.one_draft) ∧
  (150 < String.length Samples.long_text)%nat ∧
  ∃ stored response d',
    router.update_post "p" (Samples.new_content Samples.long_text)
        "2024-01-03T09:00:00" "2024-01-03T09:00:01" (Text (Some Samples.one_draft))
      = (Return response, Text (Some d')) ∧
    posts d' = [stored] ∧
    stored !! "excerpt"
      = Some (VStr (String.substring 0 150 Samples.long_text +:+ "...")).
Proof.
  assert (Exists (storage.has_id "p") (posts Samples.one_draft)) as Hex.
  { left. reflexivity. }
  assert (150 < String.length Samples.long_text)%nat as Hlong.
  { vm_compute. lia. }
  split; [exact Hex|]. split; [exact Hlong|].
  destruct (update_post_derives_excerpt Samples.one_draft "p"
              (Samples.new_content Samples.long_text)
              "2024-01-03T09:00:00" "2024-01-03T09:00:01" Samples.long_text
              Hex eq_refl eq_refl)
    as (i & stored & response & d' & Hi & Hrun & Hposts & _ & _ & _ & Hl & _).
  injection Hi as <-.
  exists stored, response, d'. split; [exact Hrun|]. split; [exact Hposts|].
  exact (proj1 (Hl Hlong)).
Defined.

(** ** Posts: what looks at [is_published] *)

Section listing.
Variable lower : string → string.
Variable fromisoformat : string → option Z.

Lemma filter_posts_published (g : storage.groups) (search tag : option string)
    (ps l : list dict) :
  storage.filter_posts lower g search tag true ps = Return l →
  Forall (λ p, truthy (p !! "is_published") = true) l.
Proof.
  revert l. induction ps as [|post ps IH]; intros l; simpl.
  - by intros [= <-].
  - destruct (truthy (post !! "is_published")) eqn:Hp; simpl; [|by apply IH].
    destruct (if nonempty search then _ else _) as [[]|]; [by apply IH| |done].
    destruct (if nonempty tag then _ else _) as [[]|]; [by apply IH| |done].
    destruct (storage.comments_count g post) as [n|]; [|done].
    destruct (storage.filter_posts lower g search tag true ps) as [l'|]; [|done].
    intros [= <-]. constructor; [|by apply IH].
    rewrite spread_lookup_l; [done|].
    by apply lookup_singleton_ne.
Qed.

Lemma keyed_posts (xs : list dict) (kxs : list (Z * dict)) :
  storage.keyed fromisoformat xs = Return kxs → kxs.*2 = xs.
Proof.
  revert kxs. induction xs as [|x xs IH]; intros kxs; simpl.
  - by intros [= <-].
  - destruct (storage.sort_key fromisoformat x) as [k|]; [|done].
    destruct (storage.keyed fromisoformat xs) as [kxs'|]; [|done].
    intros [= <-]. simpl. f_equal. by apply IH.
Qed.

Lemma insert_desc_perm (kx : Z * dict) (l : list (Z * dict)) :
  storage.insert_desc kx l ≡ₚ kx :: l.
Proof.
  induction l as [|ky l IH]; simpl; [done|].
  case_match; [|done]. rewrite IH. apply Permutation_swap.
Qed.

Lemma sort_desc_perm (l : list (Z * dict)) : storage.sort_desc l ≡ₚ l.
Proof.
  unfold storage.sort_desc. induction l as [|kx l IH]; simpl; [done|].
  by rewrite insert_desc_perm, IH.
Qed.

(** With [published_only] the listing holds published posts only. *)
Lemma get_posts_published (d : document) (skip limit : nat)
    (search tag : option string) (l : list dict) (f' : file document) :
  router.get_posts lower fromisoformat skip limit search tag true (Text (Some d))
    = (Return l, f') →
  Forall (λ p, truthy (p !! "is_published") = true) l.
Proof.
  unfold router.get_posts, storage.get_posts. run.
  destruct (storage.group_comments _ _) as [g|]; [|done]. simpl.
  destruct (storage.filter_posts _ _ _ _ _ _) as [filtered|] eqn:Hf; [|done]. simpl.
  destruct (storage.keyed _ _) as [kxs|] eqn:Hk; [|done]. simpl.
  intros [= <- _].
  apply Forall_take, Forall_drop.
  apply filter_posts_published in Hf. apply keyed_posts in Hk. subst filtered.
  by rewrite sort_desc_perm.
Qed.

Lemma keyed_keys (xs : list dict) (kxs : list (Z * dict)) :
  storage.keyed fromisoformat xs = Return kxs →
  Forall (λ kx, storage.sort_key fromisoformat kx.2 = Return kx.1) kxs.
Proof.
  revert kxs. induction xs as [|x xs IH]; intros kxs; simpl.
  - intros [= <-]. constructor.
  - destruct (storage.sort_key fromisoformat x) as [k|] eqn:Hk; [|done].
    destruct (storage.keyed fromisoformat xs) as [kxs'|]; [|done].
    intros [= <-]. constructor; [done|by apply IH].
Qed.

Lemma insert_desc_sorted (kx : Z * dict) (l : list (Z * dict)) :
  StronglySorted (λ a b, b.1 ≤ a.1) l →
  StronglySorted (λ a b, b.1 ≤ a.1) (storage.insert_desc kx l).
Proof.
  induction l as [|ky l IH]; simpl.
  - intros _. by repeat constructor.
  - intros [Hky Hl]%StronglySorted_cons.
    destruct (kx.1 <? ky.1) eqn:E.
    + apply Z.ltb_lt in E. apply StronglySorted_cons. split; [|by apply IH].
      rewrite insert_desc_perm. constructor; [lia|done].
    + apply Z.ltb_ge in E. apply StronglySorted_cons. split.
      * constructor; [done|]. eapply Forall_impl; [done|]. simpl. lia.
      * by apply StronglySorted_cons.
Qed.

Lemma sort_desc_sorted (l : list (Z * dict)) :
  StronglySorted (λ a b, b.1 ≤ a.1) (storage.sort_desc l).
Proof.
  unfold storage.sort_desc. induction l as [|kx l IH]; simpl.
  - constructor.
  - by apply insert_desc_sorted.
Qed.

(** When the listing returns, it returns a slice of the filtered posts in
    the order of their sort keys, latest first. *)
Theorem get_posts_sorted_slice (d : document) (skip limit : nat)
    (search tag : option string) (published_only : bool)
    (l : list dict) (f' : file document) :
  router.get_posts lower fromisoformat skip limit search tag published_only
      (Text (Some d)) = (Return l, f') →
  ∃ comments_by_post filtered sorted,
    storage.group_comments (post_comments d) [] = Return comments_by_post ∧
    storage.filter_posts lower comments_by_post search tag published_only (posts d)
      = Return filtered ∧
    sorted.*2 ≡ₚ filtered ∧
    Forall (λ kx, storage.sort_key fromisoformat kx.2 = Return kx.1) sorted ∧
    StronglySorted (λ a b, b.1 ≤ a.1) sorted ∧
    l = take limit (drop skip sorted.*2) ∧
    f' = Text (Some d).
Proof.
  unfold router.get_posts, storage.get_posts. run.
  destruct (storage.group_comments _ _) as [g|]; [|done]. simpl.
  destruct (storage.filter_posts _ _ _ _ _ _) as [filtered|] eqn:Hf; [|done]. simpl.
  destruct (storage.keyed _ _) as [kxs|] eqn:Hk; [|done]. simpl.
  intros [= <- <-].
  exists g, filtered, (storage.sort_desc kxs). split_and!; try done.
  - rewrite sort_desc_perm. by rewrite (keyed_posts _ _ Hk).
  - rewrite sort_desc_perm. by apply (keyed_keys filtered).
  - apply sort_desc_sorted.
Qed.

End listing.

Lemma get_posts_sorted_slice_witness :
  router.get_posts (λ s, s) Samples.january_day 0 10 None None true
      (Text (Some Samples.two_published))
    = (Return [spread (Samples.published_on "new" "2024-01-03")
                 {["comments_count" := VInt 0]};
               spread (Samples.published_on "old" "2024-01-02")
                 {["comments_count" := VInt 0]}],
       Text (Some Samples.two_published)) ∧
  ∃ sorted,
    StronglySorted (λ a b : Z * dict, b.1 ≤ a.1) sorted ∧
    [spread (Samples.published_on "new" "2024-01-03")
       {["comments_count" := VInt 0]};
     spread (Samples.published_on "old" "2024-01-02")
       {["comments_count" := VInt 0]}] = take 10 (drop 0 sorted.*2).
Proof.
  assert (router.get_posts (λ s, s) Samples.january_day 0 10 None None true
            (Text (Some Samples.two_published))
          = (Return [spread (Samples.published_on "new" "2024-01-03")
                       {["comments_count" := VInt 0]};
                     spread (Samples.published_on "old" "2024-01-02")
                       {["comments_count" := VInt 0]}],
             Text (Some Samples.two_published))) as Hrun.
  { reflexivity. }
  split; [exact Hrun|].
  destruct (get_posts_sorted_slice (λ s, s) Samples.january_day
              Samples.two_published 0 10 None None true _ _ Hrun)
    as (g & filtered & sorted & _ & _ & _ & _ & Hsorted & Hl & _).
  exists sorted. split; [exact Hsorted|exact Hl].
Defined.

(** C9. For an existing post that is not published the update and the
    delete handlers succeed.  The update is carried out: the post is
    replaced, in its place, by one in which every field that was sent has
    the value sent and every field that was not has the stored value,
    [updated_at] is the time of the request, [published_at] is the time of
    the request when the update publishes the post and the stored value
    otherwise, and the answer shows these fields.  The delete is carried
    out: the post and its comments are gone.  Fetching the post and
    commenting on it answer 404, and a listing with [published_only]
    holds published posts only. *)
Theorem draft_can_be_updated_and_deleted (d : document) (post_id : string)
    (post : dict) :
  find_first (storage.has_id post_id) (posts d) = Some post →
  truthy (post !! "is_published") = false →
  (∀ pu published_now updated_now, ∃ i response updated,
     find_index (storage.has_id post_id) (posts d) = Some i ∧
     router.update_post post_id pu published_now updated_now (Text (Some d))
       = (Return response,
          Text (Some {| posts := <[i := updated]> (posts d);
                        post_comments := post_comments d;
                        tags := tags d |})) ∧
     updated !! "updated_at" = Some (VStr updated_now) ∧
     updated !! "title" =
       match pu_title pu with
       | Some title => Some (VStr title)
       | None => post !! "title"
       end ∧
     updated !! "content" =
       match pu_content pu with
       | Some content => Some (VStr content)
       | None => post !! "content"
       end ∧
     updated !! "excerpt" =
       match pu_excerpt pu, pu_content pu with
       | Some excerpt, _ => Some (VStr excerpt)
       | None, Some content => Some (VStr (router.excerpt_of content))
       | None, None => post !! "excerpt"
       end ∧
     updated !! "tags" =
       match pu_tags pu with
       | Some tags => Some (VList tags)
       | None => post !! "tags"
       end ∧
     updated !! "is_published" =
       match pu_is_published pu with
       | Some is_published => Some (VBool is_published)
       | None => post !! "is_published"
       end ∧
     updated !! "published_at" =
       match pu_is_published pu with
       | Some true => Some (VStr published_now)
       | _ => post !! "published_at"
       end ∧
     updated !! "id" = post !! "id" ∧
     (∀ k, k ≠ "comments_count" → response !! k = updated !! k)) ∧
  (∃ i,
     find_index (storage.has_id post_id) (posts d) = Some i ∧
     router.delete_post post_id (Text (Some d))
       = (Return tt,
          Text (Some {| posts := delete i (posts d);
                        post_comments :=
                          filter (λ c, ¬ storage.of_post post_id c) (post_comments d);
                        tags := tags d |}))) ∧
  router.get_post post_id (Text (Some d))
    = (Raise (HTTPException 404 "Post not found"), Text (Some d)) ∧
  (∀ comment uuid4 now,
     router.add_comment post_id comment uuid4 now (Text (Some d))
       = (Raise (HTTPException 404 "Post not found"), Text (Some d))) ∧
  (∀ lower fromisoformat skip limit search tag l f',
     router.get_posts lower fromisoformat skip limit search tag true (Text (Some d))
       = (Return l, f') →
     Forall (λ p, truthy (p !! "is_published") = true) l).
Proof.
  intros Hfirst Hdraft.
  assert (∃ i, find_index (storage.has_id post_id) (posts d) = Some i ∧
               posts d !! i = Some post) as (i & Hi & Hpost).
  { destruct (find_index (storage.has_id post_id) (posts d)) as [i|] eqn:Hi.
    - destruct (find_index_find_first _ _ _ Hi) as (p & ? & ? & _).
      exists i. split; [done|]. congruence.
    - apply find_first_None in Hi. congruence. }
  split_and!.
  - intros pu n1 n2. exists i.
    rewrite update_post_run, Hi, Hpost, get_post_run, Hfirst. simpl.
    eexists _, _. split_and!; [done|done|..].
    all: try (intros k Hk; apply spread_lookup_l; by apply lookup_singleton_ne).
    all: unfold router.updates_of; simpl;
      rewrite detail_lookup, Hdraft by done;
      destruct (pu_title pu), (pu_content pu), (pu_excerpt pu), (pu_tags pu),
        (pu_is_published pu) as [[]|]; simpl;
      first [ apply spread_lookup_r; reflexivity
            | apply spread_lookup_l; reflexivity ].
  - exists i. by rewrite delete_post_run, Hi.
  - unfold router.get_post, mbind, M_bind, bind at 1.
    rewrite get_post_run, Hfirst. unfold bind, ret, router.found. simpl.
    by rewrite detail_lookup, Hdraft by done.
  - intros c u n. unfold router.add_comment, mbind, M_bind, bind at 1.
    rewrite get_post_run, Hfirst. simpl.
    by rewrite detail_lookup, Hdraft by done.
  - intros lower fromisoformat skip limit search tag l f' Hrun.
    by eapply get_posts_published.
Qed.

Lemma draft_can_be_updated_and_deleted_witness :
  find_first (storage.has_id "p") (posts Samples.one_draft) = Some Samples.draft_p ∧
  truthy (Samples.draft_p !! "is_published") = false ∧
  (∃ response updated,
     router.update_post "p" (Samples.new_content "longer") "2024-01-03T10:00:00"
         "2024-01-03T10:00:01" (Text (Some Samples.one_draft))
       = (Return response,
          Text (Some {| posts := [updated]; post_comments := []; tags := [] |})) ∧
     updated !! "content" = Some (VStr "longer") ∧
     updated !! "title" = Some (VStr "Title") ∧
     updated !! "updated_at" = Some (VStr "2024-01-03T10:00:01") ∧
     updated !! "published_at" = Some VNone ∧
     response !! "content" = Some (VStr "longer")) ∧
  router.delete_post "p" (Text (Some Samples.one_draft))
    = (Return tt, Text (Some initial_data)) ∧
  router.get_post "p" (Text (Some Samples.one_draft))
    = (Raise (HTTPException 404 "Post not found"), Text (Some Samples.one_draft)).
Proof.
  assert (find_first (storage.has_id "p") (posts Samples.one_draft)
            = Some Samples.draft_p) as Hfirst by reflexivity.
  assert (truthy (Samples.draft_p !! "is_published") = false) as Hdraft
    by reflexivity.
  split; [exact Hfirst|]. split; [exact Hdraft|].
  destruct (draft_can_be_updated_and_deleted Samples.one_draft "p"
              Samples.draft_p Hfirst Hdraft)
    as (Hupdate & (i & Hi & Hdelete) & Hget & _).
  injection Hi as <-.
  split; [|split; [exact Hdelete|exact Hget]].
  destruct (Hupdate (Samples.new_content "longer") "2024-01-03T10:00:00"
              "2024-01-03T10:00:01")
    as (i & response & updated & Hi & Hrun & Hu & Ht & Hc & _ & _ & _ & Hp & _
        & Hresponse).
  injection Hi as <-. exists response, updated.
  split; [exact Hrun|]. split; [exact Hc|]. split; [exact Ht|].
  split; [exact Hu|]. split; [exact Hp|].
  exact (eq_trans (Hresponse "content" ltac:(discriminate)) Hc).
Defined.

(** ** Posts: listing drafts *)

Section listing_drafts.
Variable lower : string → string.
Variable fromisoformat : string → option Z.

(** Without a search term and a tag, and with [published_only] off, the
    filter keeps every post and adds its comment count. *)
Lemma filter_posts_keeps_all (g : storage.groups) (ps l : list dict) :
  storage.filter_posts lower g None None false ps = Return l →
  Forall2 (λ p q, ∃ n, q = spread p {["comments_count" := VInt n]}) ps l.
Proof.
  revert l. induction ps as [|post ps IH]; intros l; simpl.
  - intros [= <-]. constructor.
  - destruct (storage.comments_count g post) as [n|]; [|done].
    destruct (storage.filter_posts lower g None None false ps) as [l'|]; [|done].
    intros [= <-]. constructor; [by eauto|by apply IH].
Qed.

Lemma sort_key_null_published_at (post : dict) (n : Z) :
  post !! "published_at" = Some VNone →
  storage.sort_key fromisoformat (spread post {["comments_count" := VInt n]})
    = Raise TypeError.
Proof.
  intros Hnull. unfold storage.sort_key, storage.sort_date.
  rewrite (spread_lookup_l _ _ "published_at") by by apply lookup_singleton_ne.
  by rewrite Hnull.
Qed.

Lemma keyed_raises (xs : list dict) (x : dict) (e : exn) :
  x ∈ xs → storage.sort_key fromisoformat x = Raise e →
  ∃ e', storage.keyed fromisoformat xs = Raise e'.
Proof.
  intros Hin Hx. induction Hin as [x xs|x y xs _ IH]; simpl.
  - rewrite Hx. eauto.
  - destruct (storage.sort_key fromisoformat y); [|by eauto].
    destruct (IH Hx) as [e' ->]. eauto.
Qed.

(** C1, where the code departs from it.  When the document holds a post
    whose ["published_at"] is [None] (every draft that [create_post]
    stores is one), [get_posts] with [published_only] off and no other
    filter does not return a list: it raises, because the key of the sort
    is [fromisoformat(None)] and the fallback to ["created_at"] is only
    taken for a post without the key. *)
Theorem get_posts_raises_on_draft (d : document) (post : dict)
    (skip limit : nat) :
  post ∈ posts d →
  post !! "published_at" = Some VNone →
  ∃ e,
    router.get_posts lower fromisoformat skip limit None None false (Text (Some d))
      = (Raise e, Text (Some d)).
Proof.
  intros Hin Hnull. unfold router.get_posts, storage.get_posts. run.
  destruct (storage.group_comments _ _) as [g|]; [|by eauto]. simpl.
  destruct (storage.filter_posts _ _ _ _ _ _) as [filtered|] eqn:Hf; [|by eauto].
  simpl. apply filter_posts_keeps_all in Hf.
  apply list_elem_of_lookup in Hin as [i Hi].
  destruct (Forall2_lookup_l _ _ _ _ _ Hf Hi) as (q & Hq & n & ->).
  destruct (keyed_raises filtered
              (spread post {["comments_count" := VInt n]}) TypeError) as [e ->];
    [by eapply list_elem_of_lookup_2|by apply sort_key_null_published_at|].
  by eauto.
Qed.

(** The draft that [create_post] has just stored makes the listing raise a
    [TypeError], whatever [fromisoformat] accepts. *)
Lemma get_posts_after_create_draft :
  router.create_post Samples.first_draft "p" "2024-01-02T10:00:00"
      (Text (Some initial_data))
    = (Return (spread (router.new_post Samples.first_draft "p" (Some "short")
                         "2024-01-02T10:00:00" None)
                 {["comments_count" := VInt 0]}),
       Text (Some Samples.after_first_draft)) ∧
  router.get_posts lower fromisoformat 0 10 None None false
      (Text (Some Samples.after_first_draft))
    = (Raise TypeError, Text (Some Samples.after_first_draft)).
Proof. split; reflexivity. Qed.

End listing_drafts.

Lemma get_posts_raises_on_draft_witness :
  Posts.router.new_post Samples.first_draft "p" (Some "short")
      "2024-01-02T10:00:00" None ∈ posts Samples.after_first_draft ∧
  ∃ e,
    router.get_posts (λ s, s) (λ _, None) 0 10 None None false
        (Text (Some Samples.after_first_draft))
      = (Raise e, Text (Some Samples.after_first_draft)).
Proof.
  assert (Posts.router.new_post Samples.first_draft "p" (Some "short")
            "2024-01-02T10:00:00" None ∈ posts Samples.after_first_draft) as Hin.
  { apply list_elem_of_here. }
  split; [exact Hin|].
  exact (get_posts_raises_on_draft (λ s, s) (λ _, None)
           Samples.after_first_draft _ 0 10 Hin eq_refl).
Defined.

(** ** Posts: publishing again *)

Lemma updates_of_publish (view : storage.post_detail) (pu : PostUpdate)
    (published_now updated_now : string) :
  pu_is_published pu = Some true →
  truthy (storage.detail view !! "is_published") = false →
  router.updates_of view pu published_now updated_now !! "published_at"
    = Some (VStr published_now).
Proof.
  intros Hp Hdraft. unfold router.updates_of. rewrite Hp, Hdraft. simpl.
  by simplify_map_eq.
Qed.

(** C2, where the code departs from it.  An update that publishes a post
    which is not published at that moment stamps ["published_at"] with the
    time of the update, also when the post had been published before and
    carries the earlier time: the earlier time is lost. *)
Theorem republish_restamps_published_at (d : document) (post_id : string)
    (post : dict) (pu : PostUpdate) (earlier published_now updated_now : string) :
  find_first (storage.has_id post_id) (posts d) = Some post →
  truthy (post !! "is_published") = false →
  post !! "published_at" = Some (VStr earlier) →
  pu_is_published pu = Some true →
  ∃ i response updated,
    find_index (storage.has_id post_id) (posts d) = Some i ∧
    router.update_post post_id pu published_now updated_now (Text (Some d))
      = (Return response,
         Text (Some {| posts := <[i := updated]> (posts d);
                       post_comments := post_comments d;
                       tags := tags d |})) ∧
    updated !! "published_at" = Some (VStr published_now) ∧
    response !! "published_at" = Some (VStr published_now).
Proof.
  intros Hfirst Hdraft _ Hp.
  assert (∃ i, find_index (storage.has_id post_id) (posts d) = Some i ∧
               posts d !! i = Some post) as (i & Hi & Hpost).
  { destruct (find_index (storage.has_id post_id) (posts d)) as [i|] eqn:Hi.
    - destruct (find_index_find_first _ _ _ Hi) as (p & ? & ? & _).
      exists i. split; [done|]. congruence.
    - apply find_first_None in Hi. congruence. }
  exists i. rewrite update_post_run, Hi, Hpost, get_post_run, Hfirst. simpl.
  match goal with
  | |- context [router.updates_of ?v _ _ _] =>
      pose proof (updates_of_publish v pu published_now updated_now Hp) as Hstamp
  end.
  simpl in Hstamp. rewrite detail_lookup in Hstamp by done.
  specialize (Hstamp Hdraft).
  eexists _, _. split_and!; [done|done| |].
  - by apply spread_lookup_r.
  - rewrite spread_lookup_l by by apply lookup_singleton_ne.
    by apply spread_lookup_r.
Qed.

(** The history behind it: a draft is created, published on the 3rd,
    withdrawn on the 4th and published again on the 5th; the post then
    says it was published on the 5th. *)
Lemma republish_restamps_published_at_witness :
  (router.update_post "p" (Samples.set_published false)
     "2024-01-04T10:00:00" "2024-01-04T10:00:00"
     (router.update_post "p" (Samples.set_published true)
        "2024-01-03T10:00:00" "2024-01-03T10:00:00"
        (router.create_post Samples.first_draft "p" "2024-01-02T10:00:00"
           (Text (Some initial_data))).2).2).2
    = Text (Some Samples.after_withdrawal) ∧
  find_first (storage.has_id "p") (posts Samples.after_withdrawal)
    = Some Samples.withdrawn_p ∧
  Samples.withdrawn_p !! "published_at" = Some (VStr "2024-01-03T10:00:00") ∧
  ∃ response updated,
    router.update_post "p" (Samples.set_published true)
        "2024-01-05T10:00:00" "2024-01-05T10:00:00"
        (Text (Some Samples.after_withdrawal))
      = (Return response,
         Text (Some {| posts := [updated]; post_comments := []; tags := [] |})) ∧
    updated !! "published_at" = Some (VStr "2024-01-05T10:00:00").
Proof.
  split; [vm_compute; reflexivity|].
  split; [reflexivity|]. split; [reflexivity|].
  destruct (republish_restamps_published_at Samples.after_withdrawal "p"
              Samples.withdrawn_p (Samples.set_published true)
              "2024-01-03T10:00:00" "2024-01-05T10:00:00" "2024-01-05T10:00:00"
              eq_refl eq_refl eq_refl eq_refl)
    as (i & response & updated & Hi & Hrun & Hstamp & _).
  injection Hi as <-. exists response, updated. split; [exact Hrun|exact Hstamp].
Defined.

(** Apart from that, no update touches ["published_at"]: it is neither
    cleared nor changed by an update that does not publish, or that
    publishes a post which is published already. *)
Theorem update_post_keeps_published_at (d : document) (post_id : string)
    (post : dict) (pu : PostUpdate) (published_now updated_now : string) :
  find_first (storage.has_id post_id) (posts d) = Some post →
  (pu_is_published pu = Some true → truthy (post !! "is_published") = true) →
  ∃ i response updated,
    find_index (storage.has_id post_id) (posts d) = Some i ∧
    router.update_post post_id pu published_now updated_now (Text (Some d))
      = (Return response,
         Text (Some {| posts := <[i := updated]> (posts d);
                       post_comments := post_comments d;
                       tags := tags d |})) ∧
    updated !! "published_at" = post !! "published_at" ∧
    response !! "published_at" = post !! "published_at".
Proof.
  intros Hfirst Hkeep.
  assert (∃ i, find_index (storage.has_id post_id) (posts d) = Some i ∧
               posts d !! i = Some post) as (i & Hi & Hpost).
  { destruct (find_index (storage.has_id post_id) (posts d)) as [i|] eqn:Hi.
    - destruct (find_index_find_first _ _ _ Hi) as (p & ? & ? & _).
      exists i. split; [done|]. congruence.
    - apply find_first_None in Hi. congruence. }
  exists i. rewrite update_post_run, Hi, Hpost, get_post_run, Hfirst. simpl.
  match goal with
  | |- context [router.updates_of ?v _ _ _] =>
      assert (router.updates_of v pu published_now updated_now !! "published_at"
              = None) as Hnone
  end.
  { unfold router.updates_of. simpl. rewrite detail_lookup by done.
    destruct (pu_title pu), (pu_content pu), (pu_excerpt pu), (pu_tags pu),
      (pu_is_published pu) as [[]|]; simpl;
      rewrite ?Hkeep by done; simpl; by simplify_map_eq. }
  eexists _, _. split_and!; [done|done| |].
  - by apply spread_lookup_l.
  - rewrite spread_lookup_l by by apply lookup_singleton_ne.
    by apply spread_lookup_l.
Qed.

Lemma update_post_keeps_published_at_witness :
  find_first (storage.has_id "p") (posts Samples.after_withdrawal)
    = Some Samples.withdrawn_p ∧
  ∃ response updated,
    router.update_post "p" (Samples.new_content "longer")
        "2024-01-05T10:00:00" "2024-01-05T10:00:00"
        (Text (Some Samples.after_withdrawal))
      = (Return response,
         Text (Some {| posts := [updated]; post_comments := []; tags := [] |})) ∧
    updated !! "published_at" = Some (VStr "2024-01-03T10:00:00").
Proof.
  split; [reflexivity|].
  destruct (update_post_keeps_published_at Samples.after_withdrawal "p"
              Samples.withdrawn_p (Samples.new_content "longer")
              "2024-01-05T10:00:00" "2024-01-05T10:00:00" eq_refl)
    as (i & response & updated & Hi & Hrun & Hkept & _).
  { intros Hp. discriminate Hp. }
  injection Hi as <-. exists response, updated. split; [exact Hrun|exact Hkept].
Defined.

End posts_router.

(** ** Unknown ids *)

Section unknown_ids.

(** An id that no idea carries: every handler that takes one answers 404
    and writes nothing. *)
Theorem ideas_unknown_id_404 (d : Ideas.document) (idea_id : string) :
  ¬ Exists (Ideas.storage.has_id idea_id) (Ideas.ideas d) →
  let not_found {A} : outcome A * file Ideas.document :=
    (Raise (HTTPException 404 "Idea not found"), Text (Some d)) in
  Ideas.router.get_idea idea_id (Text (Some d)) = not_found ∧
  (∀ idea_update,
     Ideas.router.update_idea idea_id idea_update (Text (Some d)) = not_found) ∧
  Ideas.router.delete_idea idea_id (Text (Some d)) = not_found ∧
  (∀ user_id uuid4 now,
     Ideas.router.toggle_like idea_id user_id uuid4 now (Text (Some d))
       = not_found) ∧
  (∀ comment uuid4 now,
     Ideas.router.add_comment idea_id comment uuid4 now (Text (Some d))
       = not_found).
Proof.
  intros Hnone. simpl.
  assert (find_index (Ideas.storage.has_id idea_id) (Ideas.ideas d) = None) as Hi.
  { apply find_index_None. by apply Forall_Exists_neg. }
  split_and!.
  - unfold Ideas.router.get_idea.
    destruct (get_idea_run d idea_id) as (r & E & Hr).
    unfold mbind, M_bind, bind. rewrite E.
    destruct r as [v|]; [|done].
    destruct Hr as [Hr _]. rewrite Hi in Hr. by destruct Hr; [eauto|].
  - intros iu. by rewrite update_idea_run, Hi.
  - unfold Ideas.router.delete_idea. by rewrite check_exists_run, Hi.
  - intros u uuid4 now. by rewrite toggle_like_router_run, Hi.
  - intros c uuid4 now. unfold Ideas.router.add_comment.
    by rewrite check_exists_run, Hi.
Qed.

Lemma ideas_unknown_id_404_witness :
  ¬ Exists (Ideas.storage.has_id "b") (Ideas.ideas Samples.one_idea) ∧
  Ideas.router.delete_idea "b" (Text (Some Samples.one_idea))
    = (Raise (HTTPException 404 "Idea not found"), Text (Some Samples.one_idea)).
Proof.
  assert (¬ Exists (Ideas.storage.has_id "b") (Ideas.ideas Samples.one_idea))
    as Hnone.
  { apply Forall_Exists_neg. repeat constructor. intros H. discriminate H. }
  split; [exact Hnone|].
  exact (proj1 (proj2 (proj2 (ideas_unknown_id_404 Samples.one_idea "b" Hnone)))).
Defined.

(** The same for posts. *)
Theorem posts_unknown_id_404 (d : Posts.document) (post_id : string) :
  ¬ Exists (Posts.storage.has_id post_id) (Posts.posts d) →
  let not_found {A} : outcome A * file Posts.document :=
    (Raise (HTTPException 404 "Post not found"), Text (Some d)) in
  Posts.router.get_post post_id (Text (Some d)) = not_found ∧
  (∀ post_update published_now updated_now,
     Posts.router.update_post post_id post_update published_now updated_now
       (Text (Some d)) = not_found) ∧
  Posts.router.delete_post post_id (Text (Some d)) = not_found ∧
  (∀ comment uuid4 now,
     Posts.router.add_comment post_id comment uuid4 now (Text (Some d))
       = not_found).
Proof.
  intros Hnone. simpl.
  assert (find_index (Posts.storage.has_id post_id) (Posts.posts d) = None) as Hi.
  { apply find_index_None. by apply Forall_Exists_neg. }
  pose proof (proj2 (find_first_None _ _) Hi) as Hfirst.
  split_and!.
  - unfold Posts.router.get_post, mbind, M_bind, bind at 1.
    by rewrite get_post_run, Hfirst.
  - intros pu n1 n2. by rewrite update_post_run, Hi.
  - by rewrite delete_post_run, Hi.
  - intros c uuid4 now. unfold Posts.router.add_comment, mbind, M_bind, bind at 1.
    by rewrite get_post_run, Hfirst.
Qed.

Lemma posts_unknown_id_404_witness :
  ¬ Exists (Posts.storage.has_id "q") (Posts.posts Samples.one_draft) ∧
  Posts.router.delete_post "q" (Text (Some Samples.one_draft))
    = (Raise (HTTPException 404 "Post not found"), Text (Some Samples.one_draft)).
Proof.
  assert (¬ Exists (Posts.storage.has_id "q") (Posts.posts Samples.one_draft))
    as Hnone.
  { apply Forall_Exists_neg. repeat constructor. intros H. discriminate H. }
  split; [exact Hnone|].
  exact (proj1 (proj2 (proj2 (posts_unknown_id_404 Samples.one_draft "q" Hnone)))).
Defined.

End unknown_ids.

(** ** Posts: delete, update and create *)

Section posts_more.
Import Posts.

(** Deleting a post through the handler, published or not: the first post
    with the id goes, and with it every comment whose [post_id] is the id;
    the other posts and comments stay, in their order. *)
Theorem delete_post_cascade (d : document) (post_id : string) :
  Exists (storage.has_id post_id) (posts d) →
  ∃ l1 post l2 d',
    posts d = l1 ++ post :: l2 ∧
    storage.has_id post_id post ∧
    Forall (λ p, ¬ storage.has_id post_id p) l1 ∧
    router.delete_post post_id (Text (Some d)) = (Return tt, Text (Some d')) ∧
    posts d' = l1 ++ l2 ∧
    post_comments d' = filter (λ c, ¬ storage.of_post post_id c) (post_comments d) ∧
    Forall (λ c, ¬ storage.of_post post_id c) (post_comments d') ∧
    (∀ other, other ≠ post_id →
       filter (storage.of_post other) (post_comments d')
         = filter (storage.of_post other) (post_comments d)) ∧
    tags d' = tags d.
Proof.
  intros Hex. rewrite delete_post_run.
  destruct (find_index_Exists _ _ Hex) as (i & post & Hi & _ & _).
  rewrite Hi.
  destruct (find_index_split _ _ _ Hi) as (l1 & p & l2 & E & <- & Hid & Hl1).
  eexists l1, p, l2, _. split_and!; try done; simpl.
  - rewrite E. apply delete_middle.
  - apply Forall_forall. by intros c [? _]%list_elem_of_filter.
  - intros other Hother. rewrite list_filter_filter. apply list_filter_iff.
    intros c. split; [by intros [? _]|]. intros Hc. split; [done|].
    unfold storage.of_post in *. congruence.
Qed.

Lemma delete_post_cascade_witness :
  Exists (storage.has_id "p") (posts Samples.one_draft) ∧
  ∃ d',
    router.delete_post "p" (Text (Some Samples.one_draft))
      = (Return tt, Text (Some d')) ∧
    Forall (λ c, ¬ storage.of_post "p" c) (post_comments d').
Proof.
  assert (Exists (storage.has_id "p") (posts Samples.one_draft)) as Hex.
  { left. reflexivity. }
  split; [exact Hex|].
  destruct (delete_post_cascade Samples.one_draft "p" Hex)
    as (l1 & post & l2 & d' & _ & _ & _ & Hrun & _ & _ & Hgone & _).
  exists d'. split; [exact Hrun|exact Hgone].
Defined.

(** Updating an existing post: [updated_at] is stamped on every update; a
    field that is sent replaces the stored one and a field that is not
    sent keeps it; an excerpt that is sent wins over the one derived from
    new content; and no update touches the id, the author or
    [created_at]. *)
Theorem update_post_merges_sent_fields (d : document) (post_id : string)
    (post : dict) (pu : PostUpdate) (published_now updated_now : string) :
  find_first (storage.has_id post_id) (posts d) = Some post →
  ∃ i response updated,
    find_index (storage.has_id post_id) (posts d) = Some i ∧
    router.update_post post_id pu published_now updated_now (Text (Some d))
      = (Return response,
         Text (Some {| posts := <[i := updated]> (posts d);
                       post_comments := post_comments d;
                       tags := tags d |})) ∧
    updated !! "updated_at" = Some (VStr updated_now) ∧
    updated !! "title" =
      match pu_title pu with
      | Some title => Some (VStr title)
      | None => post !! "title"
      end ∧
    updated !! "content" =
      match pu_content pu with
      | Some content => Some (VStr content)
      | None => post !! "content"
      end ∧
    updated !! "excerpt" =
      match pu_excerpt pu, pu_content pu with
      | Some excerpt, _ => Some (VStr excerpt)
      | None, Some content => Some (VStr (router.excerpt_of content))
      | None, None => post !! "excerpt"
      end ∧
    updated !! "tags" =
      match pu_tags pu with
      | Some tags => Some (VList tags)
      | None => post !! "tags"
      end ∧
    updated !! "is_published" =
      match pu_is_published pu with
      | Some is_published => Some (VBool is_published)
      | None => post !! "is_published"
      end ∧
    updated !! "id" = post !! "id" ∧
    updated !! "author" = post !! "author" ∧
    updated !! "created_at" = post !! "created_at" ∧
    (∀ k, k ≠ "comments_count" → response !! k = updated !! k).
Proof.
  intros Hfirst.
  assert (∃ i, find_index (storage.has_id post_id) (posts d) = Some i ∧
               posts d !! i = Some post) as (i & Hi & Hpost).
  { destruct (find_index (storage.has_id post_id) (posts d)) as [i|] eqn:Hi.
    - destruct (find_index_find_first _ _ _ Hi) as (p & ? & ? & _).
      exists i. split; [done|]. congruence.
    - apply find_first_None in Hi. congruence. }
  exists i. rewrite update_post_run, Hi, Hpost, get_post_run, Hfirst. simpl.
  eexists _, _. split_and!; [done|done|..].
  all: try (intros k Hk; apply spread_lookup_l; by apply lookup_singleton_ne).
  all: unfold router.updates_of; simpl;
    destruct (pu_title pu), (pu_content pu), (pu_excerpt pu), (pu_tags pu),
      (pu_is_published pu) as [[]|]; simpl;
    try destruct (negb _);
    first [ apply spread_lookup_r; reflexivity
          | apply spread_lookup_l; reflexivity ].
Qed.

Lemma update_post_merges_sent_fields_witness :
  find_first (storage.has_id "p") (posts Samples.after_withdrawal)
    = Some Samples.withdrawn_p ∧
  ∃ response updated,
    router.update_post "p" (Samples.new_content Samples.long_text)
        "2024-01-05T10:00:00" "2024-01-05T10:00:01"
        (Text (Some Samples.after_withdrawal))
      = (Return response,
         Text (Some {| posts := [updated]; post_comments := []; tags := [] |})) ∧
    updated !! "updated_at" = Some (VStr "2024-01-05T10:00:01") ∧
    updated !! "created_at" = Some (VStr "2024-01-02T10:00:00") ∧
    updated !! "title" = Some (VStr "Title").
Proof.
  split; [reflexivity|].
  destruct (update_post_merges_sent_fields Samples.after_withdrawal "p"
              Samples.withdrawn_p (Samples.new_content Samples.long_text)
              "2024-01-05T10:00:00" "2024-01-05T10:00:01" eq_refl)
    as (i & response & updated & Hi & Hrun & Hu & Ht & _ & _ & _ & _ & _ & _ & Hc & _).
  injection Hi as <-. exists response, updated.
  split; [exact Hrun|]. split; [exact Hu|]. split; [exact Hc|exact Ht].
Defined.

Lemma find_first_middle {A} (P : A → Prop) `{∀ x, Decision (P x)}
    (l1 l2 : list A) (x : A) :
  Forall (λ y, ¬ P y) l1 → P x → find_first P (l1 ++ x :: l2) = Some x.
Proof.
  intros Hl1 Hx.
  pose proof (find_index_middle P l1 l2 x Hl1 Hx) as Hi.
  destruct (find_index_find_first _ _ _ Hi) as (y & -> & Hy & _).
  rewrite list_lookup_middle in Hy by done. congruence.
Qed.

Lemma create_post_run (d : document) (pc : PostCreate) (uuid4 now : string) :
  ∃ excerpt published_at,
    router.create_post pc uuid4 now (Text (Some d)) =
      (Return (spread (router.new_post pc uuid4 excerpt now published_at)
                 {["comments_count" := VInt 0]}),
       Text (Some {| posts := posts d ++ [router.new_post pc uuid4 excerpt now published_at];
                     post_comments := post_comments d;
                     tags := tags d |})) ∧
    excerpt =
      (if negb (nonempty (pc_excerpt pc)) && negb (String.eqb (pc_content pc) "")
       then Some (router.excerpt_of (pc_content pc))
       else pc_excerpt pc) ∧
    published_at = (if pc_is_published pc then Some now else None).
Proof.
  eexists _, _. split; [|done].
  unfold router.create_post, storage.create_post.
  unfold mbind, M_bind, bind at 1. by rewrite posts_load_data_ok.
Qed.

(** A post created under an id that no stored post carries: it is stored
    last with the fields of the request, both dates set to the time of the
    request, and [published_at] set to that time if it is published and
    to [None] if it is a draft; a missing or empty excerpt is derived from
    a non-empty content.  Fetching the id afterwards returns these fields
    if the post is published and answers 404 if it is a draft. *)
Theorem create_post_then_get (d : document) (pc : PostCreate)
    (uuid4 now : string) :
  Forall (λ p, ¬ storage.has_id uuid4 p) (posts d) →
  ∃ stored response d',
    router.create_post pc uuid4 now (Text (Some d))
      = (Return response, Text (Some d')) ∧
    posts d' = posts d ++ [stored] ∧
    post_comments d' = post_comments d ∧
    stored !! "id" = Some (VStr uuid4) ∧
    stored !! "title" = Some (VStr (pc_title pc)) ∧
    stored !! "content" = Some (VStr (pc_content pc)) ∧
    stored !! "author" = Some (VStr (pc_author pc)) ∧
    stored !! "tags" = Some (VList (pc_tags pc)) ∧
    stored !! "created_at" = Some (VStr now) ∧
    stored !! "updated_at" = Some (VStr now) ∧
    stored !! "is_published" = Some (VBool (pc_is_published pc)) ∧
    stored !! "published_at"
      = Some (if pc_is_published pc then VStr now else VNone) ∧
    stored !! "excerpt" =
      Some (match pc_excerpt pc with
            | Some excerpt =>
                if decide (excerpt = "" ∧ pc_content pc ≠ "")
                then VStr (router.excerpt_of (pc_content pc))
                else VStr excerpt
            | None =>
                if decide (pc_content pc = "") then VNone
                else VStr (router.excerpt_of (pc_content pc))
            end) ∧
    response !! "comments_count" = Some (VInt 0) ∧
    (∀ k, k ≠ "comments_count" → response !! k = stored !! k) ∧
    if pc_is_published pc then
      ∃ view,
        router.get_post uuid4 (Text (Some d')) = (Return view, Text (Some d')) ∧
        storage.comments view = filter (storage.of_post uuid4) (post_comments d) ∧
        ∀ k, k ≠ "comments" → k ≠ "comments_count" →
             storage.detail view !! k = stored !! k
    else
      router.get_post uuid4 (Text (Some d'))
        = (Raise (HTTPException 404 "Post not found"), Text (Some d')).
Proof.
  intros Hfresh.
  destruct (create_post_run d pc uuid4 now) as (excerpt & published_at & -> & -> & ->).
  set (stored := router.new_post pc uuid4 _ now _).
  assert (stored !! "is_published" = Some (VBool (pc_is_published pc))) as Hpub.
  { unfold stored, router.new_post. by simplify_map_eq. }
  exists stored, (spread stored {["comments_count" := VInt 0]}),
    {| posts := posts d ++ [stored];
       post_comments := post_comments d;
       tags := tags d |}.
  split_and!; [done|done|done|..].
  1-8: unfold stored, router.new_post; by simplify_map_eq.
  - unfold stored, router.new_post. simplify_map_eq.
    by destruct (pc_is_published pc).
  - unfold stored, router.new_post. simplify_map_eq. f_equal.
    destruct (pc_excerpt pc) as [e|]; simpl.
    + destruct (String.eqb_spec e ""), (String.eqb_spec (pc_content pc) "");
        simpl; case_decide; try done; naive_solver.
    + destruct (String.eqb_spec (pc_content pc) ""); simpl; by case_decide.
  - by apply spread_lookup_r.
  - intros k Hk. apply spread_lookup_l. by apply lookup_singleton_ne.
  - simpl.
    assert (find_first (storage.has_id uuid4) (posts d ++ [stored]) = Some stored)
      as Hfirst.
    { apply find_first_middle; [done|].
      unfold storage.has_id, stored, router.new_post. by simplify_map_eq. }
    clearbody stored.
    match goal with
    | |- context [router.get_post uuid4 ?f] =>
        assert (router.get_post uuid4 f =
                  if pc_is_published pc
                  then (Return {| storage.detail := delete "comments" (spread stored
                                    {["comments_count" := VInt (Z.of_nat (length
                                       (filter (storage.of_post uuid4) (post_comments d))))]});
                                  storage.comments :=
                                    filter (storage.of_post uuid4) (post_comments d) |},
                        f)
                  else (Raise (HTTPException 404 "Post not found"), f)) as ->
    end.
    { unfold router.get_post, mbind, M_bind, bind at 1.
      rewrite get_post_run. simpl. rewrite Hfirst.
      unfold bind, ret, router.found. simpl.
      rewrite detail_lookup, Hpub by done. simpl.
      by destruct (pc_is_published pc). }
    destruct (pc_is_published pc); [|done].
    eexists. split; [done|]. split; [done|].
    intros k ??. simpl. by apply detail_lookup.
Qed.

Lemma create_post_then_get_witness :
  Forall (λ p, ¬ storage.has_id "p" p) (posts initial_data) ∧
  ∃ stored response d',
    router.create_post Samples.first_draft "p" "2024-01-02T10:00:00"
        (Text (Some initial_data))
      = (Return response, Text (Some d')) ∧
    posts d' = [stored] ∧
    stored !! "published_at" = Some VNone ∧
    stored !! "excerpt" = Some (VStr "short") ∧
    router.get_post "p" (Text (Some d'))
      = (Raise (HTTPException 404 "Post not found"), Text (Some d')).
Proof.
  split; [constructor|].
  destruct (create_post_then_get initial_data Samples.first_draft "p"
              "2024-01-02T10:00:00" (Forall_nil_2 _))
    as (stored & response & d' & Hrun & Hposts & _ & _ & _ & _ & _ & _
        & _ & _ & _ & Hp & He & _ & _ & Hget).
  exists stored, response, d'.
  split; [exact Hrun|]. split; [exact Hposts|]. split; [exact Hp|].
  split; [exact He|exact Hget].
Defined.

(** A comment on a published post is appended to the comments and is the
    last comment of the post the next time it is fetched, with the count
    one higher; the posts themselves are not touched. *)
Theorem add_post_comment_then_get (d : document) (post_id : string)
    (post : dict) (comment : PostCommentCreate) (uuid4 now : string) :
  find_first (storage.has_id post_id) (posts d) = Some post →
  truthy (post !! "is_published") = true →
  ∃ d' before after,
    router.add_comment post_id comment uuid4 now (Text (Some d))
      = (Return (router.new_comment comment post_id uuid4 now), Text (Some d')) ∧
    posts d' = posts d ∧
    post_comments d' = post_comments d ++ [router.new_comment comment post_id uuid4 now] ∧
    router.get_post post_id (Text (Some d)) = (Return before, Text (Some d)) ∧
    router.get_post post_id (Text (Some d')) = (Return after, Text (Some d')) ∧
    storage.comments after
      = storage.comments before ++ [router.new_comment comment post_id uuid4 now] ∧
    storage.detail before !! "comments_count"
      = Some (VInt (Z.of_nat (length (storage.comments before)))) ∧
    storage.detail after !! "comments_count"
      = Some (VInt (Z.of_nat (length (storage.comments before)) + 1)).
Proof.
  intros Hfirst Hpub.
  assert (storage.of_post post_id (router.new_comment comment post_id uuid4 now))
    as Hof.
  { unfold storage.of_post, router.new_comment. by simplify_map_eq. }
  assert (∀ d0 : document, posts d0 = posts d →
            router.get_post post_id (Text (Some d0)) =
              (Return {| storage.detail := delete "comments" (spread post
                           {["comments_count" := VInt (Z.of_nat (length
                              (filter (storage.of_post post_id) (post_comments d0))))]});
                         storage.comments :=
                           filter (storage.of_post post_id) (post_comments d0) |},
               Text (Some d0))) as Hget.
  { intros d0 Hd0. unfold router.get_post, mbind, M_bind, bind at 1.
    rewrite get_post_run, Hd0, Hfirst. unfold bind, ret, router.found. simpl.
    by rewrite detail_lookup, Hpub by done. }
  eexists _, _, _. split_and!.
  - unfold router.add_comment, mbind, M_bind, bind at 1.
    rewrite get_post_run, Hfirst. simpl.
    rewrite detail_lookup, Hpub by done. simpl.
    unfold storage.add_comment, router.or_404.
    unfold mbind, M_bind, bind, ret. rewrite posts_load_data_ok, Hfirst.
    rewrite decide_False.
    2:{ intros ->. by rewrite lookup_empty in Hpub. }
    unfold storage.save_data, write_json.
    rewrite decide_False; [done|].
    intros E. unfold storage.of_post in Hof. by rewrite E in Hof.
  - done.
  - done.
  - by apply Hget.
  - by apply (Hget (Document _ _ _)).
  - simpl. by rewrite filter_app, filter_cons_True, filter_nil.
  - simpl. rewrite lookup_delete_ne by done. by apply spread_lookup_r.
  - simpl. rewrite lookup_delete_ne by done.
    erewrite spread_lookup_r; [|apply lookup_singleton_eq].
    rewrite filter_app, filter_cons_True, filter_nil, length_app by done.
    simpl. do 2 f_equal. lia.
Qed.

Lemma add_post_comment_then_get_witness :
  find_first (storage.has_id "new") (posts Samples.two_published)
    = Some (Samples.published_on "new" "2024-01-03") ∧
  ∃ d' after,
    router.add_comment "new" Samples.a_post_comment "c1" "2024-01-04T10:00:00"
        (Text (Some Samples.two_published))
      = (Return (router.new_comment Samples.a_post_comment "new" "c1"
                   "2024-01-04T10:00:00"),
         Text (Some d')) ∧
    router.get_post "new" (Text (Some d')) = (Return after, Text (Some d')) ∧
    storage.detail after !! "comments_count" = Some (VInt 1).
Proof.
  split; [reflexivity|].
  destruct (add_post_comment_then_get Samples.two_published "new"
              (Samples.published_on "new" "2024-01-03") Samples.a_post_comment
              "c1" "2024-01-04T10:00:00" eq_refl eq_refl)
    as (d' & before & after & Hrun & _ & _ & Hbefore & Hafter & _ & _ & Hcount).
  exists d', after. split; [exact Hrun|]. split; [exact Hafter|].
  injection Hbefore as <-. exact Hcount.
Defined.

End posts_more.

(** ** Ideas: create and comment, then fetch *)

Section ideas_more.
Import Ideas.

Lemma get_idea_found (d : document) (idea_id : string) (idea : dict) :
  find_first (storage.has_id idea_id) (ideas d) = Some idea →
  router.get_idea idea_id (Text (Some d)) =
    (Return {| storage.detail := delete "comments_list" (spread idea
                 (<["comments" := VInt (Z.of_nat (length
                      (filter (storage.of_idea idea_id) (comments d))))]>
                    {["userLiked" := VBool false]}));
               storage.comments_list :=
                 filter (storage.of_idea idea_id) (comments d) |},
     Text (Some d)).
Proof.
  intros Hfirst. unfold router.get_idea, storage.get_idea.
  unfold mbind, M_bind, bind, ret. rewrite ideas_load_data_ok, Hfirst.
  rewrite decide_False; [done|].
  unfold find_first in Hfirst.
  destruct (list_find _ _) as [[i p]|] eqn:E; simplify_eq/=.
  apply list_find_Some in E as (_ & ? & _). by eapply has_id_nonempty.
Qed.

(** An idea created under an id that no stored idea carries: the response
    has the fields of the request, the date of the request, no likes, no
    comments and [userLiked = false]; the idea is stored last; and
    fetching the id afterwards returns the same fields. *)
Theorem create_idea_then_get (d : document) (idea : IdeaCreate)
    (uuid4 now : string) :
  Forall (λ i, ¬ storage.has_id uuid4 i) (ideas d) →
  ∃ stored response d' view,
    router.create_idea idea uuid4 now (Text (Some d))
      = (Return response, Text (Some d')) ∧
    ideas d' = ideas d ++ [stored] ∧
    comments d' = comments d ∧ likes d' = likes d ∧
    response !! "id" = Some (VStr uuid4) ∧
    response !! "title" = Some (VStr (ic_title idea)) ∧
    response !! "description" = Some (VStr (ic_description idea)) ∧
    response !! "author" = Some (VStr (ic_author idea)) ∧
    response !! "tags" = Some (VList (ic_tags idea)) ∧
    response !! "date" = Some (VStr now) ∧
    response !! "likes" = Some (VInt 0) ∧
    response !! "comments" = Some (VInt 0) ∧
    response !! "userLiked" = Some (VBool false) ∧
    (∀ k, k ≠ "comments" → response !! k = stored !! k) ∧
    router.get_idea uuid4 (Text (Some d')) = (Return view, Text (Some d')) ∧
    storage.comments_list view = filter (storage.of_idea uuid4) (comments d) ∧
    (∀ k, k ≠ "comments" → k ≠ "comments_list" →
          storage.detail view !! k = stored !! k).
Proof.
  intros Hfresh. rewrite create_idea_run.
  set (stored := router.new_idea idea uuid4 now).
  assert (find_first (storage.has_id uuid4) (ideas d ++ [stored]) = Some stored)
    as Hfirst.
  { apply find_first_middle; [done|].
    unfold storage.has_id, stored, router.new_idea. by simplify_map_eq. }
  eexists stored, _, _, _. split_and!; [done|done|done|done|..].
  1-7: rewrite spread_lookup_l by (by simplify_map_eq);
       unfold stored, router.new_idea; by simplify_map_eq.
  - by apply spread_lookup_r; simplify_map_eq.
  - by apply spread_lookup_r; simplify_map_eq.
  - intros k Hk. unfold spread.
    destruct (decide (k = "userLiked")) as [->|Hk'].
    + erewrite lookup_union_Some_l by (by simplify_map_eq).
      unfold stored, router.new_idea. by simplify_map_eq.
    + apply lookup_union_r. by simplify_map_eq.
  - by apply get_idea_found.
  - done.
  - intros k ??. simpl. rewrite lookup_delete_ne by done. unfold spread.
    destruct (decide (k = "userLiked")) as [->|Hk'].
    + erewrite lookup_union_Some_l by (by simplify_map_eq).
      unfold stored, router.new_idea. by simplify_map_eq.
    + apply lookup_union_r. by simplify_map_eq.
Qed.

Lemma create_idea_then_get_witness :
  Forall (λ i, ¬ storage.has_id "a" i) (ideas initial_data) ∧
  ∃ response d' view,
    router.create_idea Samples.first_idea "a" "January 02, 2024"
        (Text (Some initial_data))
      = (Return response, Text (Some d')) ∧
    response !! "likes" = Some (VInt 0) ∧
    router.get_idea "a" (Text (Some d')) = (Return view, Text (Some d')) ∧
    storage.detail view !! "title" = Some (VStr "Title").
Proof.
  split; [constructor|].
  destruct (create_idea_then_get initial_data Samples.first_idea "a"
              "January 02, 2024" (Forall_nil_2 _))
    as (stored & response & d' & view & Hrun & _ & _ & _ & _ & Ht & _ & _ & _
        & _ & Hl & _ & _ & Hstored & Hget & _ & Hview).
  exists response, d', view. split; [exact Hrun|]. split; [exact Hl|].
  split; [exact Hget|].
  rewrite (Hview "title") by discriminate.
  rewrite <- (Hstored "title") by discriminate. exact Ht.
Defined.

(** A comment on an existing idea is stored with the idea's id, the new
    id and the date of the request, and is the last comment of the idea
    the next time it is fetched, with the count one higher; ideas and
    likes are not touched. *)
Theorem add_idea_comment_then_get (d : document) (idea_id : string)
    (comment : CommentCreate) (uuid4 now : string) :
  Exists (storage.has_id idea_id) (ideas d) →
  ∃ d' before after,
    router.add_comment idea_id comment uuid4 now (Text (Some d))
      = (Return (router.new_comment comment idea_id uuid4 now), Text (Some d')) ∧
    ideas d' = ideas d ∧ likes d' = likes d ∧
    comments d' = comments d ++ [router.new_comment comment idea_id uuid4 now] ∧
    router.get_idea idea_id (Text (Some d)) = (Return before, Text (Some d)) ∧
    router.get_idea idea_id (Text (Some d')) = (Return after, Text (Some d')) ∧
    storage.comments_list after
      = storage.comments_list before
          ++ [router.new_comment comment idea_id uuid4 now] ∧
    storage.detail before !! "comments"
      = Some (VInt (Z.of_nat (length (storage.comments_list before)))) ∧
    storage.detail after !! "comments"
      = Some (VInt (Z.of_nat (length (storage.comments_list before)) + 1)).
Proof.
  intros Hex.
  destruct (find_index_Exists _ _ Hex) as (i & idea & Hi & Hfirst & Hidea).
  set (c := router.new_comment comment idea_id uuid4 now).
  assert (storage.of_idea idea_id c) as Hof.
  { unfold storage.of_idea, c, router.new_comment. by simplify_map_eq. }
  assert (idea ≠ ∅) as Hne.
  { destruct (find_index_find_first _ _ _ Hi) as (p & ? & ? & ?).
    assert (p = idea) as -> by congruence. by eapply has_id_nonempty. }
  exists {| ideas := ideas d; comments := comments d ++ [c];
            likes := likes d; tags := tags d |}.
  eexists _, _. split_and!.
  - unfold router.add_comment. rewrite check_exists_run, Hi.
    destruct (get_idea_run d idea_id) as (r & E & Hr). rewrite E. simpl.
    destruct r as [v|]; [|by destruct Hr as [_ [? ?]]; eauto].
    unfold storage.add_comment, router.or_404.
    unfold mbind, M_bind, bind, ret. rewrite ideas_load_data_ok, Hfirst.
    rewrite decide_False by done.
    fold c. rewrite (insert_id c "idea_id") by done.
    rewrite !decide_True by (unfold c, router.new_comment; by simplify_map_eq).
    unfold storage.save_data, write_json.
    rewrite decide_False; [done|].
    intros E'. unfold storage.of_idea in Hof. by rewrite E' in Hof.
  - done.
  - done.
  - done.
  - by apply get_idea_found.
  - by apply get_idea_found.
  - simpl. by rewrite filter_app, filter_cons_True, filter_nil.
  - simpl. rewrite lookup_delete_ne by done.
    apply spread_lookup_r. by simplify_map_eq.
  - simpl. rewrite lookup_delete_ne by done.
    erewrite spread_lookup_r; [|apply lookup_insert_eq].
    rewrite filter_app, filter_cons_True, filter_nil, length_app by done.
    simpl. do 2 f_equal. lia.
Qed.

Lemma add_idea_comment_then_get_witness :
  Exists (storage.has_id "a") (ideas Samples.one_idea) ∧
  ∃ d' after,
    router.add_comment "a" Samples.an_idea_comment "c1" "January 03, 2024"
        (Text (Some Samples.one_idea))
      = (Return (router.new_comment Samples.an_idea_comment "a" "c1"
                   "January 03, 2024"),
         Text (Some d')) ∧
    router.get_idea "a" (Text (Some d')) = (Return after, Text (Some d')) ∧
    storage.detail after !! "comments" = Some (VInt 1).
Proof.
  assert (Exists (storage.has_id "a") (ideas Samples.one_idea)) as Hex.
  { left. reflexivity. }
  split; [exact Hex|].
  destruct (add_idea_comment_then_get Samples.one_idea "a"
              Samples.an_idea_comment "c1" "January 03, 2024" Hex)
    as (d' & before & after & Hrun & _ & _ & _ & Hbefore & Hafter & _ & _ & Hcount).
  exists d', after. split; [exact Hrun|]. split; [exact Hafter|].
  rewrite get_idea_found with (idea := Samples.idea_a) in Hbefore by reflexivity.
  injection Hbefore as <-. exact Hcount.
Defined.

End ideas_more.

(** ** The tag indexes *)

Section tags.

Lemma str_le_trans (s t u : string) : str_le s t → str_le t u → str_le s u.
Proof.
  unfold str_le, String.leb. revert t u.
  induction s as [|a s IH]; intros [|b t] [|c u]; simpl; try done.
  unfold Ascii.compare.
  destruct (N.compare_spec (Ascii.N_of_ascii a) (Ascii.N_of_ascii b)) as [Hab|Hab|Hab],
           (N.compare_spec (Ascii.N_of_ascii b) (Ascii.N_of_ascii c)) as [Hbc|Hbc|Hbc],
           (N.compare_spec (Ascii.N_of_ascii a) (Ascii.N_of_ascii c)) as [Hac|Hac|Hac];
    try done; try lia.
  apply IH.
Qed.

#[local] Instance str_le_transitive : Transitive str_le.
Proof. intros s t u. apply str_le_trans. Qed.

#[local] Instance str_le_total : Total str_le.
Proof. intros s t. apply String.leb_total. Qed.

Lemma str_le_lt (s t : string) : str_le s t → s ≠ t → String.ltb s t = true.
Proof.
  unfold str_le, String.leb, String.ltb. intros Hle Hne.
  destruct (String.compare s t) eqn:E; [|done..].
  by apply String.compare_eq_iff in E.
Qed.

(** The index is in strictly ascending order and holds what it was given. *)
Lemma unique_tags_sorted (all_tags : list string) :
  StronglySorted (λ s t, String.ltb s t = true) (unique_tags all_tags) ∧
  ∀ t, t ∈ unique_tags all_tags ↔ t ∈ all_tags.
Proof.
  unfold unique_tags. split.
  - assert (NoDup (merge_sort str_le (remove_dups all_tags))) as Hnd.
    { rewrite merge_sort_Permutation. apply NoDup_remove_dups. }
    pose proof (StronglySorted_merge_sort str_le (remove_dups all_tags)) as Hs.
    induction Hs as [|s l Hl IH Hall]; [constructor|].
    apply NoDup_cons in Hnd as [Hs Hnd]. constructor; [by apply IH|].
    apply Forall_forall. intros t Ht. apply str_le_lt.
    + by eapply Forall_forall in Hall.
    + by intros ->.
  - intros t. by rewrite merge_sort_Permutation, elem_of_remove_dups.
Qed.

Lemma collect_tags_lists (xs : list dict) :
  Forall (λ x, ∃ tags, x !! "tags" = Some (VList tags)) xs →
  ∃ all_tags,
    collect_tags xs = Return all_tags ∧
    ∀ t, t ∈ all_tags ↔
         ∃ x tags, x ∈ xs ∧ x !! "tags" = Some (VList tags) ∧ t ∈ tags.
Proof.
  induction 1 as [|x xs [tags Hx] _ (all_tags & IH & Hall)]; simpl.
  - exists []. split; [done|]. intros t. split.
    + by intros ?%not_elem_of_nil.
    + by intros (x & tags & ?%not_elem_of_nil & _).
  - unfold tags_of. rewrite Hx, IH. eexists. split; [done|].
    intros t. rewrite elem_of_app, Hall. split.
    + intros [Ht|(y & ts & Hy & Hts & Ht)].
      * exists x, tags. split_and!; [left|done|done].
      * exists y, ts. split_and!; [by right|done|done].
    + intros (y & ts & [->|Hy]%elem_of_cons & Hts & Ht).
      * left. congruence.
      * right. eauto.
Qed.

(** [get_all_tags], for ideas and for posts: when every stored item has a
    list of tags, the index lists each tag once, in strictly ascending
    order, and lists exactly the tags that some item carries. *)
Theorem get_all_tags_sorted_unique :
  (∀ d : Ideas.document,
     Forall (λ x, ∃ tags, x !! "tags" = Some (VList tags)) (Ideas.ideas d) →
     ∃ l,
       IdeasRead.router.get_all_tags (Text (Some d)) = (Return l, Text (Some d)) ∧
       StronglySorted (λ s t, String.ltb s t = true) l ∧
       ∀ t, t ∈ l ↔
            ∃ x tags, x ∈ Ideas.ideas d ∧ x !! "tags" = Some (VList tags) ∧
                      t ∈ tags) ∧
  (∀ d : Posts.document,
     Forall (λ x, ∃ tags, x !! "tags" = Some (VList tags)) (Posts.posts d) →
     ∃ l,
       PostsRead.router.get_all_tags (Text (Some d)) = (Return l, Text (Some d)) ∧
       StronglySorted (λ s t, String.ltb s t = true) l ∧
       ∀ t, t ∈ l ↔
            ∃ x tags, x ∈ Posts.posts d ∧ x !! "tags" = Some (VList tags) ∧
                      t ∈ tags).
Proof.
  split; intros d Hd;
    destruct (collect_tags_lists _ Hd) as (all_tags & Hc & Hall);
    destruct (unique_tags_sorted all_tags) as [Hs Hin];
    exists (unique_tags all_tags); (split_and!; [|done|]).
  - unfold IdeasRead.router.get_all_tags, IdeasRead.storage.get_all_tags.
    unfold mbind, M_bind, bind, lift, ret.
    by rewrite ideas_load_data_ok, Hc.
  - intros t. by rewrite Hin, Hall.
  - unfold PostsRead.router.get_all_tags, PostsRead.storage.get_all_tags.
    unfold mbind, M_bind, bind, lift, ret.
    by rewrite posts_load_data_ok, Hc.
  - intros t. by rewrite Hin, Hall.
Qed.

Lemma get_all_tags_sorted_unique_witness :
  Forall (λ x, ∃ tags, x !! "tags" = Some (VList tags))
    (Ideas.ideas Samples.one_idea) ∧
  ∃ l,
    IdeasRead.router.get_all_tags (Text (Some Samples.one_idea))
      = (Return l, Text (Some Samples.one_idea)) ∧
    StronglySorted (λ s t, String.ltb s t = true) l ∧
    "go" ∈ l.
Proof.
  assert (Forall (λ x, ∃ tags, x !! "tags" = Some (VList tags))
            (Ideas.ideas Samples.one_idea)) as Htags.
  { repeat constructor. eexists. reflexivity. }
  split; [exact Htags|].
  destruct (proj1 get_all_tags_sorted_unique Samples.one_idea Htags)
    as (l & Hrun & Hsorted & Hin).
  exists l. split; [exact Hrun|]. split; [exact Hsorted|].
  apply Hin. exists Samples.idea_a, ["go"].
  split; [left|]. split; [reflexivity|left].
Defined.

(** An item whose ["tags"] is [None] or a number makes the index raise a
    [TypeError]; a string in that place is taken apart into its
    characters. *)
Lemma tags_of_edge_cases (x : dict) :
  (x !! "tags" = None → tags_of x = Return []) ∧
  (x !! "tags" = Some VNone → tags_of x = Raise TypeError) ∧
  (∀ n, x !! "tags" = Some (VInt n) → tags_of x = Raise TypeError) ∧
  (x !! "tags" = Some (VStr "go") → tags_of x = Return ["g"; "o"]).
Proof. unfold tags_of. split_and!; by intros; simplify_eq/=; simplify_option_eq. Qed.

End tags.

(** ** Start-up *)

(** [startup_event] leaves the empty collections in both data files,
    whatever they held: the ideas and the posts that were stored are gone,
    and both listings are empty. *)
Theorem startup_resets_both_stores (files : Main.disk) :
  let files' := Main.startup_event files in
  Main.ideas_file files' = Text (Some Ideas.initial_data) ∧
  Main.posts_file files' = Text (Some Posts.initial_data) ∧
  (∀ lower strptime skip limit search tag sort,
     IdeasRead.router.get_ideas lower strptime skip limit search tag sort
         (Main.ideas_file files')
       = (Return [], Main.ideas_file files')) ∧
  (∀ lower fromisoformat skip limit search tag published_only,
     Posts.router.get_posts lower fromisoformat skip limit search tag
         published_only (Main.posts_file files')
       = (Return [], Main.posts_file files')).
Proof.
  assert (Main.ideas_file (Main.startup_event files)
            = Text (Some Ideas.initial_data)) as Hi.
  { by destruct files as [[|[?|]|?] ?]. }
  assert (Main.posts_file (Main.startup_event files)
            = Text (Some Posts.initial_data)) as Hp.
  { by destruct files as [? [|[?|]|?]]. }
  cbv zeta. rewrite Hi, Hp. split_and!; [done|done| |].
  - intros lower strptime skip limit search tag sort.
    unfold IdeasRead.router.get_ideas, IdeasRead.storage.get_ideas.
    unfold mbind, M_bind, bind, lift, ret. rewrite ideas_load_data_ok. simpl.
    destruct (String.eqb sort "latest"); [simpl; by rewrite drop_nil, take_nil|].
    destruct (String.eqb sort "popular"); simpl; by rewrite drop_nil, take_nil.
  - intros lower fromisoformat skip limit search tag published_only.
    unfold Posts.router.get_posts, Posts.storage.get_posts.
    unfold mbind, M_bind, bind, lift, ret. rewrite posts_load_data_ok. simpl.
    by rewrite drop_nil, take_nil.
Qed.

(** ** Ideas: the listing *)

Section ideas_listing.
Import Ideas.
Variable lower : string → string.
Variable strptime : string → option Z.


(** What the filter loop lets through, for a listing without a viewer:
    stored ideas, each with its comment count and [userLiked = false]. *)
Lemma filter_ideas_items (g : Posts.storage.groups) (likes : list dict)
    (search tag : option string) (ideas l : list dict) :
  IdeasRead.storage.filter_ideas lower g likes search tag None ideas = Return l →
  Forall (λ item, ∃ idea n,
            idea ∈ ideas ∧
            item = spread idea
                     (<["comments" := VInt n]> {["userLiked" := VBool false]})) l.
Proof.
  revert l. induction ideas as [|idea ideas IH]; intros l; simpl.
  - intros [= <-]. constructor.
  - assert (∀ l', IdeasRead.storage.filter_ideas lower g likes search tag None ideas
                    = Return l' →
                  Forall (λ item, ∃ idea0 n,
                            idea0 ∈ idea :: ideas ∧
                            item = spread idea0
                              (<["comments" := VInt n]> {["userLiked" := VBool false]}))
                    l') as IH'.
    { intros l' Hl'. eapply Forall_impl; [by apply IH|].
      intros item (idea0 & n & Hin & ->). exists idea0, n. split; [by right|done]. }
    destruct (if nonempty search then _ else _) as [[]|]; [by apply IH'| |done].
    destruct (if nonempty tag then _ else _) as [[]|]; [by apply IH'| |done].
    destruct (Posts.storage.comments_count g idea) as [n|]; [|done].
    destruct (IdeasRead.storage.filter_ideas _ _ _ _ _ _ _) as [l'|]; [|done].
    intros [= <-]. constructor; [|by apply IH'].
    exists idea, n. split; [by left|done].
Qed.


Lemma keyed_by_date_items (xs : list dict) (kxs : list (Z * dict)) :
  IdeasRead.storage.keyed_by_date strptime xs = Return kxs →
  kxs.*2 = xs ∧
  Forall (λ kx, IdeasRead.storage.date_key strptime kx.2 = Return kx.1) kxs.
Proof.
  revert kxs. induction xs as [|x xs IH]; intros kxs; simpl.
  - by intros [= <-].
  - destruct (IdeasRead.storage.date_key strptime x) as [k|] eqn:Hk; [|done].
    destruct (IdeasRead.storage.keyed_by_date strptime xs) as [kxs'|]; [|done].
    intros [= <-]. destruct (IH _ eq_refl) as [Hxs ?].
    split; [by rewrite fmap_cons, Hxs|]. by constructor.
Qed.


Lemma sort_latest_perm (xs ys : list dict) :
  IdeasRead.storage.sort_latest strptime xs = Return ys → ys ≡ₚ xs.
Proof.
  unfold IdeasRead.storage.sort_latest.
  destruct (IdeasRead.storage.keyed_by_date strptime xs) as [kxs|e] eqn:Hk.
  - intros [= <-]. apply keyed_by_date_items in Hk as [<- _].
    by rewrite sort_desc_perm.
  - destruct e; try done. by intros [= <-].
Qed.

Lemma insert_by_likes_perm (kx : value * dict) (l : list (value * dict)) :
  IdeasRead.storage.insert_by_likes kx l ≡ₚ kx :: l.
Proof.
  induction l as [|ky l IH]; simpl; [done|].
  case_match; [|done]. rewrite IH. apply Permutation_swap.
Qed.

Lemma sort_by_likes_perm (l : list (value * dict)) :
  foldr IdeasRead.storage.insert_by_likes [] l ≡ₚ l.
Proof.
  induction l as [|kx l IH]; simpl; [done|].
  by rewrite insert_by_likes_perm, IH.
Qed.

Lemma sort_popular_perm (xs ys : list dict) :
  IdeasRead.storage.sort_popular xs = Return ys → ys ≡ₚ xs.
Proof.
  unfold IdeasRead.storage.sort_popular.
  destruct (length xs <? 2)%nat; [by intros [= <-]|].
  destruct (forallb _ _); [|done]. intros [= <-].
  rewrite sort_by_likes_perm. rewrite <- list_fmap_compose.
  by rewrite list_fmap_id.
Qed.

(** The steps of [get_ideas], when it returns. *)
Lemma get_ideas_steps (d : document) (skip limit : nat)
    (search tag : option string) (sort : string) (cu : option string)
    (l : list dict) (f' : file document) :
  IdeasRead.storage.get_ideas lower strptime skip limit search tag sort cu
      (Text (Some d)) = (Return l, f') →
  ∃ g filtered sorted,
    group_by "idea_id" (comments d) [] = Return g ∧
    IdeasRead.storage.filter_ideas lower g (likes d) search tag cu (ideas d)
      = Return filtered ∧
    (if String.eqb sort "latest" then IdeasRead.storage.sort_latest strptime filtered
     else if String.eqb sort "popular" then IdeasRead.storage.sort_popular filtered
     else Return filtered) = Return sorted ∧
    sorted ≡ₚ filtered ∧
    l = take limit (drop skip sorted) ∧
    f' = Text (Some d).
Proof.
  unfold IdeasRead.storage.get_ideas.
  unfold mbind, M_bind, bind, lift, ret. rewrite ideas_load_data_ok.
  destruct (group_by _ _ _) as [g|] eqn:Hg; [|done].
  destruct (IdeasRead.storage.filter_ideas _ _ _ _ _ _ _) as [filtered|] eqn:Hf;
    [|done].
  destruct (if String.eqb sort "latest" then _ else _) as [sorted|] eqn:Hs; [|done].
  intros [= <- <-]. exists g, filtered, sorted. split_and!; try done.
  destruct (String.eqb sort "latest"); [by apply sort_latest_perm|].
  destruct (String.eqb sort "popular"); [by apply sort_popular_perm|].
  by simplify_eq.
Qed.

(** The list endpoint never says that the viewer liked an idea: the
    handler passes no viewer to the store.  What it returns are stored
    ideas, at most [limit] of them, each with [userLiked = false] and its
    other stored fields. *)
Theorem get_ideas_never_marks_liked (d : document) (skip limit : nat)
    (search tag : option string) (sort : string)
    (l : list dict) (f' : file document) :
  IdeasRead.router.get_ideas lower strptime skip limit search tag sort
      (Text (Some d)) = (Return l, f') →
  f' = Text (Some d) ∧
  (length l ≤ limit)%nat ∧
  Forall (λ item,
            item !! "userLiked" = Some (VBool false) ∧
            ∃ idea, idea ∈ ideas d ∧
                    ∀ k, k ≠ "userLiked" → k ≠ "comments" →
                         item !! k = idea !! k) l.
Proof.
  intros Hrun. apply get_ideas_steps in Hrun
    as (g & filtered & sorted & _ & Hf & _ & Hperm & -> & ->).
  split_and!; [done|rewrite length_take; lia|].
  apply Forall_take, Forall_drop. rewrite Hperm.
  eapply Forall_impl; [by eapply filter_ideas_items|].
  intros item (idea & n & Hin & ->). split.
  - apply spread_lookup_r. by simplify_map_eq.
  - exists idea. split; [done|]. intros k ??.
    apply spread_lookup_l. by simplify_map_eq.
Qed.

End ideas_listing.

Lemma get_ideas_never_marks_liked_witness :
  Exists (Ideas.storage.like_of "a" "u1") (Ideas.likes Samples.after_first_like) ∧
  ∃ item,
    IdeasRead.router.get_ideas (λ s, s) Samples.january_date 0 100 None None
        "latest" (Text (Some Samples.after_first_like))
      = (Return [item], Text (Some Samples.after_first_like)) ∧
    item !! "likes" = Some (VInt 1) ∧
    item !! "userLiked" = Some (VBool false).
Proof.
  split; [left; split; reflexivity|].
  eexists. split; [reflexivity|].
  match goal with
  | |- ?x !! _ = _ ∧ _ =>
      destruct (get_ideas_never_marks_liked (λ s, s) Samples.january_date
                  Samples.after_first_like 0 100 None None "latest" [x] _ eq_refl)
        as (_ & _ & [[Hliked _] _]%Forall_cons)
  end.
  split; [reflexivity|exact Hliked].
Defined.

Section ideas_sorting.
Import Ideas.
Variable lower : string → string.
Variable strptime : string → option Z.

Lemma insert_by_likes_sorted (kx : value * dict) (l : list (value * dict)) :
  Forall (λ ky, ∃ n, ky.1 = VInt n ∧ ky.2 !! "likes" = Some (VInt n)) (kx :: l) →
  StronglySorted (λ a b : value * dict, ∃ m n,
      a.2 !! "likes" = Some (VInt m) ∧ b.2 !! "likes" = Some (VInt n) ∧ n ≤ m) l →
  StronglySorted (λ a b : value * dict, ∃ m n,
      a.2 !! "likes" = Some (VInt m) ∧ b.2 !! "likes" = Some (VInt n) ∧ n ≤ m)
    (IdeasRead.storage.insert_by_likes kx l).
Proof.
  induction l as [|ky l IH]; simpl.
  - intros _ _. by repeat constructor.
  - intros Hwf [Hall Hsorted]%StronglySorted_cons.
    apply Forall_cons in Hwf as [(m & Hkm & Hm) Hwf].
    pose proof Hwf as [(n & Hkn & Hn) Hwf']%Forall_cons.
    rewrite Hkm, Hkn. simpl.
    destruct (m <? n) eqn:E.
    + apply Z.ltb_lt in E. apply StronglySorted_cons. split.
      * rewrite insert_by_likes_perm. constructor; [|done].
        exists n, m. split_and!; [done|done|lia].
      * apply IH; [by constructor; eauto|done].
    + apply Z.ltb_ge in E. apply StronglySorted_cons. split.
      * constructor; [exists m, n; by split_and!|].
        eapply Forall_impl; [exact Hall|]. simpl.
        intros kz (n' & k & Hn' & Hk & Hle). exists m, k.
        split_and!; [done|done|]. assert (n' = n) by congruence. lia.
      * by apply StronglySorted_cons.
Qed.

Lemma sort_by_likes_sorted (l : list (value * dict)) :
  Forall (λ ky, ∃ n, ky.1 = VInt n ∧ ky.2 !! "likes" = Some (VInt n)) l →
  StronglySorted (λ a b : value * dict, ∃ m n,
      a.2 !! "likes" = Some (VInt m) ∧ b.2 !! "likes" = Some (VInt n) ∧ n ≤ m)
    (foldr IdeasRead.storage.insert_by_likes [] l).
Proof.
  induction 1 as [|kx l Hkx Hl IH]; simpl; [constructor|].
  apply insert_by_likes_sorted; [|done].
  constructor; [done|]. by rewrite sort_by_likes_perm.
Qed.

Lemma StronglySorted_fmap_snd {A B} (R : B → B → Prop) (l : list (A * B)) :
  StronglySorted (λ a b, R a.2 b.2) l → StronglySorted R l.*2.
Proof.
  induction 1 as [|x l _ IH Hall]; simpl; constructor; [done|].
  by apply Forall_fmap.
Qed.

(** [sort = "popular"] over ideas whose [likes] are integers: what is
    returned is a slice of the filtered ideas arranged by [likes], the
    most liked first. *)
Theorem get_ideas_popular_sorted (d : document) (skip limit : nat)
    (search tag : option string) (l : list dict) (f' : file document) :
  Forall (λ idea, ∃ n, idea !! "likes" = Some (VInt n)) (ideas d) →
  IdeasRead.router.get_ideas lower strptime skip limit search tag "popular"
      (Text (Some d)) = (Return l, f') →
  ∃ comments_by_idea filtered sorted,
    group_by "idea_id" (comments d) [] = Return comments_by_idea ∧
    IdeasRead.storage.filter_ideas lower comments_by_idea (likes d) search tag
      None (ideas d) = Return filtered ∧
    sorted ≡ₚ filtered ∧
    StronglySorted (λ a b, ∃ m n,
        a !! "likes" = Some (VInt m) ∧ b !! "likes" = Some (VInt n) ∧ n ≤ m)
      sorted ∧
    l = take limit (drop skip sorted).
Proof.
  intros Hint Hrun. apply get_ideas_steps in Hrun
    as (g & filtered & sorted & Hg & Hf & Hs & Hperm & -> & ->).
  exists g, filtered, sorted. split_and!; try done.
  assert (Forall (λ item, ∃ n, item !! "likes" = Some (VInt n)) filtered) as Hitems.
  { eapply Forall_impl; [by eapply filter_ideas_items|].
    intros item (idea & n & Hin & ->).
    eapply Forall_forall in Hint as [m Hm]; [|done].
    exists m. rewrite spread_lookup_l; [done|]. by simplify_map_eq. }
  simpl in Hs. unfold IdeasRead.storage.sort_popular in Hs.
  destruct (length filtered <? 2)%nat eqn:Hlen.
  - injection Hs as <-. apply Nat.ltb_lt in Hlen.
    destruct filtered as [|x [|y ?]]; simpl in Hlen; try lia.
    + constructor.
    + by repeat constructor.
  - destruct (forallb _ _); [|done]. injection Hs as <-.
    apply StronglySorted_fmap_snd. apply sort_by_likes_sorted.
    apply Forall_fmap. eapply Forall_impl; [exact Hitems|]. simpl.
    intros item [n Hn]. exists n. unfold IdeasRead.storage.likes_key.
    by rewrite Hn.
Qed.


Lemma keyed_by_date_unparsable (xs : list dict) :
  Forall (λ x, ∃ s, x !! "date" = Some (VStr s)) xs →
  Exists (λ x, ∃ s, x !! "date" = Some (VStr s) ∧ strptime s = None) xs →
  IdeasRead.storage.keyed_by_date strptime xs = Raise ValueError.
Proof.
  induction 1 as [|x xs [s Hs] Hxs IH]; intros Hex.
  - by apply Exists_nil in Hex.
  - simpl. unfold IdeasRead.storage.date_key. rewrite Hs. simpl.
    destruct (strptime s) as [t|] eqn:Ht; [|done].
    apply Exists_cons in Hex as [(s' & Hs' & Hnone)|Hex]; [congruence|].
    by rewrite IH.
Qed.

(** With [sort = "latest"], no search term and no tag: when the dates are
    strings and [strptime] rejects one of them, the [ValueError] is
    swallowed and the listing is the one of a sort that is neither
    ["latest"] nor ["popular"]: the ideas in the order in which they are
    stored. *)
Theorem get_ideas_latest_unparsable_date (d : document) (skip limit : nat)
    (cu : option string) (sort : string) :
  Forall (λ x, ∃ s, x !! "date" = Some (VStr s)) (ideas d) →
  Exists (λ x, ∃ s, x !! "date" = Some (VStr s) ∧ strptime s = None) (ideas d) →
  sort ≠ "latest" → sort ≠ "popular" →
  IdeasRead.storage.get_ideas lower strptime skip limit None None "latest" cu
      (Text (Some d))
    = IdeasRead.storage.get_ideas lower strptime skip limit None None sort cu
        (Text (Some d)).
Proof.
  intros Hdates Hbad Hlatest%String.eqb_neq Hpopular%String.eqb_neq.
  unfold IdeasRead.storage.get_ideas. rewrite Hlatest, Hpopular.
  unfold mbind, M_bind, bind, lift, ret. rewrite ideas_load_data_ok.
  destruct (group_by _ _ _) as [g|e0]; [|done].
  destruct (IdeasRead.storage.filter_ideas _ _ _ _ _ _ _) as [filtered|e0] eqn:Hf;
    [|done].
  simpl. unfold IdeasRead.storage.sort_latest.
  rewrite keyed_by_date_unparsable; [done| |].
  - clear Hbad. revert filtered Hf.
    induction Hdates as [|x xs [s Hs] _ IH]; intros filtered; simpl.
    + intros [= <-]. constructor.
    + destruct (Posts.storage.comments_count g x); [|done].
      destruct (IdeasRead.storage.filter_ideas _ _ _ _ _ _ _) as [l'|]; [|done].
      intros [= <-]. constructor; [|by apply IH].
      exists s. rewrite spread_lookup_l; [done|]. by simplify_map_eq.
  - clear Hdates. revert filtered Hf.
    induction Hbad as [x xs (s & Hs & Hnone)|x xs _ IH]; intros filtered; simpl.
    + destruct (Posts.storage.comments_count g x); [|done].
      destruct (IdeasRead.storage.filter_ideas _ _ _ _ _ _ _) as [l'|]; [|done].
      intros [= <-]. left. exists s. split; [|done].
      rewrite spread_lookup_l; [done|]. by simplify_map_eq.
    + destruct (Posts.storage.comments_count g x); [|done].
      destruct (IdeasRead.storage.filter_ideas _ _ _ _ _ _ _) as [l'|]; [|done].
      intros [= <-]. right. by apply IH.
Qed.

End ideas_sorting.

Lemma get_ideas_popular_sorted_witness :
  Forall (λ idea, ∃ n, idea !! "likes" = Some (VInt n))
    (Ideas.ideas Samples.two_liked) ∧
  ∃ first second sorted,
    IdeasRead.router.get_ideas (λ s, s) Samples.january_date 0 100 None None
        "popular" (Text (Some Samples.two_liked))
      = (Return [first; second], Text (Some Samples.two_liked)) ∧
    first !! "id" = Some (VStr "b") ∧
    second !! "id" = Some (VStr "a") ∧
    [first; second] = take 100 (drop 0 sorted) ∧
    StronglySorted (λ a b, ∃ m n,
        a !! "likes" = Some (VInt m) ∧ b !! "likes" = Some (VInt n) ∧ n ≤ m)
      sorted.
Proof.
  assert (Forall (λ idea, ∃ n, idea !! "likes" = Some (VInt n))
            (Ideas.ideas Samples.two_liked)) as Hint.
  { repeat constructor; eexists; reflexivity. }
  split; [exact Hint|].
  eexists _, _. 
  match goal with
  | |- ∃ sorted, ?run = (Return ?l, ?f) ∧ _ =>
      assert (run = (Return l, f)) as Hrun by reflexivity;
      destruct (get_ideas_popular_sorted (λ s, s) Samples.january_date
                  Samples.two_liked 0 100 None None _ _ Hint Hrun)
        as (g & filtered & sorted & _ & _ & _ & Hsorted & Hl)
  end.
  exists sorted. split; [exact Hrun|]. split; [reflexivity|].
  split; [reflexivity|]. split; [exact Hl|exact Hsorted].
Defined.


Lemma get_ideas_latest_unparsable_date_witness :
  Forall (λ x, ∃ s, x !! "date" = Some (VStr s)) (Ideas.ideas Samples.one_bad_date) ∧
  Exists (λ x, ∃ s, x !! "date" = Some (VStr s) ∧ Samples.january_date s = None)
    (Ideas.ideas Samples.one_bad_date) ∧
  ∃ first second,
    IdeasRead.storage.get_ideas (λ s, s) Samples.january_date 0 100 None None
        "latest" None (Text (Some Samples.one_bad_date))
      = (Return [first; second], Text (Some Samples.one_bad_date)) ∧
    first !! "id" = Some (VStr "a") ∧
    second !! "id" = Some (VStr "b").
Proof.
  assert (Forall (λ x, ∃ s, x !! "date" = Some (VStr s))
            (Ideas.ideas Samples.one_bad_date)) as Hdates.
  { repeat constructor; eexists; reflexivity. }
  assert (Exists (λ x, ∃ s, x !! "date" = Some (VStr s) ∧
                            Samples.january_date s = None)
            (Ideas.ideas Samples.one_bad_date)) as Hbad.
  { left. eexists. split; reflexivity. }
  split; [exact Hdates|]. split; [exact Hbad|].
  rewrite (get_ideas_latest_unparsable_date (λ s, s) Samples.january_date
             Samples.one_bad_date 0 100 None "oldest" Hdates Hbad);
    [|discriminate|discriminate].
  eexists _, _. split; [reflexivity|]. split; reflexivity.
Defined.
